(** * Aircraft Display System: a shallow embedding of [threads.c]

    The development follows the data path of the program:
    - [UART4_Handler] groups the received bytes into 32-bit words,
    - [Process_New_Aircraft_Thread] decodes seven words into one record of
      the staging array,
    - [Update_Current_Aircrafts_Thread] copies the staging array over the
      live array at the end of a burst,
    - [recalculate_screen_positions] projects the live records on the radar,
    - [Select_Aircraft_Thread] and [closest_aircraft_by_angle] maintain the
      index of the selected aircraft,
    - [Update_Search_Range] sets the display range and the display options
      from the buttons,
    - [float_to_string] prepares the numbers of the information panel.

    Integers are [Z] with the C conversions written out, [float] is IEEE-754
    binary32 as given by [SpecFloat] at precision 24, arrays are lists that
    are read and updated by index.  A thread is modelled by one iteration
    of its [while (1)] loop. *)

From Stdlib Require Import ZArith Lia Bool List.
From Stdlib Require Import Floats.SpecFloat.
From stdpp Require Import base list.

Local Open Scope Z_scope.

(** ** Fixed-width integers *)

Module Int.

(** Conversion to an unsigned [w]-bit type. *)
Definition to_unsigned (w : Z) (z : Z) : Z := z mod 2 ^ w.

(** Conversion to a signed [w]-bit type (two's complement). *)
Definition to_signed (w : Z) (z : Z) : Z :=
  (z + 2 ^ (w - 1)) mod 2 ^ w - 2 ^ (w - 1).

Definition to_uint8 := to_unsigned 8.
Definition to_uint16 := to_unsigned 16.
Definition to_uint32 := to_unsigned 32.
Definition to_int8 := to_signed 8.
Definition to_int16 := to_signed 16.
Definition to_int32 := to_signed 32.
Definition to_int64 := to_signed 64.

Definition INT32_MAX : Z := 2147483647.

(** [abs] of <stdlib.h> on [int]. *)
Definition abs (z : Z) : Z := to_int32 (Z.abs z).

(** C division truncates toward zero. *)
Definition div (a b : Z) : Z := Z.quot a b.

Definition is_byte (b : Z) : Prop := 0 <= b < 256.
Definition is_int16 (z : Z) : Prop := -32768 <= z < 32768.
Definition is_int32 (z : Z) : Prop := -2147483648 <= z < 2147483648.

(** The byte of [z] at position [i], counted from the least significant
    one: [(z >> (i * 8)) & 0xFF]. *)
Definition byte_at (i : Z) (z : Z) : Z := Z.land (Z.shiftr z (i * 8)) 255.

End Int.

(** ** binary32 floating point *)

(** A zero, or a finite number whose exponent is at most [bound] and whose
    magnitude is below [2 ^ (bound + prec)]. *)
Definition below (prec bound : Z) (x : spec_float) : Prop :=
  match x with
  | S754_zero _ => True
  | S754_finite _ m e => e <= bound /\ Zdigits2 (Z.pos m) + e <= bound + prec
  | _ => False
  end.

Module F32.

Definition float := spec_float.

Definition prec : Z := 24.
Definition emax : Z := 128.

Definition add : float -> float -> float := SFadd prec emax.
Definition sub : float -> float -> float := SFsub prec emax.
Definition mul : float -> float -> float := SFmul prec emax.
Definition div : float -> float -> float := SFdiv prec emax.
Definition sqrtf : float -> float := SFsqrt prec emax.
Definition fabsf : float -> float := SFabs.

(** [x < y] and [x > y]; both are false when an operand is a NaN. *)
Definition lt (x y : float) : bool := SFltb x y.
Definition gt (x y : float) : bool := SFltb y x.

(** Conversion of an integer to [float], rounding to nearest even. *)
Definition of_Z (z : Z) : float := binary_normalize prec emax z 0 false.

(** The [float] nearest to the decimal literal [num / den]. *)
Definition of_ratio (num den : Z) : float :=
  let '(q, e, l) := SFdiv_core_binary prec emax (Z.abs num) 0 den 0 in
  binary_round_aux prec emax (num <? 0) q e l.

(** Integer part of a float, as the conversion to an integer type takes
    it (truncation toward zero).  C leaves the conversion of a NaN or of
    an infinity undefined; 0 stands for it here.  C also leaves undefined
    the conversion of a number whose integer part is outside the integer
    type: here the integer part is kept as it is, and the cast that
    follows ([Int.to_int16], [Int.to_int32]) reduces it modulo the width
    of the type. *)
Definition truncate (x : float) : Z :=
  match x with
  | S754_finite s m e =>
      cond_Zopp s (if 0 <=? e then Z.pos m * 2 ^ e else Z.pos m / 2 ^ (- e))
  | _ => 0
  end.

Definition zero : float := S754_zero false.
Definition FLT_MAX : float := Eval cbv in SFmax_float prec emax.

(** Finite and of magnitude below [2 ^ 124], about [2.1e37]. *)
Definition moderate (x : float) : Prop := below prec 100 x.

End F32.

(** [double], used where the source mixes a [double] constant in. *)
Module F64.

Definition prec : Z := 53.
Definition emax : Z := 1024.

Definition mul : spec_float -> spec_float -> spec_float := SFmul prec emax.
Definition div : spec_float -> spec_float -> spec_float := SFdiv prec emax.

Definition of_ratio (num den : Z) : spec_float :=
  let '(q, e, l) := SFdiv_core_binary prec emax (Z.abs num) 0 den 0 in
  binary_round_aux prec emax (num <? 0) q e l.

(** A [float] is a [double] as it is. *)
Definition of_float (x : F32.float) : spec_float := x.

(** Assignment of a [double] to a [float] rounds to nearest even. *)
Definition to_float (x : spec_float) : F32.float :=
  match x with
  | S754_finite s m e => binary_round F32.prec F32.emax s m e
  | _ => x
  end.

End F64.

Abbreviation float := F32.float.

(** ** Constants of [threads.h] *)

Definition DATA_FIFO : Z := 0.
Definition MESSAGE_SIZE : Z := 28.
Definition MAX_AIRCRAFTS : nat := 200.

(** [M_PI] is a [double] literal. *)
Definition M_PI : spec_float :=
  Eval cbv in F64.of_ratio 314159265358979323846 100000000000000000000.

(** ** Data model *)

(** [AircraftData_t].  [callsign] holds the 8 characters of the array,
    the integer fields hold values of their C type. *)
Record AircraftData_t := mkAircraft {
  callsign : list Z;
  longitude : float;
  latitude : float;
  altitude : float;
  velocity : float;
  heading : float;
  screen_x : Z;
  screen_y : Z;
  on_screen : Z
}.

#[export] Instance AircraftData_inhabited : Inhabited AircraftData_t :=
  populate (mkAircraft [] F32.zero F32.zero F32.zero F32.zero F32.zero 0 0 0).

Definition set_on_screen (v : Z) (a : AircraftData_t) : AircraftData_t :=
  mkAircraft (callsign a) (longitude a) (latitude a) (altitude a)
    (velocity a) (heading a) (screen_x a) (screen_y a) v.

Definition set_screen_xy (x y : Z) (a : AircraftData_t) : AircraftData_t :=
  mkAircraft (callsign a) (longitude a) (latitude a) (altitude a)
    (velocity a) (heading a) x y (on_screen a).

(** The semaphores that the modelled code signals, and what it hands to
    the RTOS: a signal on a semaphore or a word written to a FIFO. *)
Inductive semaphore :=
  | sem_DATA_READY
  | sem_BURST_COMPLETE
  | sem_MAIN_DISPLAY
  | sem_INFO_DISPLAY.

Inductive event :=
  | SignalSemaphore (s : semaphore)
  | WriteFIFO (fifo : Z) (word : Z).

#[export] Instance semaphore_eq_dec : EqDecision semaphore.
Proof. solve_decision. Defined.

#[export] Instance event_eq_dec : EqDecision event.
Proof. solve_decision. Defined.

(** The global variables of [threads.c].  The counts are C [int]s that
    only ever hold 0 .. [MAX_AIRCRAFTS]; [selectedAircraft] is an [int16_t]
    where -1 means that no aircraft is selected.  [signalled] records the
    semaphore signals in the order they were given, latest first. *)
Record State := mkState {
  display_range_km : Z;
  stagingAircrafts : list AircraftData_t;
  stagingAircraftCount : nat;
  currentAircrafts : list AircraftData_t;
  currentAircraftCount : nat;
  selectedAircraft : Z;
  signalled : list semaphore
}.

Definition set_currentAircrafts (l : list AircraftData_t) (st : State) : State :=
  mkState (display_range_km st) (stagingAircrafts st) (stagingAircraftCount st)
    l (currentAircraftCount st) (selectedAircraft st) (signalled st).

Definition set_selectedAircraft (s : Z) (st : State) : State :=
  mkState (display_range_km st) (stagingAircrafts st) (stagingAircraftCount st)
    (currentAircrafts st) (currentAircraftCount st) s (signalled st).

Definition G8RTOS_SignalSemaphore (s : semaphore) (st : State) : State :=
  mkState (display_range_km st) (stagingAircrafts st) (stagingAircraftCount st)
    (currentAircrafts st) (currentAircraftCount st) (selectedAircraft st)
    (s :: signalled st).

(** Both arrays have [MAX_AIRCRAFTS] slots and the counts stay within. *)
Definition well_formed (st : State) : Prop :=
  length (stagingAircrafts st) = MAX_AIRCRAFTS /\
  length (currentAircrafts st) = MAX_AIRCRAFTS /\
  (stagingAircraftCount st <= MAX_AIRCRAFTS)%nat /\
  (currentAircraftCount st <= MAX_AIRCRAFTS)%nat.

(** ** The byte reassembler: [UART4_Handler] *)

(** The three [static] locals of the handler. *)
Record uart_state := mkUart {
  byte_buffer : list Z;
  byte_index : Z;
  message_byte_count : Z
}.

(** The word assembled from the four buffered bytes, as an [int32_t]. *)
Definition assemble_word (buf : list Z) : Z :=
  Int.to_int32
    (Z.lor (Z.lor (Z.lor (buf !!! 0%nat) (Z.shiftl (buf !!! 1%nat) 8))
                  (Z.shiftl (buf !!! 2%nat) 16))
           (Z.shiftl (buf !!! 3%nat) 24)).

(** One turn of the [while (UARTCharsAvail (...))] loop on the byte read. *)
Definition UART4_receive (u : uart_state) (received_byte : Z)
  : uart_state * list event :=
  let buf := <[Z.to_nat (byte_index u) := received_byte]> (byte_buffer u) in
  let idx := Int.to_uint8 (byte_index u + 1) in
  let cnt := Int.to_uint8 (message_byte_count u + 1) in
  let '(idx, cnt, evs) :=
    if idx =? 4 then
      let word := assemble_word buf in
      if Int.to_uint32 word =? 4294967295
      then (0, 0, [SignalSemaphore sem_BURST_COMPLETE])
      else (0, cnt, [WriteFIFO DATA_FIFO word])
    else (idx, cnt, []) in
  if MESSAGE_SIZE <=? cnt
  then (mkUart buf idx 0, evs ++ [SignalSemaphore sem_DATA_READY])
  else (mkUart buf idx cnt, evs).

(** The handler on the bytes that the UART holds when it is entered. *)
Fixpoint UART4_Handler (u : uart_state) (bytes : list Z)
  : uart_state * list event :=
  match bytes with
  | [] => (u, [])
  | b :: rest =>
      let '(u1, evs1) := UART4_receive u b in
      let '(u2, evs2) := UART4_Handler u1 rest in
      (u2, evs1 ++ evs2)
  end.

(** Little-endian value of four bytes, and the words of a byte sequence
    taken four bytes at a time; trailing bytes that do not fill a word are
    left out. *)
Definition le_word (b0 b1 b2 b3 : Z) : Z :=
  b0 + 256 * b1 + 65536 * b2 + 16777216 * b3.

Fixpoint le_words (bytes : list Z) : list Z :=
  match bytes with
  | b0 :: b1 :: b2 :: b3 :: rest => le_word b0 b1 b2 b3 :: le_words rest
  | _ => []
  end.

Definition END_OF_BURST : Z := 4294967295.

(** What the handler does with a completed word [w], given by its unsigned
    value. *)
Definition word_event (w : Z) : event :=
  if w =? END_OF_BURST
  then SignalSemaphore sem_BURST_COMPLETE
  else WriteFIFO DATA_FIFO (Int.to_int32 w).

Definition is_word_event (e : event) : bool :=
  match e with
  | SignalSemaphore sem_DATA_READY => false
  | _ => true
  end.

(** ** The record decoder: [Process_New_Aircraft_Thread] *)

(** Characters of a string literal, without the terminating NUL. *)
Definition N_A_padded : list Z := [78; 47; 65; 32; 32; 32; 32].
Definition SPACE : Z := 32.

(** [strncpy (dst, src, n)]: the characters of [src] up to its first NUL,
    then NULs up to [n] characters. *)
Fixpoint strncpy (src : list Z) (n : nat) : list Z :=
  match n with
  | O => []
  | S n' =>
      match src with
      | [] => repeat 0 n
      | c :: src' => if c =? 0 then repeat 0 n else c :: strncpy src' n'
      end
  end.

(** [int64_t callsign_raw = ((int64_t) high_byte << 32) | low_byte]: both
    operands are [int32_t], so [low_byte] is sign-extended before the or. *)
Definition callsign_raw (low_byte high_byte : Z) : Z :=
  Int.to_int64 (Z.lor (Int.to_int64 (Z.shiftl high_byte 32)) low_byte).

(** The local [char callsign[8]] after the loop that fills its first seven
    characters and the check of the first one.  The eighth character is
    not written by the loop: it keeps what the array held, [c7]. *)
Definition decode_callsign (low_byte high_byte : Z) (c7 : Z) : list Z :=
  let raw := callsign_raw low_byte high_byte in
  let cs := map (fun i => Int.byte_at (Z.of_nat i) raw) (seq 0 7) ++ [c7] in
  if (cs !!! 0%nat) =? SPACE then strncpy (N_A_padded ++ [0]) 8 else cs.

Definition TEN_THOUSAND : float := Eval cbv in F32.of_Z 10000.

(** [(float) n / 10000.0f] *)
Definition decode_fixed (n : Z) : float := F32.div (F32.of_Z n) TEN_THOUSAND.

(** The record built from the seven words of one message, in the order
    they are read from the FIFO.  [c7] and [local] are what the local
    variables [callsign] and [aircraftData] hold before they are written. *)
Definition decode_record (w0 w1 w2 w3 w4 w5 w6 : Z)
    (c7 : Z) (local : AircraftData_t) : AircraftData_t :=
  mkAircraft (strncpy (decode_callsign w0 w1 c7) 8)
    (decode_fixed w2) (decode_fixed w3) (decode_fixed w4)
    (decode_fixed w5) (decode_fixed w6)
    (screen_x local) (screen_y local) (on_screen local).

(** Modelled from the spec: [G8RTOS_ReadFIFO] is not part of the sources;
    the word queue is a FIFO, so seven reads take the seven oldest words.
    The result is [None] when fewer than seven words are queued. *)
Definition read_message (fifo : list Z)
  : option (Z * Z * Z * Z * Z * Z * Z * list Z) :=
  match fifo with
  | w0 :: w1 :: w2 :: w3 :: w4 :: w5 :: w6 :: rest =>
      Some (w0, w1, w2, w3, w4, w5, w6, rest)
  | _ => None
  end.

Definition set_staging (l : list AircraftData_t) (n : nat) (st : State) : State :=
  mkState (display_range_km st) l n
    (currentAircrafts st) (currentAircraftCount st) (selectedAircraft st)
    (signalled st).

(** One iteration of the thread, after [sem_DATA_READY] was taken. *)
Definition Process_New_Aircraft_Thread (fifo : list Z) (c7 : Z)
    (local : AircraftData_t) (st : State) : option (list Z * State) :=
  match read_message fifo with
  | None => None
  | Some (w0, w1, w2, w3, w4, w5, w6, rest) =>
      let aircraftData := decode_record w0 w1 w2 w3 w4 w5 w6 c7 local in
      if (stagingAircraftCount st <? MAX_AIRCRAFTS)%nat
      then Some (rest,
                 set_staging
                   (<[stagingAircraftCount st := aircraftData]> (stagingAircrafts st))
                   (S (stagingAircraftCount st)) st)
      else Some (rest, st)
  end.




(** ** The commit: [Update_Current_Aircrafts_Thread] *)

(** The values that [char *SelectedCallSign] takes: the address of the
    string literal ["N/A"], or the address of the [callsign] array of a slot
    of [currentAircrafts].  [==] on two such pointers compares addresses. *)
Inductive char_ptr :=
  | literal_N_A
  | callsign_of (slot : nat).

Definition char_ptr_eqb (p q : char_ptr) : bool :=
  match p, q with
  | literal_N_A, literal_N_A => true
  | callsign_of i, callsign_of j => (i =? j)%nat
  | _, _ => false
  end.

(** Lines 691-697: the pointer captured before the copy. *)
Definition capture_SelectedCallSign (st : State) : char_ptr :=
  if selectedAircraft st =? -1 then literal_N_A
  else
    fold_left
      (fun p i => if selectedAircraft st =? Z.of_nat i then callsign_of i else p)
      (seq 0 (currentAircraftCount st)) literal_N_A.

(** Lines 701-707: one turn of the copy loop. *)
Definition commit_step (SelectedCallSign : char_ptr) (st : State) (i : nat)
  : State :=
  let st1 :=
    set_currentAircrafts
      (<[i := stagingAircrafts st !!! i]> (currentAircrafts st)) st in
  if char_ptr_eqb (callsign_of i) SelectedCallSign
  then set_selectedAircraft (Int.to_int16 (Z.of_nat i)) st1
  else st1.

(** Lines 690-711: what the thread does while it holds both semaphores. *)
Definition commit (st : State) : State :=
  let SelectedCallSign := capture_SelectedCallSign st in
  let st1 :=
    fold_left (commit_step SelectedCallSign)
      (seq 0 (stagingAircraftCount st)) st in
  mkState (display_range_km st1) (stagingAircrafts st1) 0
    (currentAircrafts st1) (stagingAircraftCount st1) (selectedAircraft st1)
    (signalled st1).

(** The identifier that the selection designates, if there is one. *)
Definition selected_callsign (st : State) : option (list Z) :=
  if (0 <=? selectedAircraft st)
     && (selectedAircraft st <? Z.of_nat (currentAircraftCount st))
  then callsign <$> (currentAircrafts st !! Z.to_nat (selectedAircraft st))
  else None.

(** The live records: the first [currentAircraftCount] slots. *)
Definition live (st : State) : list AircraftData_t :=
  take (currentAircraftCount st) (currentAircrafts st).

(** The staged records: the first [stagingAircraftCount] slots. *)
Definition staged (st : State) : list AircraftData_t :=
  take (stagingAircraftCount st) (stagingAircrafts st).

(** First index, in scan order, of a record with identifier [x]. *)
Fixpoint find_callsign (x : list Z) (l : list AircraftData_t) : option nat :=
  match l with
  | [] => None
  | a :: l' =>
      if decide (callsign a = x) then Some 0%nat
      else S <$> find_callsign x l'
  end.

(** ** What the sources take from outside *)

(** The functions of <math.h> that the projector calls. *)
Class Libm := {
  cosf : float -> float;
  sinf : float -> float;
  atan2f : float -> float -> float
}.

(** The size of the panel, from the display driver's header. *)
Class Display := {
  X_MAX : Z;
  Y_MAX : Z
}.

(** ** The projector: [recalculate_screen_positions] *)

Definition CENTER_LATITUDE : float :=
  Eval cbv in F64.to_float (F64.of_ratio 296465 10000).
Definition CENTER_LONGITUDE : float :=
  Eval cbv in F64.to_float (F64.of_ratio (-823533) 10000).

Definition radar_top : Z := 70.
Definition radar_bottom : Z := 279.
Definition radar_height : Z := Int.to_int16 (radar_bottom - radar_top + 1).
Definition radar_center_y : Z := Int.to_int16 (radar_top + Int.div radar_height 2).
Definition max_pixel_radius : float := Eval cbv in F32.of_Z 100.

(** [CENTER_LATITUDE * (M_PI / 180.0f)]: computed in [double], stored in a
    [float]. *)
Definition latitude_in_radians : float :=
  Eval cbv in
    F64.to_float
      (F64.mul (F64.of_float CENTER_LATITUDE)
               (F64.div M_PI (F64.of_float (F32.of_Z 180)))).

Definition km_per_degree_lat : float := Eval cbv in F32.of_ratio 11132 100.

(** The projection of a record reads its latitude and longitude only. *)
Definition same_position (a b : AircraftData_t) : Prop :=
  latitude a = latitude b /\ longitude a = longitude b.

Section Projector.
Context `{Libm} `{Display}.

Definition radar_center_x : Z := Int.to_int16 (Int.div X_MAX 2).

Definition km_per_degree_lon : float :=
  F32.mul km_per_degree_lat (cosf latitude_in_radians).

Definition distance_latitude_km (a : AircraftData_t) : float :=
  F32.mul (F32.sub (latitude a) CENTER_LATITUDE) km_per_degree_lat.

Definition distance_longitude_km (a : AircraftData_t) : float :=
  F32.mul (F32.sub (longitude a) CENTER_LONGITUDE) km_per_degree_lon.

Definition distance_from_center (a : AircraftData_t) : float :=
  F32.sqrtf
    (F32.add (F32.mul (distance_latitude_km a) (distance_latitude_km a))
             (F32.mul (distance_longitude_km a) (distance_longitude_km a))).

Definition angle (a : AircraftData_t) : float :=
  atan2f (distance_latitude_km a) (distance_longitude_km a).

(** [max_pixel_radius / display_range_km] *)
Definition scale (range : Z) : float :=
  F32.div max_pixel_radius (F32.of_Z range).

Definition pixel_distance (range : Z) (a : AircraftData_t) : float :=
  F32.mul (distance_from_center a) (scale range).

(** The values stored in [screen_x] and [screen_y] for a record in
    range: [abs] of the [int16_t] locals of the same names. *)
Definition projected_x (range : Z) (a : AircraftData_t) : Z :=
  Int.to_int16
    (Int.abs
       (Int.to_int16
          (radar_center_x
           + Int.to_int16
               (F32.truncate (F32.mul (pixel_distance range a) (cosf (angle a))))))).

Definition projected_y (range : Z) (a : AircraftData_t) : Z :=
  Int.to_int16
    (Int.abs
       (Int.to_int16
          (radar_center_y
           - Int.to_int16
               (F32.truncate (F32.mul (pixel_distance range a) (sinf (angle a))))))).

(** [distance_from_center > display_range_km] *)
Definition beyond_range (range : Z) (a : AircraftData_t) : bool :=
  F32.gt (distance_from_center a) (F32.of_Z range).

(** One turn of the loop over the live records. *)
Definition recalculate_step (st : State) (i : nat) : State :=
  let aircraft := currentAircrafts st !!! i in
  if beyond_range (display_range_km st) aircraft then
    let st1 :=
      set_currentAircrafts
        (<[i := set_on_screen 0 aircraft]> (currentAircrafts st)) st in
    if Z.of_nat i =? selectedAircraft st1
    then G8RTOS_SignalSemaphore sem_INFO_DISPLAY (set_selectedAircraft (-1) st1)
    else st1
  else
    set_currentAircrafts
      (<[i := set_screen_xy
                (projected_x (display_range_km st) aircraft)
                (projected_y (display_range_km st) aircraft)
                (set_on_screen 1 aircraft)]> (currentAircrafts st)) st.

Definition recalculate_screen_positions (st : State) : State :=
  fold_left recalculate_step (seq 0 (currentAircraftCount st)) st.

(** What one turn of the loop makes of the record it visits. *)
Definition projected_record (range : Z) (a : AircraftData_t) : AircraftData_t :=
  if beyond_range range a then set_on_screen 0 a
  else set_screen_xy (projected_x range a) (projected_y range a)
         (set_on_screen 1 a).

(** The selected record is among the first [n] and beyond the range. *)
Definition selection_lost (n : nat) (st : State) : bool :=
  (0 <=? selectedAircraft st)
  && (selectedAircraft st <? Z.of_nat n)
  && beyond_range (display_range_km st)
       (currentAircrafts st !!! Z.to_nat (selectedAircraft st)).

(** One iteration of [Update_Current_Aircrafts_Thread], after
    [sem_BURST_COMPLETE] was taken. *)
Definition Update_Current_Aircrafts_Thread (st : State) : State :=
  G8RTOS_SignalSemaphore sem_MAIN_DISPLAY
    (recalculate_screen_positions (commit st)).

End Projector.

(** ** The projection as the spec words it

    The equirectangular approximation around the reference point: planar
    offsets in kilometres, the offset in longitude scaled by the cosine of
    the reference latitude; radial distance and bearing; a linear scale to
    a circle of [MAX_PIXEL_RADIUS] pixels around a fixed point of the
    screen.  The constants are the [float]s nearest to the decimal values
    given. *)

(** The reference point: 29.6465 degrees north, 82.3533 degrees west. *)
Definition reference_latitude : float := Eval cbv in F32.of_ratio 296465 10000.
Definition reference_longitude : float :=
  Eval cbv in F32.of_ratio (-823533) 10000.

(** The reference latitude in radians: 29.6465 * pi / 180 = 0.5174290367. *)
Definition reference_latitude_radians : float :=
  Eval cbv in F32.of_ratio 5174290367 10000000000.

(** Kilometres in a degree of latitude: 111.32. *)
Definition KM_PER_DEGREE : float := Eval cbv in F32.of_ratio 11132 100.

(** The radius, in pixels, that the display range is drawn at. *)
Definition MAX_PIXEL_RADIUS : float := Eval cbv in F32.of_ratio 100 1.

(** The row of the centre of the radar: the middle of the rows 70 to
    279. *)
Definition center_y : Z := 175.

Section Equirectangular.
Context `{Libm} `{Display}.

(** The column of the centre: the middle of the panel. *)
Definition center_x : Z := Int.to_int16 (Int.div X_MAX 2).

(** Offset to the north of the reference point, in kilometres. *)
Definition north_km (a : AircraftData_t) : float :=
  F32.mul (F32.sub (latitude a) reference_latitude) KM_PER_DEGREE.

(** Offset to the east: a degree of longitude is a degree of latitude
    times the cosine of the reference latitude. *)
Definition east_km (a : AircraftData_t) : float :=
  F32.mul (F32.sub (longitude a) reference_longitude)
    (F32.mul KM_PER_DEGREE (cosf reference_latitude_radians)).

Definition radial_distance (a : AircraftData_t) : float :=
  F32.sqrtf (F32.add (F32.mul (north_km a) (north_km a))
                     (F32.mul (east_km a) (east_km a))).

(** The bearing, counted from east toward north. *)
Definition bearing (a : AircraftData_t) : float :=
  atan2f (north_km a) (east_km a).

(** The distance in pixels at the display range [range]. *)
Definition pixel_radius (range : Z) (a : AircraftData_t) : float :=
  F32.mul (radial_distance a) (F32.div MAX_PIXEL_RADIUS (F32.of_Z range)).

(** The whole pixels to the right of the centre and above it. *)
Definition offset_x (range : Z) (a : AircraftData_t) : Z :=
  F32.truncate (F32.mul (pixel_radius range a) (cosf (bearing a))).
Definition offset_y (range : Z) (a : AircraftData_t) : Z :=
  F32.truncate (F32.mul (pixel_radius range a) (sinf (bearing a))).

End Equirectangular.

(** ** The selector *)

(** [if (aircraft->on_screen)] *)
Definition visible (a : AircraftData_t) : Prop := on_screen a <> 0.

Definition JOYSTICK_MIDPOINT : Z := Int.to_int16 (Int.div 4096 2).

(** The four direction flags of [closest_aircraft_by_angle], computed from
    the offsets [dx] and [dy] of the joystick from its midpoint. *)
Record directions := mkDirections {
  goingWest : bool;
  goingEast : bool;
  goingSouth : bool;
  goingNorth : bool
}.

Definition joystick_offset (joystick : Z) : Z :=
  Int.to_int32 (joystick - JOYSTICK_MIDPOINT).

Definition determine_direction (dx dy : Z) : directions :=
  mkDirections
    ((Int.abs dy <? Int.abs dx) && (0 <? dx))
    ((Int.abs dy <? Int.abs dx) && (dx <? 0))
    ((Int.abs dx <? Int.abs dy) && (0 <? dy))
    ((Int.abs dx <? Int.abs dy) && (dy <? 0)).

(** One turn of the loop of [closest_aircraft_by_angle] on the locals
    [closestIndex] and [minDifference]. *)
Definition closest_step (st : State) (d : directions)
    (refLatitude refLongitude : float)
    (acc : Z * float) (i : nat) : Z * float :=
  let '(closestIndex, minDifference) := acc in
  if Z.of_nat i =? selectedAircraft st then acc
  else
    let aircraft := currentAircrafts st !!! i in
    if on_screen aircraft =? 0 then acc
    else
      let deltaLon := F32.sub (longitude aircraft) refLongitude in
      let deltaLat := F32.sub (latitude aircraft) refLatitude in
      if goingEast d && F32.gt deltaLon F32.zero then
        if F32.lt deltaLon minDifference
        then (Int.to_int16 (Z.of_nat i), deltaLon) else acc
      else if goingWest d && F32.lt deltaLon F32.zero then
        let diff := F32.fabsf deltaLon in
        if F32.lt diff minDifference
        then (Int.to_int16 (Z.of_nat i), diff) else acc
      else if goingNorth d && F32.gt deltaLat F32.zero then
        if F32.lt deltaLat minDifference
        then (Int.to_int16 (Z.of_nat i), deltaLat) else acc
      else if goingSouth d && F32.lt deltaLat F32.zero then
        let diff := F32.fabsf deltaLat in
        if F32.lt diff minDifference
        then (Int.to_int16 (Z.of_nat i), diff) else acc
      else acc.

Definition closest_aircraft_by_angle (st : State) (joystick_dx joystick_dy : Z)
  : Z :=
  if selectedAircraft st =? -1 then -1
  else
    let dx := joystick_offset joystick_dx in
    let dy := joystick_offset joystick_dy in
    let reference := currentAircrafts st !!! Z.to_nat (selectedAircraft st) in
    let refLatitude := latitude reference in
    let refLongitude := longitude reference in
    let d := determine_direction dx dy in
    let '(closestIndex, _) :=
      fold_left (closest_step st d refLatitude refLongitude)
        (seq 0 (currentAircraftCount st)) (-1, F32.FLT_MAX) in
    if closestIndex =? -1 then selectedAircraft st else closestIndex.

(** The direction that the flags stand for, and the flags of a direction. *)
Inductive direction := East | West | North | South.

Definition classify (d : directions) : option direction :=
  if goingEast d then Some East
  else if goingWest d then Some West
  else if goingNorth d then Some North
  else if goingSouth d then Some South
  else None.

Definition flags_of (dir : direction) : directions :=
  match dir with
  | East => mkDirections false true false false
  | West => mkDirections true false false false
  | North => mkDirections false false false true
  | South => mkDirections false false true false
  end.

(** The direction of an offset whose larger axis is strictly larger. *)
Definition dominant_direction (dx dy : Z) : direction :=
  if Z.abs dy <? Z.abs dx
  then (if 0 <? dx then West else East)
  else (if 0 <? dy then South else North).

(** Whether a record at ([lat], [lon]) lies in direction [dir] of the
    reference position, and how far along that direction it is. *)
Definition lies_toward (dir : direction) (refLatitude refLongitude : float)
    (a : AircraftData_t) : bool :=
  match dir with
  | East => F32.gt (F32.sub (longitude a) refLongitude) F32.zero
  | West => F32.lt (F32.sub (longitude a) refLongitude) F32.zero
  | North => F32.gt (F32.sub (latitude a) refLatitude) F32.zero
  | South => F32.lt (F32.sub (latitude a) refLatitude) F32.zero
  end.

Definition directed_delta (dir : direction) (refLatitude refLongitude : float)
    (a : AircraftData_t) : float :=
  match dir with
  | East => F32.sub (longitude a) refLongitude
  | West => F32.fabsf (F32.sub (longitude a) refLongitude)
  | North => F32.sub (latitude a) refLatitude
  | South => F32.fabsf (F32.sub (latitude a) refLatitude)
  end.

(** The record that the selection designates. *)
Definition reference (st : State) : AircraftData_t :=
  currentAircrafts st !!! Z.to_nat (selectedAircraft st).

(** Slot [i] holds a visible live record [a] other than the selected one
    that lies in direction [dir] of it; only the first [n] slots count. *)
Definition candidate (n : nat) (st : State) (dir : direction)
    (i : nat) (a : AircraftData_t) : Prop :=
  (i < n)%nat
  /\ currentAircrafts st !! i = Some a
  /\ Z.of_nat i <> selectedAircraft st
  /\ visible a
  /\ lies_toward dir (latitude (reference st)) (longitude (reference st)) a = true.

(** The distance of [a] along [dir] from the selected record. *)
Definition delta_from_selected (st : State) (dir : direction)
    (a : AircraftData_t) : float :=
  directed_delta dir (latitude (reference st)) (longitude (reference st)) a.

(** The distance of every candidate along [dir] is below [FLT_MAX], the
    first value of [minDifference]. *)
Definition deltas_below_FLT_MAX (st : State) (dir : direction) : Prop :=
  forall i a, candidate (currentAircraftCount st) st dir i a ->
    F32.lt (delta_from_selected st dir a) F32.FLT_MAX = true.

(** The coordinates in the live array are far from the limits of
    [float]. *)
Definition moderate_positions (st : State) : Prop :=
  forall i a, currentAircrafts st !! i = Some a ->
    F32.moderate (longitude a) /\ F32.moderate (latitude a).

(** A sample of the joystick on one axis, as the thread unpacks it. *)
Definition joystick_sample (j : Z) : Prop := 0 <= j <= 65535.

Definition DEADZONE : Z := 900.

(** [isNeutral] of [Select_Aircraft_Thread]. *)
Definition isNeutral (joystick_dx joystick_dy : Z) : bool :=
  (JOYSTICK_MIDPOINT - DEADZONE <? joystick_dx)
  && (joystick_dx <? JOYSTICK_MIDPOINT + DEADZONE)
  && (JOYSTICK_MIDPOINT - DEADZONE <? joystick_dy)
  && (joystick_dy <? JOYSTICK_MIDPOINT + DEADZONE).

(** The branch of [Select_Aircraft_Thread] taken while an aircraft is
    selected, on the sample [joystick_dxy] and the local
    [joystick_debounce]. *)
Definition Select_Aircraft_direction (joystick_dxy : Z)
    (joystick_debounce : bool) (st : State) : bool * State :=
  let joystick_dx := Z.land joystick_dxy 65535 in
  let joystick_dy := Z.land (Z.shiftr joystick_dxy 16) 65535 in
  if isNeutral joystick_dx joystick_dy then (true, st)
  else if negb joystick_debounce then (joystick_debounce, st)
  else
    (false,
     G8RTOS_SignalSemaphore sem_INFO_DISPLAY
       (G8RTOS_SignalSemaphore sem_MAIN_DISPLAY
          (set_selectedAircraft
             (closest_aircraft_by_angle st joystick_dx joystick_dy) st))).

Section Confirm.
Context `{Display}.

(** The point that [Select_Aircraft_Thread] measures from. *)
Definition select_center_x : Z := Int.div X_MAX 2.
Definition select_center_y : Z :=
  Int.div (Y_MAX + Int.div (Y_MAX - 70) 2) 2.

(** [distance], from the [int32_t] locals [dx] and [dy]. *)
Definition select_distance (a : AircraftData_t) : Z :=
  let dx := Int.to_int32 (screen_x a - select_center_x) in
  let dy := Int.to_int32 (screen_y a - select_center_y) in
  Int.to_int32 (dx * dx + dy * dy).

(** The squared distance of the record on the screen from that point,
    as a number. *)
Definition squared_distance (a : AircraftData_t) : Z :=
  (screen_x a - select_center_x) * (screen_x a - select_center_x)
  + (screen_y a - select_center_y) * (screen_y a - select_center_y).

(** The squared distance of every visible live record fits [int32_t]. *)
Definition distances_fit (st : State) : Prop :=
  forall i a, (i < currentAircraftCount st)%nat ->
    currentAircrafts st !! i = Some a -> visible a ->
    squared_distance a <= Int.INT32_MAX.

(** The first [n] slots hold no visible record. *)
Definition none_visible (n : nat) (st : State) : Prop :=
  forall i a, (i < n)%nat -> currentAircrafts st !! i = Some a -> on_screen a = 0.

(** Slot [r] holds the first of the visible records nearest to the
    centre among the first [n] slots. *)
Definition first_nearest (n : nat) (st : State) (r : nat) : Prop :=
  exists a,
    (r < n)%nat /\ currentAircrafts st !! r = Some a /\ visible a
    /\ (forall j b, (j < n)%nat -> currentAircrafts st !! j = Some b ->
          visible b -> squared_distance a <= squared_distance b)
    /\ (forall j b, (j < r)%nat -> currentAircrafts st !! j = Some b ->
          visible b -> squared_distance a < squared_distance b).

(** One turn of the loop, on the local [min_distance] and the state. *)
Definition select_step (acc : Z * State) (i : nat) : Z * State :=
  let '(min_distance, st) := acc in
  let aircraft := currentAircrafts st !!! i in
  if on_screen aircraft =? 0 then acc
  else
    let distance := select_distance aircraft in
    if distance <? min_distance
    then (distance, set_selectedAircraft (Int.to_int16 (Z.of_nat i)) st)
    else acc.

(** The branch of [Select_Aircraft_Thread] taken while no aircraft is
    selected, on the value read by [JOYSTICK_GetPress]. *)
Definition Select_Aircraft_confirm (press_status : Z) (st : State) : State :=
  if press_status =? 0 then st
  else
    let '(_, st1) :=
      fold_left select_step (seq 0 (currentAircraftCount st))
        (Int.INT32_MAX, st) in
    G8RTOS_SignalSemaphore sem_MAIN_DISPLAY
      (G8RTOS_SignalSemaphore sem_INFO_DISPLAY st1).

(** One iteration of [Select_Aircraft_Thread]: the first branch waits
    for a press when nothing is selected, the second one follows the
    joystick. *)
Definition Select_Aircraft_Thread (press_status joystick_dxy : Z)
    (joystick_debounce : bool) (st : State) : bool * State :=
  if selectedAircraft st =? -1
  then (joystick_debounce, Select_Aircraft_confirm press_status st)
  else Select_Aircraft_direction joystick_dxy joystick_debounce st.

End Confirm.

(** ** The centre of the display *)

Definition MIDLINE : Z := 70.

Section DisplayCentre.
Context `{Display}.

(** [CENTER_X] and [CENTER_Y] of [Display_Aircrafts_Thread]: the point
    that the range circles are drawn around. *)
Definition CENTER_X : Z := Int.to_int32 (Int.div X_MAX 2).
Definition CENTER_Y : Z := Int.to_int32 (Int.div (Y_MAX + MIDLINE) 2).

End DisplayCentre.

(** The squared distance of a record on the screen from the point
    ([cx], [cy]). *)
Definition squared_distance_from (cx cy : Z) (a : AircraftData_t) : Z :=
  (screen_x a - cx) * (screen_x a - cx) + (screen_y a - cy) * (screen_y a - cy).

(** [r] is the index of the visible record, among the first [n], with the
    least squared distance from ([cx], [cy]), and the first such record in
    scan order. *)
Definition first_nearest_to (cx cy : Z) (n : nat) (st : State) (r : nat) : Prop :=
  exists a,
    (r < n)%nat /\ currentAircrafts st !! r = Some a /\ visible a
    /\ (forall j b, (j < n)%nat -> currentAircrafts st !! j = Some b ->
         visible b ->
         squared_distance_from cx cy a <= squared_distance_from cx cy b)
    /\ (forall j b, (j < r)%nat -> currentAircrafts st !! j = Some b ->
         visible b ->
         squared_distance_from cx cy a < squared_distance_from cx cy b).

(** ** Sample data *)

(** Call signs, as the decoder stores them. *)
Definition UAL123 : list Z := [85; 65; 76; 49; 50; 51; 32; 0].
Definition DAL456 : list Z := [68; 65; 76; 52; 53; 54; 32; 0].
Definition SWA789 : list Z := [83; 87; 65; 55; 56; 57; 32; 0].

(** A record at the position given in ten-thousandths of a degree. *)
Definition aircraft_at (cs : list Z) (lon lat : Z) (x y vis : Z)
  : AircraftData_t :=
  mkAircraft cs (decode_fixed lon) (decode_fixed lat)
    F32.zero F32.zero F32.zero x y vis.

(** An array of [MAX_AIRCRAFTS] slots that starts with the records [l]. *)
Definition slots (l : list AircraftData_t) : list AircraftData_t :=
  l ++ replicate (MAX_AIRCRAFTS - length l) inhabitant.

Definition state_of (staging current : list AircraftData_t) (sel : Z) : State :=
  mkState 50 (slots staging) (length staging) (slots current) (length current)
    sel [].

(** UAL123 is selected; the next burst lists the same two aircraft in the
    other order. *)
Definition reordered_burst : State :=
  state_of
    [aircraft_at DAL456 (-824000) 296000 0 0 0;
     aircraft_at UAL123 (-823000) 297000 0 0 0]
    [aircraft_at UAL123 (-823000) 297000 130 170 1;
     aircraft_at DAL456 (-824000) 296000 110 180 1]
    0.

(** UAL123 is selected; the next burst does not list it. *)
Definition departed_burst : State :=
  state_of
    [aircraft_at DAL456 (-824000) 296000 0 0 0]
    [aircraft_at UAL123 (-823000) 297000 130 170 1]
    0.

(** A burst of three records, nothing live yet. *)
Definition first_burst : State :=
  state_of
    [aircraft_at UAL123 (-823000) 297000 0 0 0;
     aircraft_at DAL456 (-824000) 296000 0 0 0;
     aircraft_at SWA789 (-800000) 296465 0 0 0]
    [] (-1).

(** Three live records: one at the centre of the map, selected, one to
    the east of it and one to the west. *)
Definition radar_state : State :=
  state_of []
    [aircraft_at UAL123 (-823533) 296465 120 175 1;
     aircraft_at DAL456 (-823000) 296465 130 175 1;
     aircraft_at SWA789 (-824000) 296465 110 175 1]
    0.

(** The selected record is far to the east of the centre, beyond the
    display range of 50 km. *)
Definition far_selected_state : State :=
  state_of []
    [aircraft_at SWA789 (-800000) 296465 120 175 1;
     aircraft_at UAL123 (-823533) 296465 120 175 1]
    0.

(** Nothing selected, two visible records and one that is off the
    screen. *)
Definition unselected_state : State :=
  state_of []
    [aircraft_at UAL123 (-823000) 297000 100 200 1;
     aircraft_at DAL456 (-823533) 296465 120 220 1;
     aircraft_at SWA789 (-800000) 296465 120 222 0]
    (-1).

(** Nothing selected; UAL123 is drawn at the centre of the radar,
    DAL456 25 pixels below it. *)
Definition off_centre_state : State :=
  state_of []
    [aircraft_at UAL123 (-823533) 296465 120 175 1;
     aircraft_at DAL456 (-823533) 295342 120 200 1]
    (-1).

(** The words of one message: "UAL123 ", then longitude, latitude,
    altitude, speed and heading in ten-thousandths. *)
Definition sample_message : list Z :=
  [827081045; 2110258; -823533; 296465; 350000000; 2500000; 900000].


(** The reassembler before the first byte. *)
Definition uart_reset : uart_state := mkUart [0; 0; 0; 0] 0 0.

(** The first word of a record, an end-of-burst word and a stray byte. *)
Definition sample_bytes : list Z := [85; 65; 76; 49; 255; 255; 255; 255; 7].

(** A panel of 240 by 320 pixels. *)
Definition panel_240x320 : Display := {| X_MAX := 240; Y_MAX := 320 |}.

(** A panel of 240 by 280 pixels, the one whose last row is the 279 of
    [radar_bottom]. *)
Definition panel_240x280 : Display := {| X_MAX := 240; Y_MAX := 280 |}.

(** A stand-in for <math.h> to run the examples with: every bearing is
    taken to be due east. *)
Definition libm_due_east : Libm :=
  {| cosf := fun _ => F32.of_Z 1;
     sinf := fun _ => F32.zero;
     atan2f := fun _ _ => F32.zero |}.

(** ** More of the byte reassembler *)

(** What the handler keeps true of its [static] locals: the buffer index
    is one of the four slots and the byte count is below a message. *)
Definition uart_invariant (u : uart_state) : Prop :=
  length (byte_buffer u) = 4%nat
  /\ 0 <= byte_index u < 4
  /\ 0 <= message_byte_count u < MESSAGE_SIZE.

(** The handler between two messages: no byte buffered, none counted. *)
Definition message_boundary (u : uart_state) : Prop :=
  length (byte_buffer u) = 4%nat
  /\ byte_index u = 0
  /\ message_byte_count u = 0.

(** The four bytes of a 32-bit word as the sender puts them on the wire,
    least significant first. *)
Definition le_bytes (w : Z) : list Z :=
  [Int.byte_at 0 w; Int.byte_at 1 w; Int.byte_at 2 w; Int.byte_at 3 w].

(** A word of a message: an [int32_t] other than the all-ones word. *)
Definition data_word (w : Z) : Prop := Int.is_int32 w /\ w <> -1.

(** A message: the seven words of one record. *)
Definition message (words : list Z) : Prop :=
  length words = 7%nat /\ Forall data_word words.

(** What the handler hands to the RTOS for one message: its words, then
    the signal that a record is ready. *)
Definition message_events (words : list Z) : list event :=
  map (WriteFIFO DATA_FIFO) words ++ [SignalSemaphore sem_DATA_READY].

(** The bytes of a burst: the messages, then the all-ones word. *)
Definition burst_bytes (messages : list (list Z)) : list Z :=
  flat_map le_bytes (concat messages) ++ [255; 255; 255; 255].

(** ** More of the record decoder *)

(** The sign of a float, when it has one. *)
Definition sign_bit (x : float) : option bool :=
  match x with
  | S754_zero s | S754_infinity s | S754_finite s _ _ => Some s
  | S754_nan => None
  end.

(** A zero or a finite number: neither an infinity nor a NaN. *)
Definition is_finite (x : float) : Prop :=
  match x with
  | S754_zero _ | S754_finite _ _ _ => True
  | _ => False
  end.

(** The words that a run of the handler wrote to [DATA_FIFO], oldest
    first. *)
Definition fifo_writes (evs : list event) : list Z :=
  flat_map
    (fun e => match e with
              | WriteFIFO fifo w => if fifo =? DATA_FIFO then [w] else []
              | SignalSemaphore _ => []
              end) evs.

(** The record that one iteration of the decoder makes of a message,
    given what its two locals hold before. *)
Definition decode_message (words : list Z) (locals : Z * AircraftData_t)
  : AircraftData_t :=
  match words with
  | [w0; w1; w2; w3; w4; w5; w6] =>
      decode_record w0 w1 w2 w3 w4 w5 w6 locals.1 locals.2
  | _ => inhabitant
  end.

(** As many iterations of [Process_New_Aircraft_Thread] as [locals] has
    entries, one entry for the locals of each iteration. *)
Fixpoint decoder_run (locals : list (Z * AircraftData_t)) (fifo : list Z)
    (st : State) : option (list Z * State) :=
  match locals with
  | [] => Some (fifo, st)
  | l :: locals' =>
      match Process_New_Aircraft_Thread fifo l.1 l.2 st with
      | None => None
      | Some (fifo', st') => decoder_run locals' fifo' st'
      end
  end.

(** ** More of the selector *)

(** The joystick is outside the dead zone on the packed sample. *)
Definition deflected (joystick_dxy : Z) : Prop :=
  isNeutral (Z.land joystick_dxy 65535)
            (Z.land (Z.shiftr joystick_dxy 16) 65535) = false.

(** Slot [i] holds a visible live record. *)
Definition visible_live (st : State) (i : nat) : Prop :=
  exists a, (i < currentAircraftCount st)%nat
            /\ currentAircrafts st !! i = Some a /\ visible a.

Section SelectorRun.
Context `{Display}.

(** Successive iterations of [Select_Aircraft_Thread], one for each pair
    of a value read by [JOYSTICK_GetPress] and one read by
    [JOYSTICK_GetXY]. *)
Fixpoint Select_Aircraft_run (samples : list (Z * Z))
    (joystick_debounce : bool) (st : State) : bool * State :=
  match samples with
  | [] => (joystick_debounce, st)
  | (press_status, joystick_dxy) :: rest =>
      let '(debounce', st') :=
        Select_Aircraft_Thread press_status joystick_dxy joystick_debounce st in
      Select_Aircraft_run rest debounce' st'
  end.

End SelectorRun.

(** ** The range buttons: [Update_Search_Range] *)

(** The masks of the four buttons, from the button driver's header. *)
Class Buttons := {
  SW1 : Z;
  SW2 : Z;
  SW3 : Z;
  SW4 : Z
}.

Definition MAX_RANGE : Z := 200.
Definition MIN_RANGE : Z := 20.

(** The two globals that the display options are kept in. *)
Record Overlays := mkOverlays {
  display_track : Z;
  display_callsign : Z
}.

Definition set_display_range_km (range : Z) (st : State) : State :=
  mkState range (stagingAircrafts st) (stagingAircraftCount st)
    (currentAircrafts st) (currentAircraftCount st) (selectedAircraft st)
    (signalled st).

(** [!x] *)
Definition logical_not (x : Z) : Z := if x =? 0 then 1 else 0.

(** The value assigned to the [uint16_t display_range_km] for SW1 and for
    SW2. *)
Definition increase_range (range : Z) : Z :=
  Int.to_uint16 (if range + 10 <=? MAX_RANGE then range + 10 else MAX_RANGE).

Definition decrease_range (range : Z) : Z :=
  Int.to_uint16 (if MIN_RANGE <=? range - 10 then range - 10 else MIN_RANGE).

(** [!(button_status & mask)]: the buttons read 0 when pressed. *)
Definition pressed (button_status mask : Z) : bool :=
  Z.land button_status mask =? 0.

Section RangeButtons.
Context `{Libm} `{Display} `{Buttons}.

(** One iteration of [Update_Search_Range] on the value read by
    [MultimodButtons_Get]. *)
Definition Update_Search_Range (button_status : Z) (o : Overlays) (st : State)
  : Overlays * State :=
  if pressed button_status SW1 then
    (o, G8RTOS_SignalSemaphore sem_MAIN_DISPLAY
          (recalculate_screen_positions
             (set_display_range_km (increase_range (display_range_km st)) st)))
  else if pressed button_status SW2 then
    (o, G8RTOS_SignalSemaphore sem_MAIN_DISPLAY
          (recalculate_screen_positions
             (set_display_range_km (decrease_range (display_range_km st)) st)))
  else if pressed button_status SW3 then
    (mkOverlays (logical_not (display_track o)) (display_callsign o),
     G8RTOS_SignalSemaphore sem_MAIN_DISPLAY st)
  else if pressed button_status SW4 then
    (mkOverlays (display_track o) (logical_not (display_callsign o)),
     G8RTOS_SignalSemaphore sem_MAIN_DISPLAY st)
  else (o, st).

End RangeButtons.

(** ** The number formatter: [float_to_string] *)

(** [pow] of <math.h>. *)
Class LibmDouble := {
  pow : spec_float -> spec_float -> spec_float
}.

(** Conversion of an integer to [double]. *)
Definition double_of_Z (z : Z) : spec_float :=
  binary_normalize F64.prec F64.emax z 0 false.

Section Formatter.
Context `{LibmDouble}.

(** [(int32_t)value].  C leaves the conversion undefined when the
    integer part of [value] is outside [int32_t]; here it is reduced
    modulo [2 ^ 32]. *)
Definition int_part (value : float) : Z := Int.to_int32 (F32.truncate value).

(** [abs((int32_t)((value - int_part) * pow(10, decimal_places)))]: the
    difference is taken in [float], the product in [double]. *)
Definition decimal_part (value : float) (decimal_places : Z) : Z :=
  Int.abs
    (Int.to_int32
       (F32.truncate
          (F64.mul
             (F64.of_float (F32.sub value (F32.of_Z (int_part value))))
             (pow (double_of_Z 10) (double_of_Z decimal_places))))).

(** The three arguments that [float_to_string] gives to [snprintf] for the
    format "%d.%0*d". *)
Definition float_to_string (value : float) (decimal_places : Z) : Z * Z * Z :=
  (int_part value, decimal_places, decimal_part value decimal_places).

End Formatter.

(** ** More of the projector *)

(** The record is at the reference point of the map. *)
Definition at_reference (a : AircraftData_t) : Prop :=
  latitude a = CENTER_LATITUDE /\ longitude a = CENTER_LONGITUDE.

(** The display ranges that the buttons can set. *)
Definition button_ranges : list Z :=
  map Z.of_nat (seq (Z.to_nat MIN_RANGE) (Z.to_nat (MAX_RANGE - MIN_RANGE + 1))).

Definition is_finiteb (x : float) : bool :=
  match x with
  | S754_zero _ | S754_finite _ _ _ => true
  | _ => false
  end.

(** ** More sample data *)

(** Nothing staged, nothing live. *)
Definition empty_state : State := state_of [] [] (-1).

(** The locals of the decoder before its first iteration. *)
Definition fresh_locals : Z * AircraftData_t := (0, inhabitant).

(** The joystick pushed to one side: x = 1000, y = 2048. *)
Definition pushed_sample : Z := 1000 + 2048 * 65536.

(** A stand-in for the masks of the button driver: one bit each. *)
Definition buttons_one_bit_each : Buttons :=
  {| SW1 := 1; SW2 := 2; SW3 := 4; SW4 := 8 |}.

(** Both display options on, as the globals are initialised. *)
Definition overlays_on : Overlays := mkOverlays 1 1.

(** A stand-in for [pow] to run the examples with. *)
Definition pow_ten_thousand : LibmDouble :=
  {| pow := fun _ _ => double_of_Z 10000 |}.

(** A record at the reference point of the map. *)
Definition reference_aircraft : AircraftData_t :=
  mkAircraft UAL123 CENTER_LONGITUDE CENTER_LATITUDE
    F32.zero F32.zero F32.zero 0 0 0.

(** * Properties *)

(** ** Integer conversions *)

Module IntFacts.
Import Int.

Lemma to_int32_id z : is_int32 z -> to_int32 z = z.
Proof.
  unfold is_int32, to_int32, to_signed. intros Hz.
  change (2 ^ (32 - 1)) with 2147483648. change (2 ^ 32) with 4294967296.
  rewrite Z.mod_small; lia.
Qed.

Lemma to_int16_id z : is_int16 z -> to_int16 z = z.
Proof.
  unfold is_int16, to_int16, to_signed. intros Hz.
  change (2 ^ (16 - 1)) with 32768. change (2 ^ 16) with 65536.
  rewrite Z.mod_small; lia.
Qed.


Lemma to_int16_of_nat (i : nat) :
  (i < MAX_AIRCRAFTS)%nat -> to_int16 (Z.of_nat i) = Z.of_nat i.
Proof.
  unfold MAX_AIRCRAFTS. intros Hi. apply to_int16_id. unfold is_int16. lia.
Qed.

Lemma to_uint32_to_int32 z : to_uint32 (to_int32 z) = z mod 4294967296.
Proof.
  unfold to_uint32, to_unsigned, to_int32, to_signed.
  change (2 ^ (32 - 1)) with 2147483648. change (2 ^ 32) with 4294967296.
  rewrite Zminus_mod_idemp_l.
  replace (z + 2147483648 - 2147483648) with z by lia. reflexivity.
Qed.

Lemma to_int32_mod z : to_int32 (z mod 4294967296) = to_int32 z.
Proof.
  unfold to_int32, to_signed.
  change (2 ^ (32 - 1)) with 2147483648. change (2 ^ 32) with 4294967296.
  rewrite Zplus_mod_idemp_l. reflexivity.
Qed.

(** Or-ing a value shifted past the bits of [a] adds it. *)
Lemma lor_shiftl_add a b n :
  0 <= n -> 0 <= a < 2 ^ n -> Z.lor a (Z.shiftl b n) = a + b * 2 ^ n.
Proof.
  intros Hn Ha.
  assert (Hland : Z.land a (Z.shiftl b n) = 0).
  { apply Z.bits_inj'. intros k Hk.
    rewrite Z.land_spec, Z.bits_0.
    destruct (Z.lt_ge_cases k n) as [Hlt | Hge].
    - rewrite Z.shiftl_spec_low by assumption. apply andb_false_r.
    - rewrite <- (Z.mod_small a (2 ^ n)) by assumption.
      rewrite Z.mod_pow2_bits_high by lia. reflexivity. }
  rewrite <- Z.lxor_lor by assumption.
  rewrite <- Z.add_nocarry_lxor by assumption.
  rewrite Z.shiftl_mul_pow2 by assumption. reflexivity.
Qed.

End IntFacts.

(** ** The byte reassembler *)

Section Reassembler.
Import Int IntFacts.

Lemma assemble_word_le b0 b1 b2 b3 :
  is_byte b0 -> is_byte b1 -> is_byte b2 -> is_byte b3 ->
  assemble_word [b0; b1; b2; b3] = to_int32 (le_word b0 b1 b2 b3).
Proof.
  unfold is_byte, assemble_word, le_word. intros H0 H1 H2 H3. cbn [lookup_total list_lookup_total].
  f_equal.
  rewrite (lor_shiftl_add b0 b1 8) by lia.
  rewrite (lor_shiftl_add _ b2 16) by lia.
  rewrite (lor_shiftl_add _ b3 24) by lia.
  lia.
Qed.

Lemma to_int32_to_uint32 z : to_int32 (to_uint32 (to_int32 z)) = to_int32 z.
Proof. rewrite to_uint32_to_int32. apply to_int32_mod. Qed.

(** A byte that does not complete a word is only stored. *)
Lemma UART4_receive_partial u b :
  0 <= byte_index u < 3 ->
  byte_buffer (UART4_receive u b).1
    = <[Z.to_nat (byte_index u) := b]> (byte_buffer u)
  /\ byte_index (UART4_receive u b).1 = byte_index u + 1
  /\ List.filter is_word_event (UART4_receive u b).2 = [].
Proof.
  intros Hi. unfold UART4_receive.
  assert (Hidx : to_uint8 (byte_index u + 1) = byte_index u + 1).
  { unfold to_uint8, to_unsigned. apply Z.mod_small.
    change (2 ^ 8) with 256. lia. }
  rewrite Hidx.
  destruct (Z.eqb_spec (byte_index u + 1) 4) as [E | _]; [lia |].
  destruct (MESSAGE_SIZE <=? _); cbn; auto.
Qed.

(** The fourth byte completes a word. *)
Lemma UART4_receive_complete u b :
  byte_index u = 3 ->
  let buf := <[3%nat := b]> (byte_buffer u) in
  byte_buffer (UART4_receive u b).1 = buf
  /\ byte_index (UART4_receive u b).1 = 0
  /\ List.filter is_word_event (UART4_receive u b).2
       = [word_event (to_uint32 (assemble_word buf))]
  /\ (to_uint32 (assemble_word buf) = END_OF_BURST ->
      message_byte_count (UART4_receive u b).1 = 0).
Proof.
  intros Hi buf. unfold UART4_receive. rewrite Hi.
  change (Z.to_nat 3) with 3%nat. fold buf.
  change (to_uint8 (3 + 1) =? 4) with true. cbv iota.
  unfold word_event, END_OF_BURST.
  destruct (Z.eqb_spec (to_uint32 (assemble_word buf)) 4294967295) as [E | NE].
  - change (MESSAGE_SIZE <=? 0) with false. cbn. auto.
  - assert (Hw : to_int32 (to_uint32 (assemble_word buf)) = assemble_word buf)
      by apply to_int32_to_uint32.
    rewrite Hw.
    destruct (MESSAGE_SIZE <=? _); cbn; intuition congruence.
Qed.

Lemma UART4_Handler_app u l1 l2 :
  UART4_Handler u (l1 ++ l2)
  = ((UART4_Handler (UART4_Handler u l1).1 l2).1,
     (UART4_Handler u l1).2 ++ (UART4_Handler (UART4_Handler u l1).1 l2).2).
Proof.
  revert u. induction l1 as [| b l1 IH]; intros u; cbn [UART4_Handler app].
  - cbn [fst snd app]. destruct (UART4_Handler u l2); reflexivity.
  - destruct (UART4_receive u b) as [u1 e1]. rewrite IH.
    destruct (UART4_Handler u1 l1) as [u2 e2]. cbn [fst snd].
    destruct (UART4_Handler u2 l2) as [u3 e3]. cbn [fst snd].
    rewrite app_assoc. reflexivity.
Qed.

(** Four bytes received from an empty buffer make one word. *)
Lemma UART4_Handler_word u b0 b1 b2 b3 :
  byte_index u = 0 -> length (byte_buffer u) = 4%nat ->
  is_byte b0 -> is_byte b1 -> is_byte b2 -> is_byte b3 ->
  let r := UART4_Handler u [b0; b1; b2; b3] in
  byte_index r.1 = 0
  /\ length (byte_buffer r.1) = 4%nat
  /\ List.filter is_word_event r.2 = [word_event (le_word b0 b1 b2 b3)]
  /\ (le_word b0 b1 b2 b3 = END_OF_BURST -> message_byte_count r.1 = 0).
Proof.
  intros Hi Hlen H0 H1 H2 H3.
  destruct (byte_buffer u) as [| x0 [| x1 [| x2 [| x3 [| ? ?]]]]] eqn:Hbuf;
    try discriminate Hlen.
  cbn [UART4_Handler].
  destruct (UART4_receive_partial u b0) as (Hb0 & Hi0 & He0); [lia |].
  destruct (UART4_receive u b0) as [u0 e0]. cbn [fst snd] in *.
  destruct (UART4_receive_partial u0 b1) as (Hb1 & Hi1 & He1); [lia |].
  destruct (UART4_receive u0 b1) as [u1 e1]. cbn [fst snd] in *.
  destruct (UART4_receive_partial u1 b2) as (Hb2 & Hi2 & He2); [lia |].
  destruct (UART4_receive u1 b2) as [u2 e2]. cbn [fst snd] in *.
  destruct (UART4_receive_complete u2 b3) as (Hb3 & Hi3 & He3 & Hc3); [lia |].
  destruct (UART4_receive u2 b3) as [u3 e3]. cbn [fst snd] in *.
  rewrite Hb2, Hb1, Hb0, Hbuf, Hi1, Hi0, Hi in *.
  change (<[3%nat:=b3]> (<[Z.to_nat (0 + 1 + 1):=b2]>
            (<[Z.to_nat (0 + 1):=b1]> (<[Z.to_nat 0:=b0]> [x0; x1; x2; x3]))))
    with [b0; b1; b2; b3] in Hb3, He3, Hc3.
  assert (Hw : to_uint32 (assemble_word [b0; b1; b2; b3]) = le_word b0 b1 b2 b3).
  { rewrite assemble_word_le, to_uint32_to_int32 by assumption.
    apply Z.mod_small. unfold is_byte, le_word in *. lia. }
  rewrite Hw in He3, Hc3.
  rewrite app_nil_r, !List.filter_app, He0, He1, He2, He3, Hb3.
  auto.
Qed.

(** After whole words the buffer is empty again. *)
Lemma UART4_Handler_aligned k : forall pre u,
  length pre = (4 * k)%nat ->
  byte_index u = 0 -> length (byte_buffer u) = 4%nat ->
  Forall is_byte pre ->
  byte_index (UART4_Handler u pre).1 = 0
  /\ length (byte_buffer (UART4_Handler u pre).1) = 4%nat.
Proof.
  induction k as [| k IH]; intros pre u Hlen Hi Hbuf Hbytes.
  - destruct pre; [cbn; auto | discriminate Hlen].
  - destruct pre as [| b0 [| b1 [| b2 [| b3 rest]]]]; cbn in Hlen; try lia.
    change (b0 :: b1 :: b2 :: b3 :: rest) with ([b0; b1; b2; b3] ++ rest).
    rewrite UART4_Handler_app. cbn [fst].
    inversion Hbytes as [| ? ? H0 Hb1]; subst.
    inversion Hb1 as [| ? ? H1 Hb2]; subst.
    inversion Hb2 as [| ? ? H2 Hb3]; subst.
    inversion Hb3 as [| ? ? H3 Hrest]; subst.
    destruct (UART4_Handler_word u b0 b1 b2 b3) as (Hi' & Hbuf' & _);
      try assumption.
    apply IH; [lia | assumption ..].
Qed.

Lemma UART4_Handler_events n : forall bytes u,
  (length bytes <= n)%nat ->
  byte_index u = 0 -> length (byte_buffer u) = 4%nat ->
  Forall is_byte bytes ->
  List.filter is_word_event (UART4_Handler u bytes).2
  = map word_event (le_words bytes).
Proof.
  induction n as [| n IH]; intros bytes u Hlen Hi Hbuf Hbytes.
  - destruct bytes; [reflexivity | cbn in Hlen; lia].
  - destruct bytes as [| b0 [| b1 [| b2 [| b3 rest]]]].
    + reflexivity.
    + cbn [UART4_Handler le_words map].
      destruct (UART4_receive_partial u b0) as (_ & _ & He0); [lia |].
      destruct (UART4_receive u b0) as [u0 e0]. cbn [fst snd] in *.
      rewrite app_nil_r. exact He0.
    + cbn [UART4_Handler le_words map].
      destruct (UART4_receive_partial u b0) as (_ & Hi0 & He0); [lia |].
      destruct (UART4_receive u b0) as [u0 e0]. cbn [fst snd] in *.
      destruct (UART4_receive_partial u0 b1) as (_ & _ & He1); [lia |].
      destruct (UART4_receive u0 b1) as [u1 e1]. cbn [fst snd] in *.
      rewrite app_nil_r, List.filter_app, He0, He1. reflexivity.
    + cbn [UART4_Handler le_words map].
      destruct (UART4_receive_partial u b0) as (_ & Hi0 & He0); [lia |].
      destruct (UART4_receive u b0) as [u0 e0]. cbn [fst snd] in *.
      destruct (UART4_receive_partial u0 b1) as (_ & Hi1 & He1); [lia |].
      destruct (UART4_receive u0 b1) as [u1 e1]. cbn [fst snd] in *.
      destruct (UART4_receive_partial u1 b2) as (_ & _ & He2); [lia |].
      destruct (UART4_receive u1 b2) as [u2 e2]. cbn [fst snd] in *.
      rewrite app_nil_r, !List.filter_app, He0, He1, He2. reflexivity.
    + change (b0 :: b1 :: b2 :: b3 :: rest) with ([b0; b1; b2; b3] ++ rest).
      rewrite UART4_Handler_app. cbn [snd fst].
      inversion Hbytes as [| ? ? H0 Hb1]; subst.
      inversion Hb1 as [| ? ? H1 Hb2]; subst.
      inversion Hb2 as [| ? ? H2 Hb3]; subst.
      inversion Hb3 as [| ? ? H3 Hrest]; subst.
      destruct (UART4_Handler_word u b0 b1 b2 b3) as (Hi' & Hbuf' & He & _);
        try assumption.
      rewrite List.filter_app, He.
      rewrite IH; [reflexivity | cbn in Hlen; lia | assumption ..].
Qed.

(** C4.  From an empty byte buffer, for every sequence of received
    bytes: each group of four consecutive bytes is taken as the 32-bit
    word whose least significant byte is the first received one; the
    all-ones word gives one signal on [sem_BURST_COMPLETE] and no write to
    the FIFO, every other word is written to [DATA_FIFO], in the order
    received; and right after an all-ones word [message_byte_count] is
    0. *)
Theorem UART4_Handler_words u bytes :
  byte_index u = 0 -> length (byte_buffer u) = 4%nat ->
  Forall is_byte bytes ->
  List.filter is_word_event (UART4_Handler u bytes).2
    = map word_event (le_words bytes)
  /\ (forall k pre b0 b1 b2 b3,
        bytes = pre ++ [b0; b1; b2; b3] ->
        length pre = (4 * k)%nat ->
        le_word b0 b1 b2 b3 = END_OF_BURST ->
        message_byte_count (UART4_Handler u bytes).1 = 0).
Proof.
  intros Hi Hbuf Hbytes. split.
  - apply (UART4_Handler_events (length bytes)); auto.
  - intros k pre b0 b1 b2 b3 -> Hpre Hend.
    apply Forall_app in Hbytes as [Hp Hw].
    rewrite UART4_Handler_app. cbn [fst].
    destruct (UART4_Handler_aligned k pre u) as [Hi' Hbuf']; try assumption.
    inversion Hw as [| ? ? H0 Hb1]; subst.
    inversion Hb1 as [| ? ? H1 Hb2]; subst.
    inversion Hb2 as [| ? ? H2 Hb3]; subst.
    inversion Hb3 as [| ? ? H3 _]; subst.
    apply (UART4_Handler_word _ b0 b1 b2 b3); assumption.
Qed.

End Reassembler.

(** ** The record decoder *)

Section Decoder.
Import Int IntFacts.

Lemma byte_at_spec i z : 0 <= i -> byte_at i z = (z / 2 ^ (i * 8)) mod 256.
Proof.
  intros Hi. unfold byte_at.
  rewrite Z.shiftr_div_pow2 by lia.
  change 255 with (Z.ones 8). rewrite Z.land_ones by lia. reflexivity.
Qed.







(** With a fourth character of 128 or more the sign extension of word 0
    overwrites the characters of word 1. *)
Example decode_callsign_sign_extension :
  decode_callsign (to_int32 (le_word 85 65 76 200)) 2110258 0
  = [85; 65; 76; 200; 255; 255; 255; 0].
Proof. reflexivity. Qed.


(** A NUL among the characters ends the stored identifier: [strncpy]
    fills the rest of the field with NULs. *)
Example strncpy_stops_at_nul :
  strncpy [85; 65; 0; 49; 50; 51; 32; 7] 8 = [85; 65; 0; 0; 0; 0; 0; 0].
Proof. reflexivity. Qed.


End Decoder.

(** ** The commit *)

Section Commit.
Import Int IntFacts.

(** The captured pointer is the string literal, or the [callsign] array
    of the selected slot. *)
Lemma capture_SelectedCallSign_spec st :
  capture_SelectedCallSign st = literal_N_A
  \/ exists s, capture_SelectedCallSign st = callsign_of s
               /\ selectedAircraft st = Z.of_nat s
               /\ (s < currentAircraftCount st)%nat.
Proof.
  unfold capture_SelectedCallSign.
  destruct (selectedAircraft st =? -1); [left; reflexivity |].
  generalize (currentAircraftCount st) as n.
  induction n as [| n IH]; [left; reflexivity |].
  rewrite seq_S, fold_left_app. cbn [fold_left Nat.add].
  destruct (Z.eqb_spec (selectedAircraft st) (Z.of_nat n)) as [E | _].
  - right. exists n. auto.
  - destruct IH as [IH | (s & Hs & Hsel & Hlt)]; [left; exact IH |].
    right. exists s. auto with lia.
Qed.

(** The copy loop after [n] turns. *)
Lemma commit_loop_spec p n : forall st,
  (n <= length (stagingAircrafts st))%nat ->
  (n <= length (currentAircrafts st))%nat ->
  let st' := fold_left (commit_step p) (seq 0 n) st in
  display_range_km st' = display_range_km st
  /\ stagingAircrafts st' = stagingAircrafts st
  /\ stagingAircraftCount st' = stagingAircraftCount st
  /\ currentAircraftCount st' = currentAircraftCount st
  /\ signalled st' = signalled st
  /\ currentAircrafts st'
     = take n (stagingAircrafts st) ++ drop n (currentAircrafts st)
  /\ selectedAircraft st'
     = match p with
       | callsign_of s =>
           if (s <? n)%nat then to_int16 (Z.of_nat s) else selectedAircraft st
       | literal_N_A => selectedAircraft st
       end.
Proof.
  induction n as [| n IH]; intros st Hs Hc.
  - cbn. rewrite drop_0. destruct p; auto 10.
  - rewrite seq_S, fold_left_app. cbn [fold_left Nat.add].
    destruct (IH st ltac:(lia) ltac:(lia))
      as (Hr & Hstg & Hsc & Hcc & Hsig & Hcur & Hsel).
    set (st1 := fold_left (commit_step p) (seq 0 n) st) in *.
    destruct (lookup_lt_is_Some_2 (stagingAircrafts st) n ltac:(lia)) as [x Hx].
    destruct (lookup_lt_is_Some_2 (currentAircrafts st) n ltac:(lia)) as [y Hy].
    assert (Hcur' :
      <[n := stagingAircrafts st1 !!! n]> (currentAircrafts st1)
      = take (S n) (stagingAircrafts st) ++ drop (S n) (currentAircrafts st)).
    { rewrite Hstg, Hcur, (list_lookup_total_correct _ _ _ Hx).
      rewrite insert_app_r_alt by (rewrite length_take; lia).
      rewrite length_take, Nat.min_l, Nat.sub_diag by lia.
      rewrite (drop_S _ _ _ Hy). cbn [insert list_insert].
      rewrite (take_S_r _ _ _ Hx), <- app_assoc. reflexivity. }
    unfold commit_step. rewrite Hcur'.
    destruct p as [| s]; cbn [char_ptr_eqb].
    + cbn. auto 10.
    + destruct (Nat.eqb_spec n s) as [-> | Hne].
      * destruct (Nat.ltb_spec s (S s)); [| lia]. cbn. auto 10.
      * destruct (Nat.ltb_spec s n), (Nat.ltb_spec s (S n)); try lia;
          cbn; auto 10.
Qed.

(** The selection index is the same number before and after a commit. *)
Lemma commit_selected_index st :
  well_formed st -> selectedAircraft (commit st) = selectedAircraft st.
Proof.
  intros (Hls & Hlc & Hs & Hc). unfold commit.
  destruct (commit_loop_spec (capture_SelectedCallSign st)
              (stagingAircraftCount st) st ltac:(lia) ltac:(lia))
    as (_ & _ & _ & _ & _ & _ & Hsel).
  cbn [selectedAircraft]. rewrite Hsel.
  destruct (capture_SelectedCallSign_spec st) as [-> | (s & -> & Hz & Hlt)];
    [reflexivity |].
  destruct (s <? stagingAircraftCount st)%nat; [| reflexivity].
  rewrite to_int16_of_nat by lia. auto.
Qed.

(** C3.  After a commit the live count is the staging count of before,
    the live records are the records that were staged, in their order,
    and the staging count is 0. *)
Theorem commit_replaces_live st :
  well_formed st ->
  currentAircraftCount (commit st) = stagingAircraftCount st
  /\ live (commit st) = staged st
  /\ stagingAircraftCount (commit st) = 0%nat.
Proof.
  intros (Hls & Hlc & Hs & Hc). unfold live, staged, commit.
  destruct (commit_loop_spec (capture_SelectedCallSign st)
              (stagingAircraftCount st) st ltac:(lia) ltac:(lia))
    as (_ & _ & Hsc & _ & _ & Hcur & _).
  cbn [currentAircraftCount currentAircrafts stagingAircraftCount].
  rewrite Hsc, Hcur. repeat split.
  rewrite take_app_le by (rewrite length_take; lia).
  rewrite take_take. f_equal. lia.
Qed.

(** The second half of C2: without a selection before the commit there
    is none after it. *)
Lemma commit_none_selected st :
  well_formed st -> selectedAircraft st = -1 ->
  selectedAircraft (commit st) = -1.
Proof. intros Hwf Hsel. rewrite commit_selected_index; assumption. Qed.

End Commit.

(** ** The projector *)

(** Reduces the projections of a state built by the setters. *)
Ltac state_fields :=
  cbn [display_range_km stagingAircrafts stagingAircraftCount currentAircrafts
       currentAircraftCount selectedAircraft signalled
       set_currentAircrafts set_selectedAircraft set_staging
       G8RTOS_SignalSemaphore orb andb].

Section ProjectorFacts.
Context `{Libm} `{Display}.
Import Int IntFacts.

Lemma distance_from_center_ext a b :
  same_position a b -> distance_from_center a = distance_from_center b.
Proof.
  intros [Hlat Hlon].
  unfold distance_from_center, distance_latitude_km, distance_longitude_km.
  rewrite Hlat, Hlon. reflexivity.
Qed.

Lemma angle_ext a b : same_position a b -> angle a = angle b.
Proof.
  intros [Hlat Hlon].
  unfold angle, distance_latitude_km, distance_longitude_km.
  rewrite Hlat, Hlon. reflexivity.
Qed.

Lemma beyond_range_ext range a b :
  same_position a b -> beyond_range range a = beyond_range range b.
Proof.
  intros Hp. unfold beyond_range.
  rewrite (distance_from_center_ext a b Hp). reflexivity.
Qed.

Lemma projected_x_ext range a b :
  same_position a b -> projected_x range a = projected_x range b.
Proof.
  intros Hp. unfold projected_x, pixel_distance.
  rewrite (distance_from_center_ext a b Hp), (angle_ext a b Hp). reflexivity.
Qed.

Lemma projected_y_ext range a b :
  same_position a b -> projected_y range a = projected_y range b.
Proof.
  intros Hp. unfold projected_y, pixel_distance.
  rewrite (distance_from_center_ext a b Hp), (angle_ext a b Hp). reflexivity.
Qed.

Lemma projected_record_position range a :
  same_position (projected_record range a) a.
Proof.
  unfold projected_record, same_position.
  destruct (beyond_range range a); split; reflexivity.
Qed.

Lemma beyond_range_projected range r a :
  beyond_range range (projected_record r a) = beyond_range range a.
Proof. apply beyond_range_ext, projected_record_position. Qed.

Lemma projected_record_idem range a :
  projected_record range (projected_record range a) = projected_record range a.
Proof.
  pose proof (projected_record_position range a) as Hp.
  unfold projected_record at 1.
  rewrite (beyond_range_ext _ _ _ Hp), (projected_x_ext _ _ _ Hp),
    (projected_y_ext _ _ _ Hp).
  unfold projected_record.
  destruct (beyond_range range a); reflexivity.
Qed.

(** The loop after [n] turns. *)
Lemma recalculate_loop_spec n : forall st,
  (n <= length (currentAircrafts st))%nat ->
  let st' := fold_left recalculate_step (seq 0 n) st in
  display_range_km st' = display_range_km st
  /\ stagingAircrafts st' = stagingAircrafts st
  /\ stagingAircraftCount st' = stagingAircraftCount st
  /\ currentAircraftCount st' = currentAircraftCount st
  /\ currentAircrafts st'
     = map (projected_record (display_range_km st)) (take n (currentAircrafts st))
       ++ drop n (currentAircrafts st)
  /\ selectedAircraft st'
     = (if selection_lost n st then -1 else selectedAircraft st)
  /\ signalled st'
     = (if selection_lost n st then sem_INFO_DISPLAY :: signalled st
        else signalled st).
Proof.
  induction n as [| n IH]; intros st Hc.
  - cbn [seq fold_left take map app]. rewrite drop_0.
    assert (Hl : selection_lost 0 st = false).
    { unfold selection_lost.
      destruct (Z.leb_spec 0 (selectedAircraft st)),
               (Z.ltb_spec (selectedAircraft st) (Z.of_nat 0)); try lia; reflexivity. }
    rewrite Hl. auto 10.
  - rewrite seq_S, fold_left_app. cbn [fold_left Nat.add].
    destruct (IH st ltac:(lia)) as (Hr & Hstg & Hsc & Hcc & Hcur & Hsel & Hsig).
    set (st1 := fold_left recalculate_step (seq 0 n) st) in *.
    destruct (lookup_lt_is_Some_2 (currentAircrafts st) n ltac:(lia)) as [y Hy].
    assert (Hlen : length (map (projected_record (display_range_km st))
                             (take n (currentAircrafts st))) = n)
      by (rewrite length_map, length_take; lia).
    assert (Hread : currentAircrafts st1 !!! n = y).
    { apply list_lookup_total_correct. rewrite Hcur.
      rewrite lookup_app_r by lia. rewrite Hlen, Nat.sub_diag.
      rewrite lookup_drop, Nat.add_0_r. exact Hy. }
    assert (Hwrite : forall x,
      <[n := x]> (currentAircrafts st1)
      = map (projected_record (display_range_km st)) (take n (currentAircrafts st))
        ++ x :: drop (S n) (currentAircrafts st)).
    { intros x. rewrite Hcur.
      rewrite insert_app_r_alt by lia. rewrite Hlen, Nat.sub_diag.
      rewrite (drop_S _ _ _ Hy). reflexivity. }
    assert (Hnext :
      map (projected_record (display_range_km st)) (take (S n) (currentAircrafts st))
      ++ drop (S n) (currentAircrafts st)
      = map (projected_record (display_range_km st)) (take n (currentAircrafts st))
        ++ projected_record (display_range_km st) y
           :: drop (S n) (currentAircrafts st)).
    { rewrite (take_S_r _ _ _ Hy), map_app, <- app_assoc. reflexivity. }
    assert (Hlost : selection_lost (S n) st
                    = selection_lost n st
                      || ((selectedAircraft st =? Z.of_nat n)
                          && beyond_range (display_range_km st) y)).
    { unfold selection_lost.
      destruct (Z.eqb_spec (selectedAircraft st) (Z.of_nat n)) as [E | NE].
      - rewrite E, Nat2Z.id, (list_lookup_total_correct _ _ _ Hy).
        destruct (Z.leb_spec 0 (Z.of_nat n)),
                 (Z.ltb_spec (Z.of_nat n) (Z.of_nat n)),
                 (Z.ltb_spec (Z.of_nat n) (Z.of_nat (S n))); try lia.
        reflexivity.
      - rewrite andb_false_l, orb_false_r.
        destruct (Z.ltb_spec (selectedAircraft st) (Z.of_nat n)),
                 (Z.ltb_spec (selectedAircraft st) (Z.of_nat (S n))); try lia;
          reflexivity. }
    rewrite Hnext, Hlost.
    unfold recalculate_step. rewrite Hread, Hr, Hwrite.
    unfold projected_record.
    destruct (beyond_range (display_range_km st) y) eqn:Hfar.
    + cbn [selectedAircraft set_currentAircrafts]. rewrite Hsel.
      destruct (selection_lost n st) eqn:Hl.
      * destruct (Z.eqb_spec (Z.of_nat n) (-1)) as [E | _]; [lia |].
        state_fields. rewrite Hr, Hstg, Hsc, Hcc, Hsig. auto 10.
      * rewrite (Z.eqb_sym (Z.of_nat n)).
        destruct (selectedAircraft st =? Z.of_nat n);
          state_fields; rewrite ?Hr, ?Hstg, ?Hsc, ?Hcc, ?Hsig, ?Hsel; auto 10.
    + rewrite andb_false_r, orb_false_r.
      state_fields. rewrite Hr, Hstg, Hsc, Hcc, Hsig, Hsel. auto 10.
Qed.

Lemma recalculate_screen_positions_spec st :
  (currentAircraftCount st <= length (currentAircrafts st))%nat ->
  let n := currentAircraftCount st in
  let st' := recalculate_screen_positions st in
  display_range_km st' = display_range_km st
  /\ stagingAircrafts st' = stagingAircrafts st
  /\ stagingAircraftCount st' = stagingAircraftCount st
  /\ currentAircraftCount st' = n
  /\ currentAircrafts st'
     = map (projected_record (display_range_km st)) (take n (currentAircrafts st))
       ++ drop n (currentAircrafts st)
  /\ selectedAircraft st'
     = (if selection_lost n st then -1 else selectedAircraft st)
  /\ signalled st'
     = (if selection_lost n st then sem_INFO_DISPLAY :: signalled st
        else signalled st).
Proof. intros Hc. apply recalculate_loop_spec. exact Hc. Qed.

(** The code computes the distance, the bearing and the pixel offsets
    of the equirectangular projection as the spec words it. *)
Lemma distance_from_center_spec a : distance_from_center a = radial_distance a.
Proof. reflexivity. Qed.

Lemma angle_spec a : angle a = bearing a.
Proof. reflexivity. Qed.

Lemma projected_x_spec range a :
  projected_x range a
  = to_int16 (Int.abs (to_int16 (center_x + to_int16 (offset_x range a)))).
Proof. reflexivity. Qed.

Lemma projected_y_spec range a :
  projected_y range a
  = to_int16 (Int.abs (to_int16 (center_y - to_int16 (offset_y range a)))).
Proof. reflexivity. Qed.

(** A coordinate that fits [int16_t] and is not negative goes through
    the casts and [abs] as it is. *)
Lemma stored_coordinate c :
  0 <= c < 32768 -> to_int16 (Int.abs (to_int16 c)) = c.
Proof.
  intros Hc. rewrite (to_int16_id c) by (unfold is_int16; lia).
  unfold Int.abs. rewrite Z.abs_eq by lia.
  rewrite to_int32_id by (unfold is_int32; lia).
  apply to_int16_id. unfold is_int16. lia.
Qed.

(** C6.  For every live record [a], at index [i], after
    [recalculate_screen_positions]: when the equirectangular radial
    distance of [a] from the reference point exceeds the display range
    the record is marked not visible, and if [i] was the selection then
    the selection is -1 and [sem_INFO_DISPLAY] was signalled; otherwise
    the record is marked visible and its screen coordinates are those of
    the point at radial distance * ([MAX_PIXEL_RADIUS] / display range)
    pixels from ([center_x], [center_y]) along the bearing of [a], in
    whole pixels: the offsets to the right and upward are truncated,
    stored through [int16_t] and [abs], and are exactly
    [center_x + offset_x] and [center_y - offset_y] when these fit
    [int16_t] and are not negative. *)
Theorem recalculate_screen_positions_record st i a :
  well_formed st ->
  (i < currentAircraftCount st)%nat ->
  currentAircrafts st !! i = Some a ->
  let range := display_range_km st in
  let st' := recalculate_screen_positions st in
  exists a',
    currentAircrafts st' !! i = Some a'
    /\ if F32.gt (radial_distance a) (F32.of_Z range)
       then on_screen a' = 0
            /\ (selectedAircraft st = Z.of_nat i ->
                selectedAircraft st' = -1
                /\ signalled st' = sem_INFO_DISPLAY :: signalled st)
       else on_screen a' = 1
            /\ screen_x a'
               = to_int16 (Int.abs (to_int16
                   (center_x + to_int16 (offset_x range a))))
            /\ screen_y a'
               = to_int16 (Int.abs (to_int16
                   (center_y - to_int16 (offset_y range a))))
            /\ (is_int16 (offset_x range a) ->
                0 <= center_x + offset_x range a < 32768 ->
                screen_x a' = center_x + offset_x range a)
            /\ (is_int16 (offset_y range a) ->
                0 <= center_y - offset_y range a < 32768 ->
                screen_y a' = center_y - offset_y range a).
Proof.
  intros (_ & Hlen & _ & Hcount) Hi Ha range st'.
  destruct (recalculate_screen_positions_spec st ltac:(lia))
    as (_ & _ & _ & _ & Hcur & Hsel & Hsig).
  fold st' in Hcur, Hsel, Hsig.
  exists (projected_record range a). split.
  - rewrite Hcur. rewrite lookup_app_l by (rewrite length_map, length_take; lia).
    rewrite list_lookup_fmap, lookup_take_lt by lia.
    rewrite Ha. reflexivity.
  - rewrite <- distance_from_center_spec.
    unfold projected_record. fold (beyond_range range a).
    destruct (beyond_range range a) eqn:Hfar.
    + split; [reflexivity |]. intros Hs.
      assert (Hl : selection_lost (currentAircraftCount st) st = true).
      { unfold selection_lost. rewrite Hs, Nat2Z.id.
        rewrite (list_lookup_total_correct _ _ _ Ha).
        fold range. rewrite Hfar.
        destruct (Z.leb_spec 0 (Z.of_nat i)),
                 (Z.ltb_spec (Z.of_nat i) (Z.of_nat (currentAircraftCount st)));
          try lia; reflexivity. }
      rewrite Hl in Hsel, Hsig. auto.
    + cbn [on_screen screen_x screen_y set_screen_xy set_on_screen].
      rewrite projected_x_spec, projected_y_spec.
      split; [reflexivity |]. split; [reflexivity |]. split; [reflexivity |].
      split; intros Hd Hc.
      * rewrite (to_int16_id _ Hd). apply (stored_coordinate _ Hc).
      * rewrite (to_int16_id _ Hd). apply (stored_coordinate _ Hc).
Qed.

(** C7.  A second call of [recalculate_screen_positions] right after a
    first one changes nothing: the screen coordinates and visibility
    flags of all records, the selection and the signals given are those
    left by the first call. *)
Theorem recalculate_screen_positions_idem st :
  well_formed st ->
  recalculate_screen_positions (recalculate_screen_positions st)
  = recalculate_screen_positions st.
Proof.
  intros (_ & Hlen & _ & Hcount).
  destruct (recalculate_screen_positions_spec st ltac:(lia))
    as (Hr & Hstg & Hsc & Hcc & Hcur & Hsel & Hsig).
  set (st1 := recalculate_screen_positions st) in *.
  set (n := currentAircraftCount st) in *.
  set (range := display_range_km st) in *.
  assert (Hlen1 : (currentAircraftCount st1 <= length (currentAircrafts st1))%nat).
  { rewrite Hcc, Hcur, length_app, length_map, length_take, length_drop. lia. }
  destruct (recalculate_screen_positions_spec st1 Hlen1)
    as (Hr2 & Hstg2 & Hsc2 & Hcc2 & Hcur2 & Hsel2 & Hsig2).
  set (st2 := recalculate_screen_positions st1) in *.
  rewrite Hcc in Hcur2, Hsel2, Hsig2. rewrite Hr in Hcur2.
  assert (Hmap : length (map (projected_record range)
                           (take n (currentAircrafts st))) = n)
    by (rewrite length_map, length_take; lia).
  assert (Hcur' : currentAircrafts st2 = currentAircrafts st1).
  { rewrite Hcur2, Hcur.
    rewrite take_app_length' by (symmetry; exact Hmap).
    rewrite drop_app_length' by (symmetry; exact Hmap).
    f_equal. rewrite map_map. apply map_ext. intros a.
    apply projected_record_idem. }
  assert (Hl1 : selection_lost n st1 = false).
  { unfold selection_lost. rewrite Hsel, Hr. fold range.
    destruct (selection_lost n st) eqn:Hl; [reflexivity |].
    unfold selection_lost in Hl. fold range in Hl.
    destruct (Z.leb_spec 0 (selectedAircraft st)); [| reflexivity].
    destruct (Z.ltb_spec (selectedAircraft st) (Z.of_nat n)); [| reflexivity].
    cbn [andb] in *.
    destruct (lookup_lt_is_Some_2 (currentAircrafts st)
                (Z.to_nat (selectedAircraft st)) ltac:(lia)) as [y Hy].
    rewrite (list_lookup_total_correct _ _ _ Hy) in Hl.
    assert (Hy1 : currentAircrafts st1 !! Z.to_nat (selectedAircraft st)
                  = Some (projected_record range y)).
    { rewrite Hcur, lookup_app_l by lia.
      rewrite list_lookup_fmap, lookup_take_lt by lia.
      rewrite Hy. reflexivity. }
    rewrite (list_lookup_total_correct _ _ _ Hy1).
    rewrite beyond_range_projected. exact Hl. }
  rewrite Hl1 in Hsel2, Hsig2.
  destruct st2, st1. cbn in *. congruence.
Qed.

End ProjectorFacts.

(** ** The selector: first selection *)

Section ConfirmFacts.
Context `{Display}.
Import Int IntFacts.

Lemma square_mod4 a : (a * a) mod 4 = 0 \/ (a * a) mod 4 = 1.
Proof.
  pose proof (Z.div_mod a 2 ltac:(lia)) as Ha.
  pose proof (Z.mod_pos_bound a 2 ltac:(lia)) as Hb.
  set (q := a / 2) in *. set (r := a mod 2) in *. clearbody q r. subst a.
  assert (Hc : r = 0 \/ r = 1) by lia.
  destruct Hc as [-> | ->].
  - left. replace ((2 * q + 0) * (2 * q + 0)) with (0 + (q * q) * 4) by ring.
    rewrite Z_mod_plus_full. reflexivity.
  - right. replace ((2 * q + 1) * (2 * q + 1)) with (1 + (q * q + q) * 4) by ring.
    rewrite Z_mod_plus_full. reflexivity.
Qed.

(** [INT32_MAX] is not a sum of two squares. *)
Lemma squared_distance_below a :
  squared_distance a <= INT32_MAX -> squared_distance a < INT32_MAX.
Proof.
  unfold squared_distance, INT32_MAX. intros Hle.
  set (dx := screen_x a - select_center_x) in *.
  set (dy := screen_y a - select_center_y) in *.
  assert (Hne : dx * dx + dy * dy <> 2147483647); [| lia].
  intros E.
  assert (Hm : (dx * dx + dy * dy) mod 4 = 3) by (rewrite E; reflexivity).
  rewrite Z.add_mod in Hm by lia.
  destruct (square_mod4 dx) as [E1 | E1], (square_mod4 dy) as [E2 | E2];
    rewrite E1, E2 in Hm; discriminate Hm.
Qed.

(** Without overflow [distance] is the squared distance. *)
Lemma select_distance_exact a :
  squared_distance a <= INT32_MAX -> select_distance a = squared_distance a.
Proof.
  unfold squared_distance, select_distance, INT32_MAX. intros Hle.
  set (dx := screen_x a - select_center_x) in *.
  set (dy := screen_y a - select_center_y) in *.
  assert (Hx : is_int32 dx) by (unfold is_int32; nia).
  assert (Hy : is_int32 dy) by (unfold is_int32; nia).
  rewrite (to_int32_id dx Hx), (to_int32_id dy Hy).
  apply to_int32_id. unfold is_int32. nia.
Qed.

(** Coordinates that are non-negative [int16_t] values, around a centre
    that is one too, give distances that fit. *)
Lemma screen_coordinates_fit st :
  0 <= select_center_x <= 32767 -> 0 <= select_center_y <= 32767 ->
  (forall i a, (i < currentAircraftCount st)%nat ->
     currentAircrafts st !! i = Some a -> visible a ->
     0 <= screen_x a <= 32767 /\ 0 <= screen_y a <= 32767) ->
  distances_fit st.
Proof.
  intros Hcx Hcy Hxy i a Hi Ha Hv.
  destruct (Hxy i a Hi Ha Hv) as [Hx Hy].
  unfold squared_distance, INT32_MAX. nia.
Qed.

Lemma select_loop_spec st n :
  well_formed st -> distances_fit st ->
  (n <= currentAircraftCount st)%nat ->
  let r := fold_left select_step (seq 0 n) (INT32_MAX, st) in
  currentAircrafts r.2 = currentAircrafts st
  /\ currentAircraftCount r.2 = currentAircraftCount st
  /\ signalled r.2 = signalled st
  /\ ((r.1 = INT32_MAX /\ selectedAircraft r.2 = selectedAircraft st
       /\ none_visible n st)
      \/ exists i a, selectedAircraft r.2 = Z.of_nat i
                     /\ currentAircrafts st !! i = Some a
                     /\ r.1 = squared_distance a
                     /\ first_nearest n st i).
Proof.
  intros (_ & Hlen & _ & Hcount) Hfit. induction n as [| n IH]; intros Hn.
  - cbn. repeat split. left. repeat split. intros i a Hi. lia.
  - rewrite seq_S, fold_left_app. cbn [fold_left Nat.add].
    destruct (IH ltac:(lia)) as (Hcur & Hcc & Hsig & Hsel). clear IH.
    destruct (fold_left select_step (seq 0 n) (INT32_MAX, st)) as [m st1].
    cbn [fst snd] in *.
    destruct (lookup_lt_is_Some_2 (currentAircrafts st) n ltac:(lia)) as [y Hy].
    unfold select_step. rewrite Hcur, (list_lookup_total_correct _ _ _ Hy).
    destruct (Z.eqb_spec (on_screen y) 0) as [Hoff | Hon].
    + cbn [fst snd]. repeat (split; [assumption |]).
      destruct Hsel as [(Hm & Hs & Hnone) | (i & a & Hs & Ha & Hm & Hnear)].
      * left. repeat (split; [assumption |]).
        intros j b Hj Hb. destruct (decide (j = n)) as [-> | Hne].
        -- congruence.
        -- apply (Hnone j); [lia | assumption].
      * right. exists i, a. repeat (split; [assumption |]).
        destruct Hnear as (a' & Hi & Ha' & Hv & Hmin & Hfirst).
        exists a'. repeat (split; [assumption || lia |]). split; [| assumption].
        intros j b Hj Hb Hvb. destruct (decide (j = n)) as [-> | Hne].
        -- unfold visible in Hvb. congruence.
        -- apply (Hmin j); [lia | assumption ..].
    + assert (Hvy : visible y) by exact Hon.
      pose proof (Hfit n y ltac:(lia) Hy Hvy) as Hle.
      rewrite (select_distance_exact y Hle).
      pose proof (squared_distance_below y Hle) as Hlt.
      destruct (Z.ltb_spec (squared_distance y) m) as [Hless | Hge].
      * cbn [fst snd]. state_fields. repeat (split; [assumption |]).
        right. exists n, y. rewrite to_int16_of_nat by lia.
        repeat (split; [assumption || reflexivity |]).
        exists y. repeat (split; [assumption || lia |]).
        destruct Hsel as [(Hm & Hs & Hnone) | (i & a & Hs & Ha & Hm & Hnear)].
        -- split; intros j b Hj Hb Hvb.
           ++ destruct (decide (j = n)) as [-> | Hne]; [assert (b = y) by congruence; subst; lia |].
              exfalso. apply Hvb. apply (Hnone j); [lia | assumption].
           ++ exfalso. apply Hvb. apply (Hnone j); [lia | assumption].
        -- destruct Hnear as (a' & Hi & Ha' & Hv & Hmin & Hfirst).
           assert (a' = a) by congruence. subst a'.
           split; intros j b Hj Hb Hvb.
           ++ destruct (decide (j = n)) as [-> | Hne]; [assert (b = y) by congruence; subst; lia |].
              pose proof (Hmin j b ltac:(lia) Hb Hvb). lia.
           ++ pose proof (Hmin j b ltac:(lia) Hb Hvb). lia.
      * cbn [fst snd]. repeat (split; [assumption |]).
        destruct Hsel as [(Hm & Hs & Hnone) | (i & a & Hs & Ha & Hm & Hnear)];
          [lia |].
        right. exists i, a. repeat (split; [assumption |]).
        destruct Hnear as (a' & Hi & Ha' & Hv & Hmin & Hfirst).
        assert (a' = a) by congruence. subst a'.
        exists a. repeat (split; [assumption || lia |]). split; [| assumption].
        intros j b Hj Hb Hvb. destruct (decide (j = n)) as [-> | Hne].
        -- assert (b = y) by congruence. subst. lia.
        -- apply (Hmin j); [lia | assumption ..].
Qed.

(** What the thread does with no aircraft selected, on a press of the
    joystick button: if no live record is visible the selection stays -1;
    otherwise the selection becomes the index of the visible live record
    with the least squared distance on the screen from the point
    ([select_center_x], [select_center_y]), the first such record in scan
    order when several are at that distance. *)
Theorem Select_Aircraft_confirm_nearest st press_status :
  well_formed st -> distances_fit st ->
  selectedAircraft st = -1 -> press_status <> 0 ->
  let st' := Select_Aircraft_confirm press_status st in
  currentAircrafts st' = currentAircrafts st
  /\ ((none_visible (currentAircraftCount st) st /\ selectedAircraft st' = -1)
      \/ exists i, selectedAircraft st' = Z.of_nat i
                   /\ first_nearest (currentAircraftCount st) st i).
Proof.
  intros Hwf Hfit Hnone Hpress. unfold Select_Aircraft_confirm.
  rewrite (proj2 (Z.eqb_neq press_status 0) Hpress).
  destruct (select_loop_spec st (currentAircraftCount st) Hwf Hfit ltac:(lia))
    as (Hcur & _ & _ & Hsel).
  destruct (fold_left select_step _ _) as [m st1]. cbn [fst snd] in *.
  state_fields. split; [assumption |].
  destruct Hsel as [(_ & Hs & Hnv) | (i & a & Hs & _ & _ & Hnear)].
  - left. split; [assumption | congruence].
  - right. exists i. auto.
Qed.

End ConfirmFacts.

(** ** Order on [float] *)

Module F32Facts.

Lemma lt_irrefl x : F32.lt x x = false.
Proof.
  unfold F32.lt, SFltb.
  destruct x as [s | s | | s m e]; try destruct s; cbn;
    rewrite ?Z.compare_refl, ?Pos.compare_cont_refl; reflexivity.
Qed.

Lemma compare_positive m1 e1 m2 e2 :
  SFcompare (S754_finite false m1 e1) (S754_finite false m2 e2)
  = Some match e1 ?= e2 with
         | Lt => Lt
         | Gt => Gt
         | Eq => (m1 ?= m2)%positive
         end.
Proof. reflexivity. Qed.

Lemma compare_negative m1 e1 m2 e2 :
  SFcompare (S754_finite true m1 e1) (S754_finite true m2 e2)
  = Some match e1 ?= e2 with
         | Lt => Gt
         | Gt => Lt
         | Eq => CompOpp (m1 ?= m2)%positive
         end.
Proof. reflexivity. Qed.

Lemma lt_trans x y z :
  F32.lt x y = true -> F32.lt y z = true -> F32.lt x z = true.
Proof.
  unfold F32.lt, SFltb.
  destruct x as [sx | sx | | sx mx ex], y as [sy | sy | | sy my ey],
           z as [sz | sz | | sz mz ez];
    try destruct sx; try destruct sy; try destruct sz;
    rewrite ?compare_positive, ?compare_negative;
    cbn [SFcompare]; try discriminate; try reflexivity;
    destruct (Z.compare_spec ex ey), (Z.compare_spec ey ez),
             (Z.compare_spec ex ez);
    try discriminate; try reflexivity; try lia;
    destruct (Pos.compare_spec mx my), (Pos.compare_spec my mz),
             (Pos.compare_spec mx mz);
    cbn [CompOpp]; try discriminate; try reflexivity; lia.
Qed.

End F32Facts.

(** ** Bounds on rounded results *)

Module Rounding.

Lemma digits2_size p : digits2_pos p = Pos.size p.
Proof. induction p as [p IH | p IH |]; cbn; rewrite ?IH; reflexivity. Qed.

Lemma Zdigits2_nonneg z : 0 <= Zdigits2 z.
Proof. destruct z; cbn; lia. Qed.

(** A non-negative number has at most [k] digits when it is below [2 ^ k]. *)
Lemma Zdigits2_le z k : 0 <= z -> 0 <= k -> (Zdigits2 z <= k <-> z < 2 ^ k).
Proof.
intros Hz Hk. destruct z as [| p | p]; [| | lia].
- cbn. split; [intros _; apply Z.pow_pos_nonneg; lia | lia].
- cbn [Zdigits2]. rewrite digits2_size.
  pose proof (Pos.size_gt p) as Hgt. pose proof (Pos.size_le p) as Hle.
  apply Pos2Z.pos_lt_pos in Hgt. apply Pos2Z.pos_le_pos in Hle.
  rewrite Pos2Z.inj_pow in Hgt, Hle.
  split; intros H.
  + apply Z.lt_le_trans with (1 := Hgt). apply Z.pow_le_mono_r; lia.
  + destruct (Z.le_gt_cases (Z.pos (Pos.size p)) k) as [Hok | Hbig]; [exact Hok |].
    exfalso.
    assert (Hp : 2 ^ (k + 1) <= 2 ^ Z.pos (Pos.size p))
      by (apply Z.pow_le_mono_r; lia).
    rewrite Z.pow_add_r in Hp by lia. change (2 ^ 1) with 2 in Hp. lia.
Qed.

Lemma Zdigits2_mono a b : 0 <= a <= b -> Zdigits2 a <= Zdigits2 b.
Proof.
intros Hab. apply Zdigits2_le; [lia | apply Zdigits2_nonneg |].
apply Z.le_lt_trans with b; [lia |].
apply Zdigits2_le; [lia | apply Zdigits2_nonneg | lia].
Qed.

Lemma Zdigits2_abs z : Zdigits2 (Z.abs z) = Zdigits2 z.
Proof. destruct z; reflexivity. Qed.

(** Adding or subtracting two numbers of at most [k] digits gives at most
  [k + 1] digits. *)
Lemma Zdigits2_add a b k :
0 <= k -> Zdigits2 a <= k -> Zdigits2 b <= k -> Zdigits2 (a + b) <= k + 1.
Proof.
intros Hk Ha Hb.
rewrite <- Zdigits2_abs in Ha, Hb |- *.
apply Zdigits2_le in Ha; [| lia | lia]. apply Zdigits2_le in Hb; [| lia | lia].
apply Zdigits2_le; [lia | lia |]. rewrite Z.pow_add_r by lia.
change (2 ^ 1) with 2. lia.
Qed.

Lemma Zdigits2_succ m : 0 <= m -> Zdigits2 (m + 1) <= Zdigits2 m + 1.
Proof.
intros Hm. pose proof (Zdigits2_nonneg m) as Hn.
apply Zdigits2_le; [lia | lia |].
assert (m < 2 ^ Zdigits2 m) by (apply Zdigits2_le; lia).
rewrite Z.pow_add_r by lia. change (2 ^ 1) with 2. lia.
Qed.

Lemma Zdigits2_shift m d :
Zdigits2 (Z.pos (Pos.iter xO m d)) = Zdigits2 (Z.pos m) + Z.pos d.
Proof.
cbn [Zdigits2].
apply (Pos.iter_ind _ xO m
         (fun k r => Z.pos (digits2_pos r) = Z.pos (digits2_pos m) + Z.pos k)).
- cbn [digits2_pos]. lia.
- intros k r IH. cbn [digits2_pos]. lia.
Qed.

(** One shift to the right removes a digit. *)
Lemma shr_1_digits mrs :
0 <= shr_m mrs ->
0 <= shr_m (shr_1 mrs)
/\ Zdigits2 (shr_m (shr_1 mrs)) <= Z.max (Zdigits2 (shr_m mrs) - 1) 0.
Proof.
destruct mrs as [m r s]. cbn [shr_m]. intros Hm.
destruct m as [| [p | p |] | p]; cbn [shr_1 shr_m Zdigits2 digits2_pos]; lia.
Qed.

Lemma iter_shr_1_digits n : forall mrs,
0 <= shr_m mrs ->
0 <= shr_m (SpecFloat.iter_pos shr_1 n mrs)
/\ Zdigits2 (shr_m (SpecFloat.iter_pos shr_1 n mrs))
   <= Z.max (Zdigits2 (shr_m mrs) - Z.pos n) 0.
Proof.
induction n as [n IH | n IH |]; intros mrs Hm; cbn [SpecFloat.iter_pos].
- destruct (shr_1_digits mrs Hm) as [H1 D1].
  destruct (IH _ H1) as [H2 D2]. destruct (IH _ H2) as [H3 D3].
  split; [exact H3 | lia].
- destruct (IH _ Hm) as [H2 D2]. destruct (IH _ H2) as [H3 D3].
  split; [exact H3 | lia].
- destruct (shr_1_digits mrs Hm) as [H1 D1]. split; [exact H1 | lia].
Qed.

Section Bounds.
Variables prec emax : Z.
Hypothesis prec_pos : 0 < prec.

(** The mantissa and exponent after [shr_fexp]: the exponent is bounded
  by the larger of the exponent and of [fexp] of the magnitude, and the
  magnitude does not grow beyond that. *)
Lemma shr_fexp_bounds m e l :
0 <= m ->
let r := shr_fexp prec emax m e l in
let k := fexp prec emax (Zdigits2 m + e) in
0 <= shr_m (fst r)
/\ snd r = Z.max e k
/\ Zdigits2 (shr_m (fst r)) + snd r <= Z.max (Zdigits2 m + e) (Z.max e k).
Proof.
intros Hm. cbv zeta. unfold shr_fexp, shr.
set (k := fexp prec emax (Zdigits2 m + e)).
assert (Hrec : shr_m (shr_record_of_loc m l) = m)
  by (destruct l as [| []]; reflexivity).
destruct (k - e) as [| n | n] eqn:Hn; cbn [fst snd].
- rewrite Hrec. lia.
- destruct (iter_shr_1_digits n (shr_record_of_loc m l)) as [H1 D1];
    [rewrite Hrec; exact Hm |].
  rewrite Hrec in D1. lia.
- rewrite Hrec. lia.
Qed.

Lemma round_nearest_even_bounds m l :
0 <= m -> m <= round_nearest_even m l <= m + 1.
Proof.
intros Hm. unfold round_nearest_even.
destruct l as [| []]; try destruct (Z.even m); lia.
Qed.

(** What [binary_round_aux] returns when the exponent of its argument is
  at most [E] and the magnitude below [2 ^ (E + prec - 1)]. *)
Lemma binary_round_aux_below s m e l E :
0 <= m -> e <= E -> Zdigits2 m + e <= E + prec - 1 ->
3 - emax - prec <= E -> E <= emax - prec ->
below prec E (binary_round_aux prec emax s m e l).
Proof.
intros Hm He Hmag Hmin Hmax. unfold binary_round_aux.
destruct (shr_fexp_bounds m e l Hm) as (H1 & E1 & D1).
destruct (shr_fexp prec emax m e l) as [mrs1 e1]. cbn [fst snd] in *.
pose proof (round_nearest_even_bounds (shr_m mrs1) (loc_of_shr_record mrs1) H1)
  as Hr.
set (m2 := round_nearest_even (shr_m mrs1) (loc_of_shr_record mrs1)) in *.
assert (Hm2 : 0 <= m2) by lia.
assert (Dm2 : Zdigits2 m2 <= Zdigits2 (shr_m mrs1) + 1).
{ apply Z.le_trans with (Zdigits2 (shr_m mrs1 + 1)).
  - apply Zdigits2_mono. lia.
  - apply Zdigits2_succ. exact H1. }
destruct (shr_fexp_bounds m2 e1 loc_Exact Hm2) as (H2 & E2 & D2).
destruct (shr_fexp prec emax m2 e1 loc_Exact) as [mrs2 e2]. cbn [fst snd] in *.
unfold fexp, emin in *.
destruct (shr_m mrs2) as [| p | p] eqn:Hp; cbn [below]; [exact I | | lia].
assert (He2 : e2 <= E) by lia.
destruct (Z.leb_spec e2 (emax - prec)); [| lia].
cbn [below]. lia.
Qed.

Lemma below_mono B B' x : B <= B' -> below prec B x -> below prec B' x.
Proof. destruct x as [| | | s m e]; cbn [below]; lia. Qed.

Lemma shl_align_bounds m e e' :
snd (shl_align m e e') <= e
/\ Zdigits2 (Z.pos (fst (shl_align m e e'))) + snd (shl_align m e e')
   = Zdigits2 (Z.pos m) + e.
Proof.
unfold shl_align. destruct (e' - e) as [| d | d] eqn:Hd; cbn [fst snd].
- lia.
- lia.
- rewrite Zdigits2_shift. lia.
Qed.

Lemma binary_round_below s m e E :
e <= E -> Zdigits2 (Z.pos m) + e <= E + prec - 1 ->
3 - emax - prec <= E -> E <= emax - prec ->
below prec E (binary_round prec emax s m e).
Proof.
intros He Hmag Hmin Hmax. unfold binary_round.
pose proof (shl_align_bounds m e
              (fexp prec emax (Z.pos (digits2_pos m) + e))) as [Hs Hd].
destruct (shl_align m e _) as [mz ez]. cbn [fst snd] in *.
apply binary_round_aux_below; lia.
Qed.

Lemma binary_normalize_below m e szero E :
e <= E -> Zdigits2 m + e <= E + prec - 1 ->
3 - emax - prec <= E -> E <= emax - prec ->
below prec E (binary_normalize prec emax m e szero).
Proof.
intros He Hmag Hmin Hmax. unfold binary_normalize.
destruct m as [| p | p]; [exact I | |]; apply binary_round_below; assumption.
Qed.

Lemma Zdigits2_opp z : Zdigits2 (- z) = Zdigits2 z.
Proof. destruct z; reflexivity. Qed.

Lemma Zdigits2_cond_Zopp s z : Zdigits2 (cond_Zopp s z) = Zdigits2 z.
Proof. destruct s; [apply Zdigits2_opp | reflexivity]. Qed.

(** The difference of two numbers of exponent at most [B] and magnitude
  at most [B + prec]. *)
Lemma SFsub_below B x y :
below prec B x -> below prec B y ->
3 - emax - prec <= B + 2 -> B + 2 <= emax - prec ->
below prec (B + 2) (SFsub prec emax x y).
Proof.
intros Hx Hy Hmin Hmax.
destruct x as [sx | sx | | sx mx ex]; try contradiction;
  destruct y as [sy | sy | | sy my ey]; try contradiction.
- cbn [SFsub]. destruct sx, sy; exact I.
- cbn [SFsub below] in *. lia.
- cbn [SFsub below] in *. lia.
- cbn [below] in Hx, Hy. cbn [SFsub].
  pose proof (shl_align_bounds mx ex (Z.min ex ey)) as [Hsx Hdx].
  pose proof (shl_align_bounds my ey (Z.min ex ey)) as [Hsy Hdy].
  assert (Hex : snd (shl_align mx ex (Z.min ex ey)) = Z.min ex ey).
  { unfold shl_align. destruct (Z.min ex ey - ex) eqn:E; cbn [snd]; lia. }
  assert (Hey : snd (shl_align my ey (Z.min ex ey)) = Z.min ex ey).
  { unfold shl_align. destruct (Z.min ex ey - ey) eqn:E; cbn [snd]; lia. }
  rewrite Hex in Hdx. rewrite Hey in Hdy.
  set (ax := Z.pos (fst (shl_align mx ex (Z.min ex ey)))) in *.
  set (ay := Z.pos (fst (shl_align my ey (Z.min ex ey)))) in *.
  apply binary_normalize_below; try lia.
  assert (Hd : Zdigits2 (cond_Zopp sx ax - cond_Zopp sy ay)
               <= B + prec - Z.min ex ey + 1).
  { unfold Z.sub at 1. apply Zdigits2_add.
    - pose proof (Zdigits2_nonneg ax). lia.
    - rewrite Zdigits2_cond_Zopp. lia.
    - rewrite Zdigits2_opp, Zdigits2_cond_Zopp. lia. }
  lia.
Qed.

Lemma Zdigits2_shiftl m s :
0 <= m -> 0 <= s -> Zdigits2 (Z.shiftl m s) <= Zdigits2 m + s.
Proof.
intros Hm Hs. pose proof (Zdigits2_nonneg m) as Hn.
rewrite Z.shiftl_mul_pow2 by lia.
assert (Hp : 0 < 2 ^ s) by (apply Z.pow_pos_nonneg; lia).
apply Zdigits2_le; [nia | lia |].
assert (m < 2 ^ Zdigits2 m) by (apply Zdigits2_le; lia).
rewrite Z.pow_add_r by lia. nia.
Qed.

(** The quotient of two positive numbers, before it is rounded. *)
Lemma SFdiv_core_bounds m1 e1 m2 e2 :
0 < m1 -> 0 < m2 ->
let '(q, e, _) := SFdiv_core_binary prec emax m1 e1 m2 e2 in
0 <= q /\ e <= e1 - e2 /\ Zdigits2 q + e <= Zdigits2 m1 + e1 - e2.
Proof.
intros H1 H2. unfold SFdiv_core_binary.
set (e' := Z.min _ (e1 - e2)).
assert (He : e' <= e1 - e2) by (unfold e'; lia).
set (m' := match e1 - e2 - e' with
           | 0 => m1
           | Z.pos _ => Z.shiftl m1 (e1 - e2 - e')
           | Z.neg _ => 0
           end).
assert (Hm' : 0 <= m' /\ Zdigits2 m' <= Zdigits2 m1 + (e1 - e2 - e')).
{ unfold m'. destruct (e1 - e2 - e') as [| p | p] eqn:Hs; try lia.
  split; [apply Z.shiftl_nonneg; lia |].
  apply Zdigits2_shiftl; lia. }
pose proof (Z_div_mod m' m2 ltac:(lia)) as Hdiv.
destruct (Z.div_eucl m' m2) as [q r]. destruct Hdiv as [Hq Hr].
assert (Hq0 : 0 <= q) by nia.
assert (Hqm : q <= m') by nia.
pose proof (Zdigits2_mono q m' ltac:(lia)). lia.
Qed.

Lemma SFdiv_below B1 B2 x my ey :
below prec B1 x ->
B1 - ey + 1 <= B2 -> 3 - emax - prec <= B2 -> B2 <= emax - prec ->
below prec B2 (SFdiv prec emax x (S754_finite false my ey)).
Proof.
intros Hx Hb Hmin Hmax.
destruct x as [sx | sx | | sx mx ex]; try contradiction; [exact I |].
cbn [below] in Hx. cbn [SFdiv].
pose proof (SFdiv_core_bounds (Z.pos mx) ex (Z.pos my) ey ltac:(lia) ltac:(lia))
  as Hc.
destruct (SFdiv_core_binary prec emax (Z.pos mx) ex (Z.pos my) ey)
  as [[q e] l].
pose proof (Zdigits2_nonneg (Z.pos my)).
apply binary_round_aux_below; lia.
Qed.

End Bounds.

Lemma below_fabsf prec B x : below prec B x -> below prec B (F32.fabsf x).
Proof. destruct x; cbn; auto. Qed.

(** A number of exponent below that of [FLT_MAX] compares below it. *)
Lemma below_lt_FLT_MAX B x :
B < 104 -> below F32.prec B x -> F32.lt x F32.FLT_MAX = true.
Proof.
intros HB Hx. unfold F32.lt, SFltb, F32.FLT_MAX.
destruct x as [s | s | | s m e]; try contradiction; [reflexivity |].
cbn [below] in Hx. destruct s; [reflexivity |].
rewrite F32Facts.compare_positive.
destruct (Z.compare_spec e 104); try lia; reflexivity.
Qed.

(** The difference of two moderate numbers is below [FLT_MAX], and so is
  its absolute value. *)
Lemma moderate_sub_lt x y :
F32.moderate x -> F32.moderate y ->
F32.lt (F32.sub x y) F32.FLT_MAX = true
/\ F32.lt (F32.fabsf (F32.sub x y)) F32.FLT_MAX = true.
Proof.
unfold F32.moderate. intros Hx Hy.
assert (Hs : below F32.prec (100 + 2) (F32.sub x y)).
{ apply SFsub_below; try assumption; unfold F32.prec, F32.emax; lia. }
split; apply (below_lt_FLT_MAX 102); try lia; [| apply below_fabsf]; exact Hs.
Qed.

(** The coordinates that the decoder produces are moderate. *)
Lemma decode_fixed_moderate n : Int.is_int32 n -> F32.moderate (decode_fixed n).
Proof.
unfold Int.is_int32. intros Hn.
assert (Hof : below F32.prec 9 (F32.of_Z n)).
{ apply binary_normalize_below; unfold F32.prec, F32.emax; try lia.
  rewrite <- Zdigits2_abs.
  assert (Zdigits2 (Z.abs n) <= 32); [| lia].
  apply Zdigits2_le; [lia | lia |]. change (2 ^ 32) with 4294967296. lia. }
unfold F32.moderate, decode_fixed, F32.div, TEN_THOUSAND.
apply (below_mono F32.prec 20 100); [lia |].
eapply SFdiv_below; [.. | exact Hof | | |]; unfold F32.prec, F32.emax; lia.
Qed.

End Rounding.

(** ** The selector: directional selection *)

Section DirectionFacts.
Import Int IntFacts F32Facts.

Lemma abs_small z : - 2147483648 < z < 2147483648 -> Int.abs z = Z.abs z.
Proof. intros Hz. unfold Int.abs. apply to_int32_id. unfold is_int32. lia. Qed.

Lemma joystick_offset_sample j :
  joystick_sample j -> joystick_offset j = j - 2048.
Proof.
  unfold joystick_sample, joystick_offset. intros Hj.
  change JOYSTICK_MIDPOINT with 2048.
  apply to_int32_id. unfold is_int32. lia.
Qed.

(** With a strictly larger axis exactly one flag is set. *)
Lemma determine_direction_dominant dx dy :
  - 2147483648 < dx < 2147483648 -> - 2147483648 < dy < 2147483648 ->
  Z.abs dx <> Z.abs dy ->
  determine_direction dx dy = flags_of (dominant_direction dx dy).
Proof.
  intros Hx Hy Hne. unfold determine_direction, dominant_direction.
  rewrite (abs_small dx Hx), (abs_small dy Hy).
  destruct (Z.ltb_spec (Z.abs dy) (Z.abs dx)), (Z.ltb_spec (Z.abs dx) (Z.abs dy)),
           (Z.ltb_spec 0 dx), (Z.ltb_spec dx 0),
           (Z.ltb_spec 0 dy), (Z.ltb_spec dy 0);
    try lia; reflexivity.
Qed.

(** With equal magnitudes no flag is set. *)
Lemma determine_direction_equal dx dy :
  Int.abs dx = Int.abs dy ->
  determine_direction dx dy = mkDirections false false false false.
Proof.
  intros E. unfold determine_direction. rewrite E, Z.ltb_irrefl. reflexivity.
Qed.

Lemma closest_step_none st refLat refLon acc i :
  closest_step st (mkDirections false false false false) refLat refLon acc i
  = acc.
Proof.
  unfold closest_step. destruct acc as [ci md].
  destruct (Z.of_nat i =? selectedAircraft st); [reflexivity |].
  destruct (on_screen (currentAircrafts st !!! i) =? 0); reflexivity.
Qed.

(** The turn of the loop when one flag is set. *)
Lemma closest_step_directed st dir refLat refLon ci md i :
  closest_step st (flags_of dir) refLat refLon (ci, md) i
  = if Z.of_nat i =? selectedAircraft st then (ci, md)
    else
      let a := currentAircrafts st !!! i in
      if on_screen a =? 0 then (ci, md)
      else if lies_toward dir refLat refLon a
           && F32.lt (directed_delta dir refLat refLon a) md
      then (to_int16 (Z.of_nat i), directed_delta dir refLat refLon a)
      else (ci, md).
Proof.
  unfold closest_step.
  destruct (Z.of_nat i =? selectedAircraft st); [reflexivity |].
  cbv zeta.
  destruct (on_screen (currentAircrafts st !!! i) =? 0); [reflexivity |].
  destruct dir; cbn [flags_of goingEast goingWest goingNorth goingSouth
                     lies_toward directed_delta andb];
    match goal with
    | |- context [if ?c then (if ?l then _ else _) else _] =>
        destruct c; [destruct l |]; reflexivity
    end.
Qed.

Lemma candidate_S n st dir j b :
  candidate (S n) st dir j b ->
  candidate n st dir j b \/ (j = n /\ candidate (S n) st dir n b).
Proof.
  intros (Hj & Hrest). destruct (decide (j = n)) as [-> | Hne].
  - right. split; [reflexivity |]. split; [lia | assumption].
  - left. split; [lia | assumption].
Qed.

Lemma candidate_mono n st dir j b :
  candidate n st dir j b -> candidate (S n) st dir j b.
Proof. intros (Hj & Hrest). split; [lia | assumption]. Qed.

(** The loop after [n] turns: [minDifference] is a lower bound of the
    candidates seen, and [closestIndex] is -1 or a candidate at that
    distance. *)
Lemma closest_loop_spec st dir n :
  well_formed st -> (n <= currentAircraftCount st)%nat ->
  let r :=
    fold_left
      (closest_step st (flags_of dir)
         (latitude (reference st)) (longitude (reference st)))
      (seq 0 n) (-1, F32.FLT_MAX) in
  (forall j b, candidate n st dir j b ->
     F32.lt (delta_from_selected st dir b) r.2 = false)
  /\ ((r.1 = -1 /\ r.2 = F32.FLT_MAX)
      \/ exists i a, r.1 = Z.of_nat i /\ candidate n st dir i a
                     /\ r.2 = delta_from_selected st dir a).
Proof.
  intros (_ & Hlen & _ & Hcount). induction n as [| n IH]; intros Hn.
  - cbn. split; [| left; auto]. intros j b (Hj & _). lia.
  - rewrite seq_S, fold_left_app. cbn [fold_left Nat.add].
    destruct (IH ltac:(lia)) as (Hlow & Hidx). clear IH.
    destruct (fold_left _ (seq 0 n) _) as [ci md]. cbn [fst snd] in *.
    rewrite closest_step_directed. cbv zeta.
    destruct (lookup_lt_is_Some_2 (currentAircrafts st) n ltac:(lia)) as [y Hy].
    rewrite (list_lookup_total_correct _ _ _ Hy).
    assert (Hkeep :
      (forall b, candidate (S n) st dir n b ->
         F32.lt (delta_from_selected st dir b) md = false) ->
      (forall j b, candidate (S n) st dir j b ->
         F32.lt (delta_from_selected st dir b) (ci, md).2 = false)
      /\ (((ci, md).1 = -1 /\ (ci, md).2 = F32.FLT_MAX)
          \/ exists i a, (ci, md).1 = Z.of_nat i /\ candidate (S n) st dir i a
                         /\ (ci, md).2 = delta_from_selected st dir a)).
    { intros Hnew. cbn [fst snd]. split.
      - intros j b Hc. destruct (candidate_S _ _ _ _ _ Hc) as [Hc' | [-> Hc']];
          [apply (Hlow j b Hc') | apply (Hnew b Hc')].
      - destruct Hidx as [Hi | (i & a & Hi & Hc & Hm)]; [left; exact Hi |].
        right. exists i, a. auto using candidate_mono. }
    destruct (Z.eqb_spec (Z.of_nat n) (selectedAircraft st)) as [Hsel | Hsel].
    { apply Hkeep. intros b (_ & _ & Hne & _). contradiction. }
    destruct (Z.eqb_spec (on_screen y) 0) as [Hoff | Hon].
    { apply Hkeep. intros b (_ & Hb & _ & Hv & _).
      assert (b = y) by congruence. subst b. contradiction. }
    destruct (lies_toward dir _ _ y) eqn:Htoward; cbn [andb].
    2:{ apply Hkeep. intros b (_ & Hb & _ & _ & Ht).
        assert (b = y) by congruence. subst b. congruence. }
    fold (delta_from_selected st dir y).
    destruct (F32.lt (delta_from_selected st dir y) md) eqn:Hless.
    2:{ apply Hkeep. intros b (_ & Hb & _).
        assert (b = y) by congruence. subst b. exact Hless. }
    cbn [fst snd]. split.
    + intros j b Hc.
      destruct (candidate_S _ _ _ _ _ Hc) as [Hc' | [-> (_ & Hb & _)]].
      * destruct (F32.lt (delta_from_selected st dir b)
                    (delta_from_selected st dir y)) eqn:Hlt; [| reflexivity].
        rewrite <- (Hlow j b Hc'). symmetry.
        apply (lt_trans _ _ _ Hlt Hless).
      * assert (b = y) by congruence. subst b. apply lt_irrefl.
    + right. exists n, y. split; [apply to_int16_of_nat; lia |].
      split; [| reflexivity].
      repeat split; try assumption; lia.
Qed.

(** Moderate coordinates keep every difference below [FLT_MAX]. *)
Lemma moderate_deltas st dir :
  well_formed st ->
  0 <= selectedAircraft st < Z.of_nat MAX_AIRCRAFTS ->
  moderate_positions st -> deltas_below_FLT_MAX st dir.
Proof.
  intros (_ & Hlen & _) Hsel Hmod i a (_ & Ha & _).
  destruct (lookup_lt_is_Some_2 (currentAircrafts st)
              (Z.to_nat (selectedAircraft st)) ltac:(lia)) as [y Hy].
  unfold delta_from_selected, reference.
  rewrite (list_lookup_total_correct _ _ _ Hy).
  destruct (Hmod _ _ Ha) as [Hlon Hlat].
  destruct (Hmod _ _ Hy) as [Hrlon Hrlat].
  destruct dir; cbn [directed_delta];
    first [apply (Rounding.moderate_sub_lt _ _ Hlon Hrlon)
          | apply (Rounding.moderate_sub_lt _ _ Hlat Hrlat)].
Qed.

(** C8.  With an aircraft selected and a joystick sample whose offset
    from the midpoint is strictly larger on one axis, in a state whose
    coordinates are far from the limits of [float] (as all coordinates
    are that the decoder produces): if no visible live
    record other than the selected one lies in the direction of the
    offset, [closest_aircraft_by_angle] returns the selection unchanged;
    otherwise it returns the index of such a record, hence not of the
    selected one, whose longitude (east, west) or latitude (north, south)
    difference to the selected record is the least among them. *)
Theorem closest_aircraft_by_angle_nearest st joystick_dx joystick_dy :
  well_formed st ->
  0 <= selectedAircraft st < Z.of_nat MAX_AIRCRAFTS ->
  joystick_sample joystick_dx -> joystick_sample joystick_dy ->
  Z.abs (joystick_dx - 2048) <> Z.abs (joystick_dy - 2048) ->
  let dir := dominant_direction (joystick_dx - 2048) (joystick_dy - 2048) in
  let n := currentAircraftCount st in
  moderate_positions st ->
  let r := closest_aircraft_by_angle st joystick_dx joystick_dy in
  classify (determine_direction (joystick_offset joystick_dx)
              (joystick_offset joystick_dy)) = Some dir
  /\ (((forall j b, ~ candidate n st dir j b) /\ r = selectedAircraft st)
      \/ exists i a,
           r = Z.of_nat i /\ r <> selectedAircraft st
           /\ candidate n st dir i a
           /\ forall j b, candidate n st dir j b ->
                F32.lt (delta_from_selected st dir b)
                       (delta_from_selected st dir a) = false).
Proof.
  intros Hwf Hsel Hx Hy Hne dir n Hmod r.
  pose proof (moderate_deltas st dir Hwf Hsel Hmod) as Hfin.
  assert (Hd : determine_direction (joystick_offset joystick_dx)
                 (joystick_offset joystick_dy) = flags_of dir).
  { rewrite (joystick_offset_sample _ Hx), (joystick_offset_sample _ Hy).
    unfold joystick_sample in *.
    apply determine_direction_dominant; lia. }
  split; [rewrite Hd; destruct dir; reflexivity |].
  subst r. unfold closest_aircraft_by_angle.
  destruct (Z.eqb_spec (selectedAircraft st) (-1)) as [E | _]; [lia |].
  cbv zeta. rewrite Hd. fold (reference st).
  destruct (closest_loop_spec st dir n Hwf ltac:(lia)) as (Hlow & Hidx).
  destruct (fold_left _ (seq 0 (currentAircraftCount st)) _) as [ci md].
  cbn [fst snd] in *.
  destruct Hidx as [[-> ->] | (i & a & -> & Hc & ->)].
  - left. split; [| reflexivity].
    intros j b Hc. pose proof (Hfin j b Hc) as Ht.
    rewrite (Hlow j b Hc) in Ht. discriminate.
  - right. destruct (Z.eqb_spec (Z.of_nat i) (-1)) as [E | _]; [lia |].
    pose proof Hc as (_ & _ & Hne' & _).
    exists i, a. split; [reflexivity |]. split; [exact Hne' |].
    split; [exact Hc | exact Hlow].
Qed.

(** With equal magnitudes, as the function computes them, no flag is
    set and the loop leaves [closestIndex] at -1. *)
Lemma closest_aircraft_by_angle_flags_clear st joystick_dx joystick_dy :
  Int.abs (joystick_offset joystick_dx) = Int.abs (joystick_offset joystick_dy) ->
  determine_direction (joystick_offset joystick_dx) (joystick_offset joystick_dy)
    = mkDirections false false false false
  /\ closest_aircraft_by_angle st joystick_dx joystick_dy = selectedAircraft st.
Proof.
  intros E. pose proof (determine_direction_equal _ _ E) as Hd.
  split; [exact Hd |].
  unfold closest_aircraft_by_angle.
  destruct (Z.eqb_spec (selectedAircraft st) (-1)) as [Hs | _]; [auto |].
  cbv zeta. rewrite Hd.
  assert (Hloop : forall l acc,
    fold_left
      (closest_step st (mkDirections false false false false)
         (latitude (currentAircrafts st !!! Z.to_nat (selectedAircraft st)))
         (longitude (currentAircrafts st !!! Z.to_nat (selectedAircraft st))))
      l acc = acc).
  { induction l as [| i l IH]; intros acc; [reflexivity |].
    cbn [fold_left]. rewrite closest_step_none. apply IH. }
  rewrite Hloop. reflexivity.
Qed.

(** Offsets of equal magnitude are computed with equal magnitudes. *)
Lemma equal_offsets_computed joystick_dx joystick_dy :
  is_int32 joystick_dx -> is_int32 joystick_dy ->
  Z.abs (joystick_dx - 2048) = Z.abs (joystick_dy - 2048) ->
  Int.abs (joystick_offset joystick_dx) = Int.abs (joystick_offset joystick_dy).
Proof.
  unfold is_int32. intros Hx Hy E.
  destruct (Z.eq_dec joystick_dx joystick_dy) as [-> | Hne]; [reflexivity |].
  unfold joystick_offset, Int.abs. change JOYSTICK_MIDPOINT with 2048.
  rewrite (to_int32_id (joystick_dx - 2048)) by (unfold is_int32; lia).
  rewrite (to_int32_id (joystick_dy - 2048)) by (unfold is_int32; lia).
  rewrite E. reflexivity.
Qed.

(** C10.  When the two offsets of the joystick from the midpoint 2048
    have equal magnitudes, the midpoint itself included, none of the four
    direction flags is set and [closest_aircraft_by_angle] returns the
    current selection. *)
Theorem closest_aircraft_by_angle_no_direction st joystick_dx joystick_dy :
  is_int32 joystick_dx -> is_int32 joystick_dy ->
  Z.abs (joystick_dx - 2048) = Z.abs (joystick_dy - 2048) ->
  determine_direction (joystick_offset joystick_dx) (joystick_offset joystick_dy)
    = mkDirections false false false false
  /\ closest_aircraft_by_angle st joystick_dx joystick_dy = selectedAircraft st.
Proof.
  intros Hx Hy E. apply closest_aircraft_by_angle_flags_clear.
  apply equal_offsets_computed; assumption.
Qed.

End DirectionFacts.

(** ** The byte reassembler over whole messages *)

Section ReassemblerMessages.
Import Int IntFacts.

Lemma to_uint8_small z : 0 <= z < 256 -> to_uint8 z = z.
Proof. intros Hz. unfold to_uint8, to_unsigned. apply Z.mod_small. exact Hz. Qed.

(** One byte keeps the invariant. *)
Lemma UART4_receive_invariant u b :
  uart_invariant u -> uart_invariant (UART4_receive u b).1.
Proof.
  unfold uart_invariant, MESSAGE_SIZE. intros (Hlen & Hi & Hc).
  unfold UART4_receive.
  rewrite (to_uint8_small (byte_index u + 1)) by lia.
  rewrite (to_uint8_small (message_byte_count u + 1)) by lia.
  destruct (Z.eqb_spec (byte_index u + 1) 4) as [E | NE].
  - destruct (to_uint32 _ =? 4294967295).
    + cbn. rewrite length_insert. lia.
    + destruct (Z.leb_spec MESSAGE_SIZE (message_byte_count u + 1));
        cbn; rewrite length_insert; unfold MESSAGE_SIZE in *; lia.
  - destruct (Z.leb_spec MESSAGE_SIZE (message_byte_count u + 1));
      cbn; rewrite length_insert; unfold MESSAGE_SIZE in *; lia.
Qed.

(** X1.  Whatever bytes arrive, the handler keeps [byte_index] within
    the four slots of [byte_buffer], so that no write to the buffer is out
    of bounds, and keeps [message_byte_count] below [MESSAGE_SIZE]. *)
Theorem UART4_Handler_keeps_invariant u bytes :
  uart_invariant u -> uart_invariant (UART4_Handler u bytes).1.
Proof.
  revert u. induction bytes as [| b rest IH]; intros u Hu; [exact Hu |].
  cbn [UART4_Handler].
  pose proof (UART4_receive_invariant u b Hu) as H1.
  destruct (UART4_receive u b) as [u1 e1]. cbn [fst] in H1.
  specialize (IH u1 H1).
  destruct (UART4_Handler u1 rest) as [u2 e2]. exact IH.
Qed.

Lemma byte_at_is_byte i w : 0 <= i -> is_byte (byte_at i w).
Proof.
  intros Hi. unfold is_byte. rewrite byte_at_spec by exact Hi.
  apply Z.mod_pos_bound. lia.
Qed.

(** The bytes of a word put together again give the word. *)
Lemma le_word_le_bytes w :
  le_word (byte_at 0 w) (byte_at 1 w) (byte_at 2 w) (byte_at 3 w)
  = w mod 4294967296.
Proof.
  unfold le_word. rewrite !byte_at_spec by lia.
  change (2 ^ (0 * 8)) with 1. change (2 ^ (1 * 8)) with 256.
  change (2 ^ (2 * 8)) with 65536. change (2 ^ (3 * 8)) with 16777216.
  rewrite Z.div_1_r.
  assert (E2 : w / 65536 = w / 256 / 256)
    by (rewrite Z.div_div by lia; reflexivity).
  assert (E3 : w / 16777216 = w / 65536 / 256)
    by (rewrite Z.div_div by lia; reflexivity).
  assert (E4 : w / 4294967296 = w / 16777216 / 256)
    by (rewrite Z.div_div by lia; reflexivity).
  pose proof (Z.div_mod w 256 ltac:(lia)) as H0.
  pose proof (Z.div_mod (w / 256) 256 ltac:(lia)) as H1.
  pose proof (Z.div_mod (w / 65536) 256 ltac:(lia)) as H2.
  pose proof (Z.div_mod (w / 16777216) 256 ltac:(lia)) as H3.
  rewrite <- E2 in H1. rewrite <- E3 in H2. rewrite <- E4 in H3.
  pose proof (Z.mod_pos_bound w 256 ltac:(lia)).
  pose proof (Z.mod_pos_bound (w / 256) 256 ltac:(lia)).
  pose proof (Z.mod_pos_bound (w / 65536) 256 ltac:(lia)).
  pose proof (Z.mod_pos_bound (w / 16777216) 256 ltac:(lia)).
  apply (Z.mod_unique w 4294967296 (w / 4294967296)); lia.
Qed.

Lemma assemble_word_le_bytes w :
  is_int32 w ->
  assemble_word [byte_at 0 w; byte_at 1 w; byte_at 2 w; byte_at 3 w] = w.
Proof.
  intros Hw. rewrite assemble_word_le by (apply byte_at_is_byte; lia).
  rewrite le_word_le_bytes, to_int32_mod. apply to_int32_id. exact Hw.
Qed.

(** A byte that does not complete a word, within a message. *)
Lemma UART4_receive_store u b :
  0 <= byte_index u < 3 ->
  0 <= message_byte_count u -> message_byte_count u + 1 < MESSAGE_SIZE ->
  UART4_receive u b
  = (mkUart (<[Z.to_nat (byte_index u) := b]> (byte_buffer u))
       (byte_index u + 1) (message_byte_count u + 1), []).
Proof.
  unfold MESSAGE_SIZE. intros Hi Hc0 Hc. unfold UART4_receive.
  rewrite (to_uint8_small (byte_index u + 1)) by lia.
  rewrite (to_uint8_small (message_byte_count u + 1)) by lia.
  destruct (Z.eqb_spec (byte_index u + 1) 4) as [E | _]; [lia |].
  destruct (Z.leb_spec MESSAGE_SIZE (message_byte_count u + 1)) as [Hge | _];
    [unfold MESSAGE_SIZE in Hge; lia | reflexivity].
Qed.

(** The byte that completes a word other than the all-ones word. *)
Lemma UART4_receive_data u b :
  byte_index u = 3 ->
  0 <= message_byte_count u < MESSAGE_SIZE ->
  let buf := <[3%nat := b]> (byte_buffer u) in
  assemble_word buf <> -1 -> is_int32 (assemble_word buf) ->
  UART4_receive u b
  = if message_byte_count u + 1 =? MESSAGE_SIZE
    then (mkUart buf 0 0,
          [WriteFIFO DATA_FIFO (assemble_word buf);
           SignalSemaphore sem_DATA_READY])
    else (mkUart buf 0 (message_byte_count u + 1),
          [WriteFIFO DATA_FIFO (assemble_word buf)]).
Proof.
  intros Hi Hc buf Hne Hw. unfold MESSAGE_SIZE in Hc. unfold UART4_receive.
  rewrite Hi. change (Z.to_nat 3) with 3%nat. fold buf.
  change (to_uint8 (3 + 1) =? 4) with true. cbv iota.
  rewrite (to_uint8_small (message_byte_count u + 1)) by lia.
  assert (Hu : to_uint32 (assemble_word buf) <> 4294967295).
  { unfold to_uint32, to_unsigned, is_int32 in *.
    change (2 ^ 32) with 4294967296. intros E.
    pose proof (Z.div_mod (assemble_word buf) 4294967296 ltac:(lia)).
    pose proof (Z.mod_pos_bound (assemble_word buf) 4294967296 ltac:(lia)).
    lia. }
  rewrite (proj2 (Z.eqb_neq _ _) Hu). unfold MESSAGE_SIZE.
  destruct (Z.eqb_spec (message_byte_count u + 1) 28) as [E | NE].
  - rewrite E. reflexivity.
  - destruct (Z.leb_spec 28 (message_byte_count u + 1)) as [Hge | _];
      [lia | reflexivity].
Qed.

(** The byte that completes an all-ones word. *)
Lemma UART4_receive_end_of_burst u :
  byte_index u = 3 ->
  byte_buffer u !! 0%nat = Some 255 -> byte_buffer u !! 1%nat = Some 255 ->
  byte_buffer u !! 2%nat = Some 255 -> length (byte_buffer u) = 4%nat ->
  UART4_receive u 255
  = (mkUart [255; 255; 255; 255] 0 0, [SignalSemaphore sem_BURST_COMPLETE]).
Proof.
  intros Hi H0 H1 H2 Hlen. unfold UART4_receive. rewrite Hi.
  destruct (byte_buffer u) as [| x0 [| x1 [| x2 [| x3 [| ? ?]]]]];
    try discriminate Hlen.
  cbn in H0, H1, H2. injection H0 as ->. injection H1 as ->. injection H2 as ->.
  reflexivity.
Qed.

(** The four bytes of a data word, received from an empty buffer while
    at most 24 bytes of the message are counted. *)
Lemma UART4_Handler_data_word u w :
  length (byte_buffer u) = 4%nat -> byte_index u = 0 ->
  0 <= message_byte_count u -> message_byte_count u + 4 <= MESSAGE_SIZE ->
  data_word w ->
  UART4_Handler u (le_bytes w)
  = if message_byte_count u + 4 =? MESSAGE_SIZE
    then (mkUart (le_bytes w) 0 0,
          [WriteFIFO DATA_FIFO w; SignalSemaphore sem_DATA_READY])
    else (mkUart (le_bytes w) 0 (message_byte_count u + 4),
          [WriteFIFO DATA_FIFO w]).
Proof.
  intros Hlen Hi Hc0 Hc [Hw Hne]. unfold MESSAGE_SIZE in *.
  destruct u as [buf bi c]. cbn [byte_buffer byte_index message_byte_count] in *.
  subst bi.
  destruct buf as [| x0 [| x1 [| x2 [| x3 [| ? ?]]]]]; try discriminate Hlen.
  unfold le_bytes. cbn [UART4_Handler].
  rewrite UART4_receive_store
    by (cbn [byte_index message_byte_count]; unfold MESSAGE_SIZE; lia).
  cbn [byte_buffer byte_index message_byte_count].
  rewrite UART4_receive_store
    by (cbn [byte_index message_byte_count]; unfold MESSAGE_SIZE; lia).
  cbn [byte_buffer byte_index message_byte_count].
  rewrite UART4_receive_store
    by (cbn [byte_index message_byte_count]; unfold MESSAGE_SIZE; lia).
  cbn [byte_buffer byte_index message_byte_count].
  change (Z.to_nat 0) with 0%nat. change (Z.to_nat (0 + 1)) with 1%nat.
  change (Z.to_nat (0 + 1 + 1)) with 2%nat.
  cbn [insert list_insert].
  pose proof (assemble_word_le_bytes w Hw) as Ha.
  rewrite UART4_receive_data;
    cbn [byte_buffer byte_index message_byte_count insert list_insert];
    rewrite ?Ha; try assumption; try (unfold MESSAGE_SIZE; lia).
  replace (c + 1 + 1 + 1 + 1) with (c + 4) by lia.
  unfold MESSAGE_SIZE. destruct (c + 4 =? 28); reflexivity.
Qed.

(** Data words received from an empty buffer, as long as they stay
    within one message: each is written to the FIFO, in order, and the
    record is signalled once the count reaches [MESSAGE_SIZE]. *)
Lemma UART4_Handler_data_words words : forall u,
  length (byte_buffer u) = 4%nat -> byte_index u = 0 ->
  0 <= message_byte_count u < MESSAGE_SIZE ->
  message_byte_count u + 4 * Z.of_nat (length words) <= MESSAGE_SIZE ->
  Forall data_word words ->
  let r := UART4_Handler u (flat_map le_bytes words) in
  let total := message_byte_count u + 4 * Z.of_nat (length words) in
  r.2 = map (WriteFIFO DATA_FIFO) words
        ++ (if total =? MESSAGE_SIZE
            then [SignalSemaphore sem_DATA_READY] else [])
  /\ length (byte_buffer r.1) = 4%nat
  /\ byte_index r.1 = 0
  /\ message_byte_count r.1 = (if total =? MESSAGE_SIZE then 0 else total).
Proof.
  induction words as [| w ws IH]; intros u Hlen Hi Hc Htot Hall; cbv zeta.
  - cbn [flat_map UART4_Handler length map app fst snd Z.of_nat].
    rewrite Z.mul_0_r, Z.add_0_r.
    destruct (Z.eqb_spec (message_byte_count u) MESSAGE_SIZE) as [E | _];
      [lia | auto].
  - inversion Hall as [| ? ? Hw Hws]; subst.
    cbn [flat_map]. rewrite UART4_Handler_app.
    rewrite (UART4_Handler_data_word u w) by (cbn [length] in Htot; lia || assumption).
    cbn [length] in Htot |- *. rewrite Nat2Z.inj_succ in Htot |- *.
    destruct (Z.eqb_spec (message_byte_count u + 4) MESSAGE_SIZE) as [E | NE].
    + assert (ws = []) by (destruct ws; [reflexivity | cbn [length] in Htot; lia]).
      subst ws. cbn [fst snd flat_map UART4_Handler length map app Z.of_nat].
      replace (message_byte_count u + 4 * Z.succ (Z.of_nat 0))
        with (message_byte_count u + 4) by lia.
      rewrite (proj2 (Z.eqb_eq _ _) E).
      cbn [byte_buffer byte_index message_byte_count le_bytes length]. auto.
    + cbn [fst snd].
      set (u1 := mkUart (le_bytes w) 0 (message_byte_count u + 4)).
      assert (H1 : length (byte_buffer u1) = 4%nat) by reflexivity.
      assert (H2 : byte_index u1 = 0) by reflexivity.
      assert (H3 : 0 <= message_byte_count u1 < MESSAGE_SIZE)
        by (cbn [u1 message_byte_count]; unfold MESSAGE_SIZE in *; lia).
      assert (H4 : message_byte_count u1 + 4 * Z.of_nat (length ws)
                   <= MESSAGE_SIZE)
        by (cbn [u1 message_byte_count]; lia).
      destruct (IH u1 H1 H2 H3 H4 Hws) as (He & Hl & Hb & Hm).
      cbv zeta in He, Hm.
      assert (Ht : message_byte_count u1 + 4 * Z.of_nat (length ws)
                   = message_byte_count u + 4 * Z.succ (Z.of_nat (length ws)))
        by (cbn [u1 message_byte_count]; lia).
      rewrite Ht in He, Hm.
      rewrite He. cbn [map app]. auto.
Qed.

(** An all-ones word that follows fewer than seven words of a message:
    the words before it are written to the FIFO, the end of the burst is
    signalled, no record is signalled and the byte count starts again. *)
Lemma UART4_Handler_cut words u :
  message_boundary u -> Forall data_word words -> (length words < 7)%nat ->
  let r := UART4_Handler u (flat_map le_bytes words ++ [255; 255; 255; 255]) in
  r.2 = map (WriteFIFO DATA_FIFO) words ++ [SignalSemaphore sem_BURST_COMPLETE]
  /\ message_boundary r.1.
Proof.
  intros (Hlen & Hi & Hc) Hall Hshort. cbv zeta.
  rewrite UART4_Handler_app.
  destruct (UART4_Handler_data_words words u Hlen Hi)
    as (He & Hl & Hb & Hm);
    try (unfold MESSAGE_SIZE; lia); try assumption.
  cbv zeta in He, Hm. rewrite Hc in He, Hm.
  destruct (Z.eqb_spec (0 + 4 * Z.of_nat (length words)) MESSAGE_SIZE) as [E | _];
    [unfold MESSAGE_SIZE in E; lia |].
  rewrite He, app_nil_r.
  destruct (UART4_Handler u (flat_map le_bytes words)) as [[buf bi c] e1].
  cbn [fst snd byte_buffer byte_index message_byte_count] in *. subst bi c.
  destruct buf as [| x0 [| x1 [| x2 [| x3 [| ? ?]]]]]; try discriminate Hl.
  cbn [UART4_Handler].
  rewrite UART4_receive_store
    by (cbn [byte_index message_byte_count]; unfold MESSAGE_SIZE; lia).
  cbn [byte_buffer byte_index message_byte_count].
  rewrite UART4_receive_store
    by (cbn [byte_index message_byte_count]; unfold MESSAGE_SIZE; lia).
  cbn [byte_buffer byte_index message_byte_count].
  rewrite UART4_receive_store
    by (cbn [byte_index message_byte_count]; unfold MESSAGE_SIZE; lia).
  cbn [byte_buffer byte_index message_byte_count].
  change (Z.to_nat 0) with 0%nat. change (Z.to_nat (0 + 1)) with 1%nat.
  change (Z.to_nat (0 + 1 + 1)) with 2%nat.
  cbn [insert list_insert].
  rewrite UART4_receive_end_of_burst by reflexivity.
  cbn [fst snd app]. split; [reflexivity |].
  unfold message_boundary. cbn. auto.
Qed.

(** Whole messages received from a message boundary. *)
Lemma UART4_Handler_messages messages : forall u,
  message_boundary u -> Forall message messages ->
  let r := UART4_Handler u (flat_map le_bytes (concat messages)) in
  r.2 = flat_map message_events messages /\ message_boundary r.1.
Proof.
  induction messages as [| m ms IH]; intros u Hu Hall; cbv zeta.
  - cbn. auto.
  - inversion Hall as [| ? ? [Hlen Hm] Hms]; subst.
    cbn [concat flat_map]. rewrite flat_map_app, UART4_Handler_app.
    destruct Hu as (Hl & Hi & Hc).
    destruct (UART4_Handler_data_words m u Hl Hi) as (He & Hl1 & Hb1 & Hm1);
      try (rewrite ?Hc, ?Hlen; unfold MESSAGE_SIZE; lia); try assumption.
    cbv zeta in He, Hm1. rewrite Hc, Hlen in He, Hm1.
    change (0 + 4 * Z.of_nat 7 =? MESSAGE_SIZE) with true in He, Hm1.
    cbv iota in He, Hm1.
    destruct (IH (UART4_Handler u (flat_map le_bytes m)).1) as [He2 Hb2];
      [unfold message_boundary; auto | assumption |].
    cbv zeta in He2. cbn [fst snd]. rewrite He, He2. auto.
Qed.

(** X2.  A burst received from a message boundary: for every message,
    in order, its seven words are written to the FIFO and
    [sem_DATA_READY] is signalled right after the seventh; the all-ones
    word gives the one signal on [sem_BURST_COMPLETE], last; and the
    handler is at a message boundary again. *)
Theorem UART4_Handler_burst u messages :
  message_boundary u -> Forall message messages ->
  let r := UART4_Handler u (burst_bytes messages) in
  r.2 = flat_map message_events messages
        ++ [SignalSemaphore sem_BURST_COMPLETE]
  /\ message_boundary r.1.
Proof.
  intros Hu Hall. cbv zeta. unfold burst_bytes.
  rewrite UART4_Handler_app.
  destruct (UART4_Handler_messages messages u Hu Hall) as [He Hb].
  cbv zeta in He. rewrite He.
  destruct (UART4_Handler_cut [] _ Hb (List.Forall_nil _) ltac:(cbn; lia))
    as [He2 Hb2].
  cbv zeta in He2. cbn [flat_map app map] in He2, Hb2.
  cbn [fst snd]. rewrite He2. auto.
Qed.

(** X3.  An all-ones word inside a message, such as the encoding of
    -0.0001 in a field, ends the burst there: the words of the message
    received before it are written to the FIFO, [sem_BURST_COMPLETE] is
    signalled, [sem_DATA_READY] is not, and the byte count starts again
    so that the words left of that message open the next one. *)
Theorem UART4_Handler_all_ones_in_message u words :
  message_boundary u -> Forall data_word words ->
  (0 < length words < 7)%nat ->
  let r := UART4_Handler u (flat_map le_bytes (words ++ [-1])) in
  r.2 = map (WriteFIFO DATA_FIFO) words ++ [SignalSemaphore sem_BURST_COMPLETE]
  /\ message_boundary r.1.
Proof.
  intros Hu Hall Hlen. cbv zeta. rewrite flat_map_app.
  change (flat_map le_bytes [-1]) with [255; 255; 255; 255].
  apply UART4_Handler_cut; [assumption | assumption | lia].
Qed.

End ReassemblerMessages.

(** ** The record decoder and the staging array *)

Section DecoderStaging.
Import Int IntFacts.

Lemma staged_append st r :
  (stagingAircraftCount st < length (stagingAircrafts st))%nat ->
  staged (set_staging (<[stagingAircraftCount st := r]> (stagingAircrafts st))
            (S (stagingAircraftCount st)) st)
  = staged st ++ [r].
Proof.
  intros Hlt. unfold staged. state_fields.
  rewrite (take_S_r _ _ r) by (apply list_lookup_insert_eq; exact Hlt).
  rewrite take_insert_ge by lia. reflexivity.
Qed.

(** One iteration on a queue that holds a message. *)
Lemma Process_New_Aircraft_step w0 w1 w2 w3 w4 w5 w6 rest c7 local st :
  well_formed st ->
  exists st',
    Process_New_Aircraft_Thread
      (w0 :: w1 :: w2 :: w3 :: w4 :: w5 :: w6 :: rest) c7 local st
    = Some (rest, st')
    /\ well_formed st'
    /\ staged st'
       = take MAX_AIRCRAFTS
           (staged st ++ [decode_record w0 w1 w2 w3 w4 w5 w6 c7 local])
    /\ (stagingAircraftCount st = MAX_AIRCRAFTS -> st' = st)
    /\ display_range_km st' = display_range_km st
    /\ currentAircrafts st' = currentAircrafts st
    /\ currentAircraftCount st' = currentAircraftCount st
    /\ selectedAircraft st' = selectedAircraft st
    /\ signalled st' = signalled st.
Proof.
  intros (Hls & Hlc & Hs & Hc).
  unfold Process_New_Aircraft_Thread. cbn [read_message].
  assert (Hstaged : length (staged st) = stagingAircraftCount st)
    by (unfold staged; rewrite length_take; lia).
  destruct (Nat.ltb_spec (stagingAircraftCount st) MAX_AIRCRAFTS) as [Hlt | Hge].
  - eexists. split; [reflexivity |]. split.
    { unfold well_formed. state_fields. rewrite length_insert. lia. }
    split.
    { rewrite staged_append by lia.
      rewrite take_ge; [reflexivity |]. rewrite length_app, Hstaged. cbn. lia. }
    split; [lia |]. state_fields. auto 10.
  - exists st. split; [reflexivity |]. split; [unfold well_formed; auto |].
    split.
    { rewrite take_app_le by (rewrite Hstaged; lia).
      rewrite take_ge by (rewrite Hstaged; lia). reflexivity. }
    auto 10.
Qed.

(** X4.  An iteration of the decoder on a queued message takes its
    seven words off the queue and appends the record to the staged ones
    while there are fewer than [MAX_AIRCRAFTS]; with the staging array
    full the record is dropped and nothing changes.  The counts stay
    within the arrays and the live array, its count and the selection are
    not touched. *)
Theorem Process_New_Aircraft_appends w0 w1 w2 w3 w4 w5 w6 rest c7 local st :
  well_formed st ->
  exists st',
    Process_New_Aircraft_Thread
      (w0 :: w1 :: w2 :: w3 :: w4 :: w5 :: w6 :: rest) c7 local st
    = Some (rest, st')
    /\ well_formed st'
    /\ ((stagingAircraftCount st < MAX_AIRCRAFTS)%nat ->
        staged st' = staged st ++ [decode_record w0 w1 w2 w3 w4 w5 w6 c7 local])
    /\ (stagingAircraftCount st = MAX_AIRCRAFTS -> st' = st)
    /\ currentAircrafts st' = currentAircrafts st
    /\ currentAircraftCount st' = currentAircraftCount st
    /\ selectedAircraft st' = selectedAircraft st.
Proof.
  intros Hwf.
  destruct (Process_New_Aircraft_step w0 w1 w2 w3 w4 w5 w6 rest c7 local st Hwf)
    as (st' & Hrun & Hwf' & Hst & Hfull & _ & Hcur & Hcc & Hsel & _).
  exists st'. repeat (split; [assumption |]). split; [| auto].
  intros Hlt. rewrite Hst. apply take_ge.
  destruct Hwf as (Hls & _).
  rewrite length_app. unfold staged. rewrite length_take. cbn. lia.
Qed.

(** The decoder over a queue of whole messages. *)
Lemma decoder_run_spec messages : forall locals st,
  well_formed st -> Forall (fun m => length m = 7%nat) messages ->
  length locals = length messages ->
  exists st',
    decoder_run locals (concat messages) st = Some ([], st')
    /\ well_formed st'
    /\ staged st'
       = take MAX_AIRCRAFTS
           (staged st ++ zip_with decode_message messages locals)
    /\ display_range_km st' = display_range_km st
    /\ currentAircrafts st' = currentAircrafts st
    /\ currentAircraftCount st' = currentAircraftCount st
    /\ selectedAircraft st' = selectedAircraft st
    /\ signalled st' = signalled st.
Proof.
  induction messages as [| m ms IH]; intros locals st Hwf Hall Hlen.
  - destruct locals; [| discriminate Hlen].
    exists st. cbn [decoder_run concat zip_with]. rewrite app_nil_r.
    split; [reflexivity |]. split; [assumption |]. split; [| auto 10].
    symmetry. apply take_ge. unfold staged. rewrite length_take.
    destruct Hwf as (_ & _ & Hs & _). lia.
  - destruct locals as [| [c7 local] locals]; [discriminate Hlen |].
    inversion Hall as [| ? ? Hm Hms]; subst.
    destruct m as [| w0 [| w1 [| w2 [| w3 [| w4 [| w5 [| w6 [| ? ?]]]]]]]];
      try discriminate Hm.
    cbn [concat app decoder_run fst snd].
    destruct (Process_New_Aircraft_step w0 w1 w2 w3 w4 w5 w6 (concat ms)
                c7 local st Hwf)
      as (st1 & Hrun & Hwf1 & Hst1 & _ & Hr1 & Hcur1 & Hcc1 & Hsel1 & Hsig1).
    rewrite Hrun.
    destruct (IH locals st1 Hwf1 Hms ltac:(cbn in Hlen; lia))
      as (st' & Hrun' & Hwf' & Hst' & Hr' & Hcur' & Hcc' & Hsel' & Hsig').
    exists st'. split; [exact Hrun' |]. split; [exact Hwf' |].
    split; [| repeat split; congruence].
    rewrite Hst', Hst1. cbn [zip_with decode_message fst snd].
    set (r := decode_record w0 w1 w2 w3 w4 w5 w6 c7 local).
    set (rs := zip_with decode_message ms locals).
    assert (Hlen0 : (length (staged st) <= MAX_AIRCRAFTS)%nat).
    { unfold staged. rewrite length_take. destruct Hwf as (_ & _ & Hs & _). lia. }
    destruct (Nat.lt_ge_cases (length (staged st)) MAX_AIRCRAFTS) as [Hlt | Hge].
    + rewrite (take_ge (staged st ++ [r]))
        by (rewrite length_app; cbn [length]; lia).
      rewrite <- app_assoc. reflexivity.
    + rewrite (take_app_le (staged st) [r]) by lia.
      rewrite (take_app_le (staged st) (r :: rs)) by lia.
      rewrite take_app_le by (rewrite length_take; lia).
      rewrite take_take, Nat.min_id. reflexivity.
Qed.

(** X5.  The decoder run once for each of a queue of messages empties
    the queue and leaves, as staged records, the records that were staged
    followed by those of the messages in their order, cut at
    [MAX_AIRCRAFTS]: the records of a burst beyond the capacity are the
    ones dropped. *)
Theorem decoder_run_stages messages locals st :
  well_formed st -> Forall (fun m => length m = 7%nat) messages ->
  length locals = length messages ->
  exists st',
    decoder_run locals (concat messages) st = Some ([], st')
    /\ well_formed st'
    /\ staged st'
       = take MAX_AIRCRAFTS
           (staged st ++ zip_with decode_message messages locals).
Proof.
  intros Hwf Hall Hlen.
  destruct (decoder_run_spec messages locals st Hwf Hall Hlen)
    as (st' & Hrun & Hwf' & Hst & _).
  exists st'. auto.
Qed.

End DecoderStaging.

(** ** The values that the decoder produces *)

Section DecoderValues.
Import Int.

(** A rounded result carries the sign it was given, unless it is a NaN. *)
Lemma binary_round_aux_sign prec emax s m e l :
  match binary_round_aux prec emax s m e l with
  | S754_nan => True
  | x => sign_bit x = Some s
  end.
Proof.
  unfold binary_round_aux.
  destruct (shr_fexp prec emax m e l) as [mrs1 e1].
  destruct (shr_fexp prec emax _ e1 loc_Exact) as [mrs2 e2].
  destruct (shr_m mrs2); [reflexivity | | exact I].
  destruct (e2 <=? emax - prec); reflexivity.
Qed.

Lemma of_Z_sign n :
  n <> 0 ->
  match F32.of_Z n with
  | S754_nan => True
  | x => sign_bit x = Some (n <? 0)
  end.
Proof.
  intros Hn. unfold F32.of_Z, binary_normalize.
  destruct n as [| p | p]; [contradiction | |]; unfold binary_round;
    destruct (shl_align p 0 _) as [mz ez]; apply binary_round_aux_sign.
Qed.

(** X6.  Every word decodes to a finite number, never to an infinity or
    a NaN, of magnitude below [2 ^ 44], and a word other than 0 decodes to
    a number of its own sign. *)
Theorem decode_fixed_finite n :
  is_int32 n ->
  is_finite (decode_fixed n)
  /\ below F32.prec 20 (decode_fixed n)
  /\ (n <> 0 -> sign_bit (decode_fixed n) = Some (n <? 0)).
Proof.
  unfold is_int32. intros Hn.
  assert (Hof : below F32.prec 9 (F32.of_Z n)).
  { apply Rounding.binary_normalize_below; unfold F32.prec, F32.emax; try lia.
    rewrite <- Rounding.Zdigits2_abs.
    assert (Zdigits2 (Z.abs n) <= 32); [| lia].
    apply Rounding.Zdigits2_le; [lia | lia |].
    change (2 ^ 32) with 4294967296. lia. }
  assert (Hdiv : below F32.prec 20 (decode_fixed n)).
  { unfold decode_fixed, F32.div, TEN_THOUSAND.
    eapply Rounding.SFdiv_below; [.. | exact Hof | | |];
      unfold F32.prec, F32.emax; lia. }
  split; [| split; [exact Hdiv |]].
  - destruct (decode_fixed n); try contradiction; exact I.
  - intros Hne. pose proof (of_Z_sign n Hne) as Hs.
    unfold decode_fixed, F32.div, TEN_THOUSAND in *.
    destruct (F32.of_Z n) as [s | s | | s m e]; try contradiction.
    + cbn in Hs. injection Hs as ->. cbn. rewrite xorb_false_r. reflexivity.
    + cbn in Hs. injection Hs as ->. cbn [SFdiv] in *.
      destruct (SFdiv_core_binary F32.prec F32.emax (Z.pos m) e 10240000 (-10))
        as [[q e'] l].
      pose proof (binary_round_aux_sign F32.prec F32.emax
                    (xorb (n <? 0) false) q e' l) as Hr.
      rewrite xorb_false_r in *.
      destruct (binary_round_aux F32.prec F32.emax (n <? 0) q e' l);
        try contradiction; exact Hr.
Qed.

End DecoderValues.

(** ** What the projector keeps *)

Section ProjectorFrame.
Context `{Libm} `{Display}.

Lemma projected_record_fields range a :
  callsign (projected_record range a) = callsign a
  /\ longitude (projected_record range a) = longitude a
  /\ latitude (projected_record range a) = latitude a
  /\ altitude (projected_record range a) = altitude a
  /\ velocity (projected_record range a) = velocity a
  /\ heading (projected_record range a) = heading a.
Proof.
  unfold projected_record. destruct (beyond_range range a); cbn; auto 10.
Qed.

Lemma projected_record_on_screen range a :
  on_screen (projected_record range a)
  = if beyond_range range a then 0 else 1.
Proof.
  unfold projected_record. destruct (beyond_range range a); reflexivity.
Qed.

(** The slots of the live array after the loop. *)
Lemma recalculate_lookup st i a :
  well_formed st -> currentAircrafts st !! i = Some a ->
  currentAircrafts (recalculate_screen_positions st) !! i
  = Some (if (i <? currentAircraftCount st)%nat
          then projected_record (display_range_km st) a else a).
Proof.
  intros (_ & Hlen & _ & Hcount) Ha.
  destruct (recalculate_screen_positions_spec st ltac:(lia))
    as (_ & _ & _ & _ & Hcur & _).
  rewrite Hcur.
  assert (Hmap : length (map (projected_record (display_range_km st))
                           (take (currentAircraftCount st) (currentAircrafts st)))
                 = currentAircraftCount st)
    by (rewrite length_map, length_take; lia).
  destruct (Nat.ltb_spec i (currentAircraftCount st)) as [Hlt | Hge].
  - rewrite lookup_app_l by lia.
    rewrite list_lookup_fmap, lookup_take_lt by lia. rewrite Ha. reflexivity.
  - rewrite lookup_app_r by lia. rewrite Hmap, lookup_drop.
    replace (currentAircraftCount st + (i - currentAircraftCount st))%nat
      with i by lia.
    exact Ha.
Qed.

(** X7.  [recalculate_screen_positions] writes the screen fields of the
    live records and nothing else: the display range, the staging array
    and the counts stay, every slot keeps its identifier, position,
    altitude, speed and heading, and the slots from the live count on are
    not touched at all. *)
Theorem recalculate_screen_positions_frame st :
  well_formed st ->
  let st' := recalculate_screen_positions st in
  well_formed st'
  /\ display_range_km st' = display_range_km st
  /\ stagingAircrafts st' = stagingAircrafts st
  /\ stagingAircraftCount st' = stagingAircraftCount st
  /\ currentAircraftCount st' = currentAircraftCount st
  /\ forall i a, currentAircrafts st !! i = Some a ->
       exists a',
         currentAircrafts st' !! i = Some a'
         /\ callsign a' = callsign a
         /\ longitude a' = longitude a /\ latitude a' = latitude a
         /\ altitude a' = altitude a /\ velocity a' = velocity a
         /\ heading a' = heading a
         /\ ((currentAircraftCount st <= i)%nat -> a' = a).
Proof.
  intros Hwf st'. pose proof Hwf as (Hls & Hlen & Hs & Hcount).
  destruct (recalculate_screen_positions_spec st ltac:(lia))
    as (Hr & Hstg & Hsc & Hcc & Hcur & _).
  fold st' in Hr, Hstg, Hsc, Hcc, Hcur.
  split.
  { unfold well_formed. rewrite Hstg, Hsc, Hcc, Hcur.
    rewrite length_app, length_map, length_take, length_drop. lia. }
  repeat (split; [assumption |]).
  intros i a Ha. eexists. split; [apply recalculate_lookup; eassumption |].
  destruct (Nat.ltb_spec i (currentAircraftCount st)) as [Hlt | Hge].
  - pose proof (projected_record_fields (display_range_km st) a)
      as (? & ? & ? & ? & ? & ?).
    repeat (split; [assumption |]). lia.
  - auto 10.
Qed.

(** X8.  After [recalculate_screen_positions] the selection is what it
    was, or it is -1 and [sem_INFO_DISPLAY] was signalled once; every live
    record is marked 0 or 1; and a selection that designates a live
    record designates one that is marked visible. *)
Theorem recalculate_screen_positions_selection st :
  well_formed st ->
  let st' := recalculate_screen_positions st in
  ((selectedAircraft st' = selectedAircraft st
    /\ signalled st' = signalled st)
   \/ (selectedAircraft st' = -1
       /\ signalled st' = sem_INFO_DISPLAY :: signalled st))
  /\ forall i a', (i < currentAircraftCount st)%nat ->
       currentAircrafts st' !! i = Some a' ->
       (on_screen a' = 0 \/ on_screen a' = 1)
       /\ (selectedAircraft st' = Z.of_nat i -> on_screen a' = 1).
Proof.
  intros Hwf st'. pose proof Hwf as (_ & Hlen & _ & Hcount).
  destruct (recalculate_screen_positions_spec st ltac:(lia))
    as (_ & _ & _ & _ & _ & Hsel & Hsig).
  fold st' in Hsel, Hsig.
  split.
  { destruct (selection_lost (currentAircraftCount st) st); auto. }
  intros i a' Hi Ha'.
  destruct (lookup_lt_is_Some_2 (currentAircrafts st) i ltac:(lia)) as [a Ha].
  pose proof (recalculate_lookup st i a Hwf Ha) as Hl.
  fold st' in Hl. rewrite Ha' in Hl. injection Hl as ->.
  rewrite (proj2 (Nat.ltb_lt _ _) Hi).
  rewrite projected_record_on_screen.
  split; [destruct (beyond_range _ a); auto |].
  intros Hs. rewrite Hsel in Hs.
  unfold selection_lost in Hs.
  destruct (Z.leb_spec 0 (selectedAircraft st)) as [Hlo | Hlo];
    destruct (Z.ltb_spec (selectedAircraft st)
                (Z.of_nat (currentAircraftCount st))) as [Hhi | Hhi];
    cbn [andb] in Hs; try lia.
  destruct (beyond_range (display_range_km st)
              (currentAircrafts st !!! Z.to_nat (selectedAircraft st))) eqn:Hfar;
    [lia |].
  rewrite Hs, Nat2Z.id, (list_lookup_total_correct _ _ _ Ha) in Hfar.
  rewrite Hfar. reflexivity.
Qed.

End ProjectorFrame.

(** ** What the commit keeps, and the commit in the data path *)

Section CommitFrame.

Lemma commit_spec st :
  well_formed st ->
  display_range_km (commit st) = display_range_km st
  /\ stagingAircrafts (commit st) = stagingAircrafts st
  /\ stagingAircraftCount (commit st) = 0%nat
  /\ currentAircraftCount (commit st) = stagingAircraftCount st
  /\ signalled (commit st) = signalled st
  /\ currentAircrafts (commit st)
     = take (stagingAircraftCount st) (stagingAircrafts st)
       ++ drop (stagingAircraftCount st) (currentAircrafts st).
Proof.
  intros (Hls & Hlc & Hs & Hc). unfold commit.
  destruct (commit_loop_spec (capture_SelectedCallSign st)
              (stagingAircraftCount st) st ltac:(lia) ltac:(lia))
    as (Hr & Hstg & Hsc & _ & Hsig & Hcur & _).
  state_fields. auto 10.
Qed.

Lemma commit_well_formed st : well_formed st -> well_formed (commit st).
Proof.
  intros Hwf. pose proof Hwf as (Hls & Hlc & Hs & Hc).
  destruct (commit_spec st Hwf) as (_ & Hstg & Hsc & Hcc & _ & Hcur).
  unfold well_formed. rewrite Hstg, Hsc, Hcc, Hcur.
  rewrite length_app, length_take, length_drop. lia.
Qed.

Lemma live_commit st : well_formed st -> live (commit st) = staged st.
Proof.
  intros Hwf. pose proof Hwf as (Hls & Hlc & Hs & Hc).
  destruct (commit_spec st Hwf) as (_ & _ & _ & Hcc & _ & Hcur).
  unfold live, staged. rewrite Hcc, Hcur.
  rewrite take_app_le by (rewrite length_take; lia).
  rewrite take_take, Nat.min_id. reflexivity.
Qed.

(** X9.  A commit leaves the selection index as it is, whatever the
    identifiers of the records before and after it: the index is assigned
    only in the turn of the copy loop that reaches it, and with its own
    value. *)
Theorem commit_keeps_selection_index st :
  well_formed st -> selectedAircraft (commit st) = selectedAircraft st.
Proof. intros Hwf. apply commit_selected_index. exact Hwf. Qed.

(** X10.  A commit keeps the arrays and counts well formed, leaves the
    display range, the contents of the staging array and the signals as
    they are, and leaves the slots of the live array from the new count on
    with the records they held. *)
Theorem commit_frame st :
  well_formed st ->
  well_formed (commit st)
  /\ display_range_km (commit st) = display_range_km st
  /\ stagingAircrafts (commit st) = stagingAircrafts st
  /\ signalled (commit st) = signalled st
  /\ drop (currentAircraftCount (commit st)) (currentAircrafts (commit st))
     = drop (stagingAircraftCount st) (currentAircrafts st).
Proof.
  intros Hwf. pose proof Hwf as (Hls & Hlc & Hs & Hc).
  destruct (commit_spec st Hwf) as (Hr & Hstg & _ & Hcc & Hsig & Hcur).
  split; [apply commit_well_formed; exact Hwf |].
  repeat (split; [assumption |]).
  rewrite Hcc, Hcur.
  rewrite drop_app_length' by (rewrite length_take; lia). reflexivity.
Qed.

Lemma fifo_writes_app e1 e2 :
  fifo_writes (e1 ++ e2) = fifo_writes e1 ++ fifo_writes e2.
Proof. unfold fifo_writes. apply flat_map_app. Qed.

Lemma fifo_writes_map words :
  fifo_writes (map (WriteFIFO DATA_FIFO) words) = words.
Proof.
  induction words as [| w ws IH]; [reflexivity |].
  change (fifo_writes (map (WriteFIFO DATA_FIFO) (w :: ws)))
    with (w :: fifo_writes (map (WriteFIFO DATA_FIFO) ws)).
  rewrite IH. reflexivity.
Qed.

Lemma fifo_writes_message words :
  fifo_writes (message_events words) = words.
Proof.
  unfold message_events. rewrite fifo_writes_app, fifo_writes_map.
  apply app_nil_r.
Qed.

Lemma fifo_writes_messages messages :
  fifo_writes (flat_map message_events messages) = concat messages.
Proof.
  induction messages as [| m ms IH]; [reflexivity |].
  cbn [flat_map concat]. rewrite fifo_writes_app, fifo_writes_message, IH.
  reflexivity.
Qed.

(** X11.  The data path on one burst of at most [MAX_AIRCRAFTS]
    messages, each of seven 32-bit words none of which is the all-ones
    word, received from a message boundary with nothing staged before:
    the words that the handler writes to the FIFO, decoded once per
    message and committed, give as live records the records of the
    messages, in their order.  (A message with an all-ones word, such as
    a field that encodes -0.0001, is outside this statement: the handler
    takes that word for the end of the burst.) *)
Theorem burst_becomes_live u st messages locals :
  message_boundary u -> well_formed st ->
  stagingAircraftCount st = 0%nat ->
  Forall message messages ->
  length locals = length messages ->
  (length messages <= MAX_AIRCRAFTS)%nat ->
  let evs := (UART4_Handler u (burst_bytes messages)).2 in
  exists st1,
    decoder_run locals (fifo_writes evs) st = Some ([], st1)
    /\ live (commit st1) = zip_with decode_message messages locals
    /\ currentAircraftCount (commit st1) = length messages.
Proof.
  intros Hu Hwf Hempty Hall Hlen Hmax evs.
  destruct (UART4_Handler_messages messages u Hu Hall) as [Hev _].
  assert (Hfifo : fifo_writes evs = concat messages).
  { subst evs. unfold burst_bytes. rewrite UART4_Handler_app. cbn [snd].
    cbv zeta in Hev. rewrite Hev, fifo_writes_app, fifo_writes_messages.
    destruct (UART4_Handler_cut []
                (UART4_Handler u (flat_map le_bytes (concat messages))).1)
      as [He2 _].
    - apply (UART4_Handler_messages messages u Hu Hall).
    - constructor.
    - cbn. lia.
    - cbv zeta in He2. cbn [flat_map app map] in He2. rewrite He2.
      cbn. apply app_nil_r. }
  assert (Hseven : Forall (fun m => length m = 7%nat) messages).
  { eapply Forall_impl; [exact Hall |]. intros m [Hm _]. exact Hm. }
  destruct (decoder_run_spec messages locals st Hwf Hseven Hlen)
    as (st1 & Hrun & Hwf1 & Hst & _).
  exists st1. rewrite Hfifo. split; [exact Hrun |].
  assert (Hstaged : staged st1 = zip_with decode_message messages locals).
  { rewrite Hst. unfold staged at 1. rewrite Hempty. cbn [take app].
    apply take_ge. rewrite length_zip_with. lia. }
  split.
  - rewrite live_commit by exact Hwf1. exact Hstaged.
  - destruct (commit_spec st1 Hwf1) as (_ & _ & _ & Hcc & _).
    rewrite Hcc.
    assert (Hl : length (staged st1) = stagingAircraftCount st1).
    { unfold staged. rewrite length_take. destruct Hwf1 as (Hl1 & _ & Hs1 & _).
      lia. }
    rewrite <- Hl, Hstaged, length_zip_with. lia.
Qed.

End CommitFrame.

(** ** The commit thread as a whole *)

Section CommitThread.
Context `{Libm} `{Display}.

(** X12.  One iteration of [Update_Current_Aircrafts_Thread]: the live
    records are the staged records with their screen fields computed for
    the display range, the staging count is 0, the selection is what it
    was or -1, and the last signal given is the one on
    [sem_MAIN_DISPLAY]. *)
Theorem Update_Current_Aircrafts_Thread_publishes st :
  well_formed st ->
  let st' := Update_Current_Aircrafts_Thread st in
  well_formed st'
  /\ currentAircraftCount st' = stagingAircraftCount st
  /\ stagingAircraftCount st' = 0%nat
  /\ live st' = map (projected_record (display_range_km st)) (staged st)
  /\ (selectedAircraft st' = selectedAircraft st \/ selectedAircraft st' = -1)
  /\ hd_error (signalled st') = Some sem_MAIN_DISPLAY.
Proof.
  intros Hwf st'. subst st'. unfold Update_Current_Aircrafts_Thread.
  pose proof (commit_well_formed st Hwf) as Hwf1.
  destruct (commit_spec st Hwf) as (Hr & Hstg & Hsc & Hcc & Hsig & Hcur).
  pose proof (live_commit st Hwf) as Hlive.
  pose proof (commit_selected_index st Hwf) as Hsel.
  set (st1 := commit st) in *.
  pose proof Hwf1 as (Hls1 & Hlc1 & Hs1 & Hc1).
  destruct (recalculate_screen_positions_spec st1 ltac:(lia))
    as (Hr2 & Hstg2 & Hsc2 & Hcc2 & Hcur2 & Hsel2 & _).
  set (st2 := recalculate_screen_positions st1) in *.
  unfold well_formed. state_fields.
  rewrite Hstg2, Hsc2, Hcc2, Hcur2.
  split.
  { rewrite length_app, length_map, length_take, length_drop. lia. }
  split; [exact Hcc |]. split; [exact Hsc |]. split.
  { unfold live. state_fields. rewrite Hcc2, Hcur2.
    rewrite take_app_length'
      by (rewrite length_map, length_take; lia).
    unfold live in Hlive. rewrite Hlive, Hr. reflexivity. }
  split; [| reflexivity].
  rewrite Hsel2, Hsel. destruct (selection_lost _ st1); auto.
Qed.

End CommitThread.

(** ** The selector on any input *)

Section SelectorSafety.
Import Int IntFacts.

(** A turn of the loop keeps [closestIndex] or sets it to the index of
    the record it visits, which is then visible and not the selected
    one. *)
Lemma closest_step_cases st d refLat refLon acc i :
  closest_step st d refLat refLon acc i = acc
  \/ (Z.of_nat i <> selectedAircraft st
      /\ on_screen (currentAircrafts st !!! i) <> 0
      /\ (closest_step st d refLat refLon acc i).1 = to_int16 (Z.of_nat i)).
Proof.
  unfold closest_step. destruct acc as [ci md].
  destruct (Z.eqb_spec (Z.of_nat i) (selectedAircraft st)) as [E | NE];
    [left; reflexivity |].
  cbv zeta.
  destruct (Z.eqb_spec (on_screen (currentAircrafts st !!! i)) 0) as [E0 | N0];
    [left; reflexivity |].
  repeat match goal with
         | |- context [if ?c then _ else _] => destruct c
         end;
    first [left; reflexivity | right; auto].
Qed.

Lemma closest_loop_valid st d refLat refLon n :
  well_formed st -> (n <= currentAircraftCount st)%nat ->
  let r := fold_left (closest_step st d refLat refLon) (seq 0 n)
             (-1, F32.FLT_MAX) in
  r.1 = -1
  \/ exists i, r.1 = Z.of_nat i /\ Z.of_nat i <> selectedAircraft st
               /\ visible_live st i.
Proof.
  intros (_ & Hlen & _ & Hcount). induction n as [| n IH]; intros Hn.
  - left. reflexivity.
  - rewrite seq_S, fold_left_app. cbn [fold_left Nat.add].
    specialize (IH ltac:(lia)). cbv zeta in IH.
    destruct (closest_step_cases st d refLat refLon
                (fold_left (closest_step st d refLat refLon) (seq 0 n)
                   (-1, F32.FLT_MAX)) n)
      as [-> | (Hne & Hon & Hi)]; [exact IH |].
    right. exists n. rewrite Hi, to_int16_of_nat by lia.
    split; [reflexivity |]. split; [exact Hne |].
    destruct (lookup_lt_is_Some_2 (currentAircrafts st) n ltac:(lia)) as [y Hy].
    exists y. rewrite (list_lookup_total_correct _ _ _ Hy) in Hon.
    split; [lia |]. split; [exact Hy | exact Hon].
Qed.

Lemma closest_aircraft_by_angle_cases st joystick_dx joystick_dy :
  well_formed st ->
  let r := closest_aircraft_by_angle st joystick_dx joystick_dy in
  r = selectedAircraft st
  \/ exists i, r = Z.of_nat i /\ Z.of_nat i <> selectedAircraft st
               /\ visible_live st i.
Proof.
  intros Hwf. cbv zeta. unfold closest_aircraft_by_angle.
  destruct (Z.eqb_spec (selectedAircraft st) (-1)) as [E | NE]; [auto |].
  cbv zeta.
  destruct (closest_loop_valid st
              (determine_direction (joystick_offset joystick_dx)
                 (joystick_offset joystick_dy))
              (latitude (currentAircrafts st !!! Z.to_nat (selectedAircraft st)))
              (longitude (currentAircrafts st !!! Z.to_nat (selectedAircraft st)))
              (currentAircraftCount st) Hwf ltac:(lia)) as [Hr | (i & Hr & Hi)];
    cbv zeta in Hr;
    destruct (fold_left _ (seq 0 (currentAircraftCount st)) _) as [ci md];
    cbn [fst] in Hr; subst ci.
  - left. reflexivity.
  - destruct (Z.eqb_spec (Z.of_nat i) (-1)) as [E | _]; [lia |].
    right. exists i. auto.
Qed.

(** X13.  Whatever the joystick sample and the coordinates of the
    records, [closest_aircraft_by_angle] returns the current selection or
    the index of a visible live record other than the selected one; with
    an aircraft selected it never returns -1. *)
Theorem closest_aircraft_by_angle_valid st joystick_dx joystick_dy :
  well_formed st ->
  let r := closest_aircraft_by_angle st joystick_dx joystick_dy in
  (r = selectedAircraft st
   \/ exists i, r = Z.of_nat i /\ Z.of_nat i <> selectedAircraft st
                /\ visible_live st i)
  /\ (selectedAircraft st <> -1 -> r <> -1).
Proof.
  intros Hwf r.
  pose proof (closest_aircraft_by_angle_cases st joystick_dx joystick_dy Hwf)
    as Hc.
  fold r in Hc. split; [exact Hc |].
  intros Hsel. destruct Hc as [-> | (i & -> & _)]; [exact Hsel | lia].
Qed.

End SelectorSafety.

Section SelectorThread.
Context `{Display}.
Import Int IntFacts.

Lemma select_loop_valid st n :
  well_formed st -> (n <= currentAircraftCount st)%nat ->
  let r := fold_left select_step (seq 0 n) (INT32_MAX, st) in
  display_range_km r.2 = display_range_km st
  /\ stagingAircrafts r.2 = stagingAircrafts st
  /\ stagingAircraftCount r.2 = stagingAircraftCount st
  /\ currentAircrafts r.2 = currentAircrafts st
  /\ currentAircraftCount r.2 = currentAircraftCount st
  /\ signalled r.2 = signalled st
  /\ (selectedAircraft r.2 = selectedAircraft st
      \/ exists i, selectedAircraft r.2 = Z.of_nat i /\ visible_live st i).
Proof.
  intros (_ & Hlen & _ & Hcount). induction n as [| n IH]; intros Hn.
  - cbn. auto 10.
  - rewrite seq_S, fold_left_app. cbn [fold_left Nat.add].
    destruct (IH ltac:(lia)) as (Hr & Hstg & Hsc & Hcur & Hcc & Hsig & Hsel).
    clear IH.
    destruct (fold_left select_step (seq 0 n) (INT32_MAX, st)) as [m st1].
    cbn [fst snd] in *.
    destruct (lookup_lt_is_Some_2 (currentAircrafts st) n ltac:(lia)) as [y Hy].
    unfold select_step. rewrite Hcur, (list_lookup_total_correct _ _ _ Hy).
    destruct (Z.eqb_spec (on_screen y) 0) as [Hoff | Hon]; [cbn; auto 10 |].
    destruct (select_distance y <? m); [| cbn; auto 10].
    cbn [fst snd]. state_fields. repeat (split; [assumption |]).
    right. exists n. rewrite to_int16_of_nat by lia.
    split; [reflexivity |]. exists y. split; [lia |]. split; assumption.
Qed.

(** X14.  A press with nothing selected, whatever the screen
    coordinates of the records: the selection stays -1 or becomes the
    index of a visible live record; the records and the counts are left
    as they are and the two displays are signalled, [sem_INFO_DISPLAY]
    first.  Without a press nothing changes. *)
Theorem Select_Aircraft_confirm_valid st press_status :
  well_formed st -> selectedAircraft st = -1 ->
  let st' := Select_Aircraft_confirm press_status st in
  currentAircrafts st' = currentAircrafts st
  /\ currentAircraftCount st' = currentAircraftCount st
  /\ (selectedAircraft st' = -1
      \/ exists i, selectedAircraft st' = Z.of_nat i /\ visible_live st i)
  /\ (press_status <> 0 ->
      signalled st' = sem_MAIN_DISPLAY :: sem_INFO_DISPLAY :: signalled st)
  /\ (press_status = 0 -> st' = st).
Proof.
  intros Hwf Hnone st'. subst st'. unfold Select_Aircraft_confirm.
  destruct (Z.eqb_spec press_status 0) as [E | NE].
  - repeat split; auto. contradiction.
  - destruct (select_loop_valid st (currentAircraftCount st) Hwf ltac:(lia))
      as (_ & _ & _ & Hcur & Hcc & Hsig & Hsel).
    destruct (fold_left select_step _ _) as [m st1]. cbn [fst snd] in *.
    state_fields. repeat (split; [assumption |]).
    split; [rewrite <- Hnone; exact Hsel |].
    split; [intros _; rewrite Hsig; reflexivity | contradiction].
Qed.

(** X15.  While an aircraft is selected, with the latch set: a sample
    outside the dead zone is acted on, that is the selection becomes the
    result of [closest_aircraft_by_angle] on the two halves of the sample,
    [sem_MAIN_DISPLAY] then [sem_INFO_DISPLAY] are signalled and the latch
    is cleared; the samples outside the dead zone that follow it without
    a neutral one in between change nothing more, so a joystick held to
    one side moves the selection once; with the latch clear such a sample
    changes nothing; and a sample in the dead zone changes nothing and
    sets the latch. *)
Theorem Select_Aircraft_debounce st press_status joystick_dxy held :
  well_formed st -> selectedAircraft st <> -1 ->
  deflected joystick_dxy ->
  Forall (fun s => deflected s.2) held ->
  let target :=
    closest_aircraft_by_angle st (Z.land joystick_dxy 65535)
      (Z.land (Z.shiftr joystick_dxy 16) 65535) in
  let moved :=
    G8RTOS_SignalSemaphore sem_INFO_DISPLAY
      (G8RTOS_SignalSemaphore sem_MAIN_DISPLAY
         (set_selectedAircraft target st)) in
  Select_Aircraft_Thread press_status joystick_dxy true st = (false, moved)
  /\ Select_Aircraft_run ((press_status, joystick_dxy) :: held) true st
     = (false, moved)
  /\ selectedAircraft moved = target
  /\ signalled moved = sem_INFO_DISPLAY :: sem_MAIN_DISPLAY :: signalled st
  /\ Select_Aircraft_Thread press_status joystick_dxy false st = (false, st)
  /\ forall press neutral debounce,
       ~ deflected neutral ->
       Select_Aircraft_Thread press neutral debounce st = (true, st).
Proof.
  intros Hwf Hsel Hdef Hheld target moved.
  assert (Hbranch : forall s, selectedAircraft s <> -1 ->
            (selectedAircraft s =? -1) = false)
    by (intros s Hs; apply Z.eqb_neq; exact Hs).
  assert (Hfirst : Select_Aircraft_Thread press_status joystick_dxy true st
                   = (false, moved)).
  { unfold Select_Aircraft_Thread. rewrite (Hbranch st Hsel).
    unfold Select_Aircraft_direction.
    unfold deflected in Hdef. rewrite Hdef. reflexivity. }
  assert (Hmoved : selectedAircraft moved <> -1).
  { subst moved. state_fields. subst target.
    destruct (closest_aircraft_by_angle_cases st
                (Z.land joystick_dxy 65535)
                (Z.land (Z.shiftr joystick_dxy 16) 65535) Hwf)
      as [-> | (i & -> & _)]; [exact Hsel | lia]. }
  split; [exact Hfirst |]. split; [| split; [| split; [| split]]].
  - cbn [Select_Aircraft_run]. rewrite Hfirst.
    clearbody moved. clear Hfirst.
    induction Hheld as [| [p j] rest Hj Hrest IH]; [reflexivity |].
    cbn [Select_Aircraft_run]. unfold Select_Aircraft_Thread.
    rewrite (Hbranch moved Hmoved). unfold Select_Aircraft_direction.
    unfold deflected in Hj. cbn [snd] in Hj. rewrite Hj. cbn [negb].
    exact IH.
  - reflexivity.
  - reflexivity.
  - unfold Select_Aircraft_Thread. rewrite (Hbranch st Hsel).
    unfold Select_Aircraft_direction.
    unfold deflected in Hdef. rewrite Hdef. reflexivity.
  - intros press neutral debounce Hn.
    unfold Select_Aircraft_Thread. rewrite (Hbranch st Hsel).
    unfold Select_Aircraft_direction. unfold deflected in Hn.
    destruct (isNeutral _ _); [reflexivity | contradiction].
Qed.

End SelectorThread.

(** ** The range buttons *)

Section RangeFacts.
Context `{Libm} `{Display} `{Buttons}.
Import Int IntFacts.

Lemma increase_range_bounds range :
  MIN_RANGE <= range <= MAX_RANGE ->
  MIN_RANGE <= increase_range range <= MAX_RANGE
  /\ 0 <= increase_range range - range <= 10
  /\ (range <= MAX_RANGE - 10 -> increase_range range = range + 10).
Proof.
  unfold increase_range, to_uint16, to_unsigned, MIN_RANGE, MAX_RANGE.
  intros Hr. change (2 ^ 16) with 65536.
  destruct (Z.leb_spec (range + 10) 200);
    rewrite Z.mod_small by lia; lia.
Qed.

Lemma decrease_range_bounds range :
  MIN_RANGE <= range <= MAX_RANGE ->
  MIN_RANGE <= decrease_range range <= MAX_RANGE
  /\ 0 <= range - decrease_range range <= 10
  /\ (MIN_RANGE + 10 <= range -> decrease_range range = range - 10).
Proof.
  unfold decrease_range, to_uint16, to_unsigned, MIN_RANGE, MAX_RANGE.
  intros Hr. change (2 ^ 16) with 65536.
  destruct (Z.leb_spec 20 (range - 10));
    rewrite Z.mod_small by lia; lia.
Qed.

(** What a press of SW1 or SW2 makes of the state, for the new range
    [range]. *)
Lemma rescaled_state range st :
  well_formed st ->
  let st' := G8RTOS_SignalSemaphore sem_MAIN_DISPLAY
               (recalculate_screen_positions (set_display_range_km range st)) in
  well_formed st'
  /\ display_range_km st' = range
  /\ stagingAircrafts st' = stagingAircrafts st
  /\ stagingAircraftCount st' = stagingAircraftCount st
  /\ currentAircraftCount st' = currentAircraftCount st
  /\ (forall i a, currentAircrafts st !! i = Some a ->
        exists a', currentAircrafts st' !! i = Some a'
                   /\ callsign a' = callsign a
                   /\ longitude a' = longitude a
                   /\ latitude a' = latitude a)
  /\ (selectedAircraft st' = selectedAircraft st
      \/ selectedAircraft st' = -1).
Proof.
  intros Hwf st'.
  assert (Hwf1 : well_formed (set_display_range_km range st)) by exact Hwf.
  pose proof Hwf as (Hls & Hlen & Hs & Hcount).
  destruct (recalculate_screen_positions_spec (set_display_range_km range st))
    as (Hr & Hstg & Hsc & Hcc & Hcur & Hsel & _);
    [cbn [set_display_range_km currentAircraftCount currentAircrafts]; lia |].
  cbn [set_display_range_km display_range_km stagingAircrafts
       stagingAircraftCount currentAircrafts currentAircraftCount
       selectedAircraft] in Hr, Hstg, Hsc, Hcc, Hcur, Hsel.
  subst st'. state_fields.
  split.
  { unfold well_formed. state_fields. rewrite Hstg, Hsc, Hcc, Hcur.
    rewrite length_app, length_map, length_take, length_drop. lia. }
  repeat (split; [assumption |]).
  split.
  - intros i a Ha. eexists.
    split; [apply (recalculate_lookup (set_display_range_km range st));
            [exact Hwf1 | exact Ha] |].
    cbn [set_display_range_km display_range_km currentAircraftCount].
    destruct (i <? currentAircraftCount st)%nat; [| auto].
    pose proof (projected_record_fields range a) as (? & ? & ? & _). auto.
  - rewrite Hsel. destruct (selection_lost _ _); auto.
Qed.

(** X16.  One iteration of [Update_Search_Range], whatever buttons are
    read: a display range within [MIN_RANGE] and [MAX_RANGE] stays within
    them, so the range that the projector divides by is never 0, and
    moves by at most 10 km; the staging side and the live count stay;
    every slot of the live array keeps its identifier and its position;
    and the selection is kept or cleared. *)
Theorem Update_Search_Range_keeps_range button_status o st :
  well_formed st ->
  MIN_RANGE <= display_range_km st <= MAX_RANGE ->
  let st' := (Update_Search_Range button_status o st).2 in
  well_formed st'
  /\ MIN_RANGE <= display_range_km st' <= MAX_RANGE
  /\ Z.abs (display_range_km st' - display_range_km st) <= 10
  /\ stagingAircrafts st' = stagingAircrafts st
  /\ stagingAircraftCount st' = stagingAircraftCount st
  /\ currentAircraftCount st' = currentAircraftCount st
  /\ (forall i a, currentAircrafts st !! i = Some a ->
        exists a', currentAircrafts st' !! i = Some a'
                   /\ callsign a' = callsign a
                   /\ longitude a' = longitude a
                   /\ latitude a' = latitude a)
  /\ (selectedAircraft st' = selectedAircraft st
      \/ selectedAircraft st' = -1).
Proof.
  intros Hwf Hrange st'. subst st'. unfold Update_Search_Range.
  assert (Hsame : forall s : State,
            s = st \/ s = G8RTOS_SignalSemaphore sem_MAIN_DISPLAY st ->
            well_formed s
            /\ MIN_RANGE <= display_range_km s <= MAX_RANGE
            /\ Z.abs (display_range_km s - display_range_km st) <= 10
            /\ stagingAircrafts s = stagingAircrafts st
            /\ stagingAircraftCount s = stagingAircraftCount st
            /\ currentAircraftCount s = currentAircraftCount st
            /\ (forall i a, currentAircrafts st !! i = Some a ->
                  exists a', currentAircrafts s !! i = Some a'
                             /\ callsign a' = callsign a
                             /\ longitude a' = longitude a
                             /\ latitude a' = latitude a)
            /\ (selectedAircraft s = selectedAircraft st
                \/ selectedAircraft s = -1)).
  { intros s [-> | ->]; state_fields;
      (split; [exact Hwf |]); (split; [exact Hrange |]);
      (split; [lia |]); repeat (split; [reflexivity |]);
      (split; [| auto]); intros i a Ha; exists a; auto. }
  destruct (pressed button_status SW1).
  - cbn [snd].
    destruct (rescaled_state (increase_range (display_range_km st)) st Hwf)
      as (Hw & Hr & Hrest).
    destruct (increase_range_bounds _ Hrange) as (Hb & Hd & _).
    split; [exact Hw |]. rewrite Hr. split; [exact Hb |].
    split; [lia | exact Hrest].
  - destruct (pressed button_status SW2).
    + cbn [snd].
      destruct (rescaled_state (decrease_range (display_range_km st)) st Hwf)
        as (Hw & Hr & Hrest).
      destruct (decrease_range_bounds _ Hrange) as (Hb & Hd & _).
      split; [exact Hw |]. rewrite Hr. split; [exact Hb |].
      split; [lia | exact Hrest].
    + destruct (pressed button_status SW3); [apply Hsame; auto |].
      destruct (pressed button_status SW4); apply Hsame; auto.
Qed.

(** X17.  A press of SW1 followed by a press of SW2 alone brings the
    display range back when it was at most [MAX_RANGE - 10], and a press
    of SW2 alone followed by one of SW1 when it was at least
    [MIN_RANGE + 10]; at [MAX_RANGE] a press of SW1 leaves the range, and
    at [MIN_RANGE] a press of SW2 alone does. *)
Theorem Update_Search_Range_round_trip up down o st :
  well_formed st ->
  MIN_RANGE <= display_range_km st <= MAX_RANGE ->
  pressed up SW1 = true ->
  pressed down SW1 = false -> pressed down SW2 = true ->
  let after b s := (Update_Search_Range b o s).2 in
  (display_range_km st <= MAX_RANGE - 10 ->
   display_range_km (after down (after up st)) = display_range_km st)
  /\ (MIN_RANGE + 10 <= display_range_km st ->
      display_range_km (after up (after down st)) = display_range_km st)
  /\ (display_range_km st = MAX_RANGE ->
      display_range_km (after up st) = MAX_RANGE)
  /\ (display_range_km st = MIN_RANGE ->
      display_range_km (after down st) = MIN_RANGE).
Proof.
  intros Hwf Hrange Hup Hd1 Hd2 after.
  assert (Eup : forall s, well_formed s ->
            well_formed (after up s)
            /\ display_range_km (after up s)
               = increase_range (display_range_km s)).
  { intros s Hs. subst after. cbv beta. unfold Update_Search_Range.
    rewrite Hup. cbn [snd].
    destruct (rescaled_state (increase_range (display_range_km s)) s Hs)
      as (Hw & Hr & _). auto. }
  assert (Edown : forall s, well_formed s ->
            well_formed (after down s)
            /\ display_range_km (after down s)
               = decrease_range (display_range_km s)).
  { intros s Hs. subst after. cbv beta. unfold Update_Search_Range.
    rewrite Hd1, Hd2. cbn [snd].
    destruct (rescaled_state (decrease_range (display_range_km s)) s Hs)
      as (Hw & Hr & _). auto. }
  clearbody after.
  destruct (Eup st Hwf) as (Hw1 & Hr1).
  destruct (Edown st Hwf) as (Hw2 & Hr2).
  destruct (increase_range_bounds _ Hrange) as (Hb1 & Hm1 & Hi).
  destruct (decrease_range_bounds _ Hrange) as (Hb2 & Hm2 & Hdec).
  unfold MIN_RANGE, MAX_RANGE in *.
  split; [| split; [| split]].
  - intros Hle. rewrite (proj2 (Edown _ Hw1)), Hr1.
    rewrite Hi by lia.
    destruct (decrease_range_bounds (display_range_km st + 10))
      as (_ & _ & ->); unfold MIN_RANGE, MAX_RANGE; lia.
  - intros Hge. rewrite (proj2 (Eup _ Hw2)), Hr2.
    rewrite Hdec by lia.
    destruct (increase_range_bounds (display_range_km st - 10))
      as (_ & _ & ->); unfold MIN_RANGE, MAX_RANGE; lia.
  - intros E. rewrite Hr1. lia.
  - intros E. rewrite Hr2. lia.
Qed.

(** X18.  A press of SW3 alone sets [display_track] to 0 or 1, 0 exactly
    when it was not 0, keeps [display_callsign], and signals
    [sem_MAIN_DISPLAY] without touching the aircraft; a second such press
    restores a [display_track] that was 0 or 1.  SW4 does the same to
    [display_callsign] when SW3 is not pressed either. *)
Theorem Update_Search_Range_toggles b o st :
  pressed b SW1 = false -> pressed b SW2 = false ->
  (pressed b SW3 = true \/ pressed b SW4 = true) ->
  let r := Update_Search_Range b o st in
  let r2 := Update_Search_Range b r.1 r.2 in
  r.2 = G8RTOS_SignalSemaphore sem_MAIN_DISPLAY st
  /\ (pressed b SW3 = true ->
      display_callsign r.1 = display_callsign o
      /\ (display_track r.1 = 0 <-> display_track o <> 0)
      /\ (display_track r.1 = 0 \/ display_track r.1 = 1)
      /\ (display_track o = 0 \/ display_track o = 1 -> r2.1 = o))
  /\ (pressed b SW3 = false ->
      display_track r.1 = display_track o
      /\ (display_callsign r.1 = 0 <-> display_callsign o <> 0)
      /\ (display_callsign r.1 = 0 \/ display_callsign r.1 = 1)
      /\ (display_callsign o = 0 \/ display_callsign o = 1 -> r2.1 = o)).
Proof.
  intros Hn1 Hn2 H34 r r2. subst r2 r. unfold Update_Search_Range.
  rewrite Hn1, Hn2. destruct o as [t c].
  destruct (pressed b SW3) eqn:E3.
  - cbn [fst snd display_track display_callsign]. unfold logical_not.
    split; [reflexivity |]. split; [| discriminate]. intros _.
    split; [reflexivity |].
    destruct (Z.eqb_spec t 0) as [-> | Hne]; cbn.
    + repeat split; auto; try lia; discriminate.
    + repeat split; auto; try lia.
      intros [E | ->]; [contradiction | reflexivity].
  - destruct H34 as [E | E4]; [discriminate |]. rewrite E4.
    cbn [fst snd display_track display_callsign]. unfold logical_not.
    split; [reflexivity |]. split; [discriminate |]. intros _.
    split; [reflexivity |].
    destruct (Z.eqb_spec c 0) as [-> | Hne]; cbn.
    + repeat split; auto; try lia; discriminate.
    + repeat split; auto; try lia.
      intros [E | ->]; [contradiction | reflexivity].
Qed.

End RangeFacts.

(** ** The number formatter *)

Section FormatterFacts.
Context `{LibmDouble}.
Import Int IntFacts.

(** A number of magnitude below 1 has integer part 0. *)
Lemma truncate_below_one s m e :
  Zdigits2 (Z.pos m) + e <= 0 -> F32.truncate (S754_finite s m e) = 0.
Proof.
  intros Hd. unfold F32.truncate.
  pose proof (Rounding.Zdigits2_nonneg (Z.pos m)) as Hn.
  assert (Hpos : 0 < Zdigits2 (Z.pos m)).
  { destruct (Z.eq_dec (Zdigits2 (Z.pos m)) 0) as [E | NE]; [| lia].
    pose proof (proj1 (Rounding.Zdigits2_le (Z.pos m) 0 ltac:(lia) ltac:(lia))
                  ltac:(lia)) as Hlt.
    change (2 ^ 0) with 1 in Hlt. lia. }
  destruct (Z.leb_spec 0 e) as [He | He]; [lia |].
  assert (Hlt : Z.pos m < 2 ^ (- e)).
  { apply (Rounding.Zdigits2_le (Z.pos m) (- e)); lia. }
  rewrite Z.div_small by lia. destruct s; reflexivity.
Qed.

Lemma binary_round_aux_opp prec emax s m e l :
  binary_round_aux prec emax (negb s) m e l
  = SFopp (binary_round_aux prec emax s m e l).
Proof.
  unfold binary_round_aux.
  destruct (shr_fexp prec emax m e l) as [mrs1 e1].
  destruct (shr_fexp prec emax _ e1 loc_Exact) as [mrs2 e2].
  destruct (shr_m mrs2); [reflexivity | | reflexivity].
  destruct (e2 <=? emax - prec); reflexivity.
Qed.

Lemma SFmul_opp prec emax s m e y :
  SFmul prec emax (S754_finite (negb s) m e) y
  = SFopp (SFmul prec emax (S754_finite s m e) y).
Proof.
  destruct y as [sy | sy | | sy my ey]; cbn [SFmul SFopp];
    try rewrite negb_xorb_l; try reflexivity.
  rewrite <- binary_round_aux_opp, negb_xorb_l. reflexivity.
Qed.

Lemma truncate_opp x : F32.truncate (SFopp x) = - F32.truncate x.
Proof.
  destruct x as [s | s | | s m e]; try reflexivity.
  unfold F32.truncate, SFopp. destruct s; cbn [negb cond_Zopp]; lia.
Qed.

Lemma abs_to_int32_opp t : Int.abs (to_int32 (- t)) = Int.abs (to_int32 t).
Proof.
  unfold Int.abs. f_equal.
  assert (E : to_int32 (- t) = - to_int32 t
              \/ (to_int32 (- t) = -2147483648 /\ to_int32 t = -2147483648)).
  { unfold to_int32, to_signed. change (2 ^ (32 - 1)) with 2147483648.
    change (2 ^ 32) with 4294967296.
    pose proof (Z.div_mod (t + 2147483648) 4294967296 ltac:(lia)) as Hq.
    pose proof (Z.mod_pos_bound (t + 2147483648) 4294967296 ltac:(lia)) as Hr.
    set (q := (t + 2147483648) / 4294967296) in *.
    set (r := (t + 2147483648) mod 4294967296) in *.
    destruct (Z.eq_dec r 0) as [E0 | N0].
    - right. split; [| lia].
      rewrite <- (Z.mod_unique (- t + 2147483648) 4294967296 (1 - q) 0); lia.
    - left.
      rewrite <- (Z.mod_unique (- t + 2147483648) 4294967296 (- q)
                    (4294967296 - r)); lia. }
  destruct E as [-> | [-> ->]]; [apply Z.abs_opp | reflexivity].
Qed.

(** X19.  [float_to_string] gives [snprintf] the same arguments for a
    negative number above -1 as for the positive number of the same
    magnitude, with an integer part of 0: the text of a value between -1
    and 0 carries no minus sign, whatever [pow] returns. *)
Theorem float_to_string_drops_sign m e decimal_places :
  Zdigits2 (Z.pos m) + e <= 0 ->
  float_to_string (S754_finite true m e) decimal_places
  = float_to_string (S754_finite false m e) decimal_places
  /\ int_part (S754_finite true m e) = 0.
Proof.
  intros Hd. unfold float_to_string, decimal_part, int_part.
  rewrite !truncate_below_one by exact Hd.
  change (to_int32 0) with 0. change (F32.of_Z 0) with (S754_zero false).
  split; [| reflexivity]. f_equal.
  unfold F32.sub, F64.of_float, F64.mul. cbn [SFsub].
  change true with (negb false).
  rewrite SFmul_opp, truncate_opp. apply abs_to_int32_opp.
Qed.

End FormatterFacts.

(** ** The reference point on the screen *)

Section ReferencePoint.
Context `{Libm} `{Display}.
Import Int IntFacts.

Lemma is_finiteb_spec x : is_finiteb x = true -> is_finite x.
Proof. destruct x; cbn; auto; discriminate. Qed.

(** The pixels per kilometre are a finite number at every range that the
    buttons can set. *)
Lemma scale_finite range :
  MIN_RANGE <= range <= MAX_RANGE -> is_finite (scale range).
Proof.
  intros Hr. apply is_finiteb_spec.
  assert (Hall : forallb (fun r => is_finiteb (scale r)) button_ranges = true)
    by (vm_compute; reflexivity).
  rewrite forallb_forall in Hall. apply Hall.
  unfold button_ranges, MIN_RANGE, MAX_RANGE in *.
  apply in_map_iff. exists (Z.to_nat range). split; [lia |].
  apply in_seq. lia.
Qed.

Lemma mul_zero_finite s y :
  is_finite y -> exists s', F32.mul (S754_zero s) y = S754_zero s'.
Proof.
  destruct y; cbn; try contradiction; intros _; eexists; reflexivity.
Qed.

Lemma distance_at_reference a :
  at_reference a -> is_finite km_per_degree_lon ->
  distance_latitude_km a = S754_zero false
  /\ (exists s, distance_longitude_km a = S754_zero s)
  /\ distance_from_center a = S754_zero false.
Proof.
  intros [Hlat Hlon] Hfin.
  assert (E1 : distance_latitude_km a = S754_zero false).
  { unfold distance_latitude_km. rewrite Hlat. vm_compute. reflexivity. }
  assert (E2 : exists s, distance_longitude_km a = S754_zero s).
  { unfold distance_longitude_km. rewrite Hlon.
    change (F32.sub CENTER_LONGITUDE CENTER_LONGITUDE) with (S754_zero false).
    apply mul_zero_finite. exact Hfin. }
  split; [exact E1 |]. split; [exact E2 |].
  unfold distance_from_center. destruct E2 as [s ->]. rewrite E1.
  destruct s; vm_compute; reflexivity.
Qed.

Lemma of_Z_not_below_zero range :
  0 <= range -> F32.gt (S754_zero false) (F32.of_Z range) = false.
Proof.
  intros Hr. destruct (Z.eq_dec range 0) as [-> | NE]; [reflexivity |].
  pose proof (of_Z_sign range NE) as Hs.
  replace (range <? 0) with false in Hs by (symmetry; apply Z.ltb_ge; lia).
  unfold F32.gt, SFltb, SFcompare.
  destruct (F32.of_Z range) as [s | s | | s m e]; cbn in Hs;
    try (injection Hs as ->); reflexivity.
Qed.

(** X20.  A record at the reference point of the map, when the
    kilometres per degree of longitude are a finite number: it is within
    every display range, so the projector marks it visible; and at a
    range that the buttons can set, with [cosf] and [sinf] of its bearing
    finite, it is drawn at the centre of the radar. *)
Theorem reference_point_centred range a :
  at_reference a -> is_finite km_per_degree_lon -> 0 <= range ->
  beyond_range range a = false
  /\ (MIN_RANGE <= range <= MAX_RANGE ->
      is_finite (cosf (angle a)) -> is_finite (sinf (angle a)) ->
      0 <= radar_center_x ->
      projected_record range a
      = set_screen_xy radar_center_x radar_center_y (set_on_screen 1 a)).
Proof.
  intros Href Hfin Hr.
  destruct (distance_at_reference a Href Hfin) as (_ & _ & Hd).
  assert (Hin : beyond_range range a = false).
  { unfold beyond_range. rewrite Hd. apply of_Z_not_below_zero. exact Hr. }
  split; [exact Hin |].
  intros Hb Hcos Hsin Hcx. unfold projected_record. rewrite Hin.
  assert (Hpd : exists s, pixel_distance range a = S754_zero s).
  { unfold pixel_distance. rewrite Hd. apply mul_zero_finite.
    apply scale_finite. exact Hb. }
  destruct Hpd as [s Hpd].
  assert (Hx : projected_x range a = radar_center_x).
  { unfold projected_x. rewrite Hpd.
    destruct (mul_zero_finite s _ Hcos) as [s' ->].
    change (F32.truncate (S754_zero s')) with 0.
    change (to_int16 0) with 0. rewrite Z.add_0_r.
    assert (Hi : is_int16 radar_center_x).
    { unfold radar_center_x, to_int16, to_signed, is_int16.
      change (2 ^ (16 - 1)) with 32768. change (2 ^ 16) with 65536.
      pose proof (Z.mod_pos_bound (Int.div X_MAX 2 + 32768) 65536 ltac:(lia)).
      lia. }
    unfold is_int16 in Hi.
    rewrite (to_int16_id radar_center_x) by exact Hi.
    rewrite abs_small by lia. rewrite Z.abs_eq by lia.
    apply to_int16_id. exact Hi. }
  assert (Hy : projected_y range a = radar_center_y).
  { unfold projected_y. rewrite Hpd.
    destruct (mul_zero_finite s _ Hsin) as [s' ->].
    reflexivity. }
  rewrite Hx, Hy. reflexivity.
Qed.

End ReferencePoint.

(** ** The properties on the sample data *)

Lemma state_of_well_formed staging current sel :
  (length staging <= MAX_AIRCRAFTS)%nat ->
  (length current <= MAX_AIRCRAFTS)%nat ->
  well_formed (state_of staging current sel).
Proof.
  intros Hs Hc. unfold well_formed, state_of, slots. state_fields.
  rewrite !length_app, !length_replicate. lia.
Qed.

Lemma state_of_moderate staging current sel :
  Forall (fun a => F32.moderate (longitude a) /\ F32.moderate (latitude a))
    current ->
  moderate_positions (state_of staging current sel).
Proof.
  intros Hall i a. unfold state_of, slots. state_fields. intros Ha.
  apply lookup_app_Some in Ha as [Ha | [_ Ha]].
  - rewrite Forall_lookup in Hall. apply (Hall i a Ha).
  - apply lookup_replicate_1 in Ha as [-> _]. split; exact I.
Qed.

Lemma aircraft_at_moderate cs lon lat x y vis :
  Int.is_int32 lon -> Int.is_int32 lat ->
  F32.moderate (longitude (aircraft_at cs lon lat x y vis))
  /\ F32.moderate (latitude (aircraft_at cs lon lat x y vis)).
Proof.
  intros Hlon Hlat. split; apply Rounding.decode_fixed_moderate; assumption.
Qed.

(** C1.  UAL123 is selected at index 0 and the burst lists UAL123 at
    index 1: after the commit the selection is still index 0, which now
    holds DAL456.  The selection follows the slot, not the identifier. *)
Theorem commit_keeps_slot_of_selection :
  selected_callsign reordered_burst = Some UAL123
  /\ find_callsign UAL123 (staged reordered_burst) = Some 1%nat
  /\ selectedAircraft (commit reordered_burst) = 0
  /\ selected_callsign (commit reordered_burst) = Some DAL456.
Proof. vm_compute. repeat split; reflexivity. Qed.

(** C2.  UAL123 is selected and the burst does not list it: after the
    commit the selection is still index 0, not -1, and designates
    DAL456. *)
Theorem commit_keeps_selection_of_absent :
  selected_callsign departed_burst = Some UAL123
  /\ find_callsign UAL123 (staged departed_burst) = None
  /\ selectedAircraft (commit departed_burst) = 0
  /\ selected_callsign (commit departed_burst) = Some DAL456.
Proof. vm_compute. repeat split; reflexivity. Qed.

Lemma commit_replaces_live_witness :
  currentAircraftCount (commit first_burst) = 3%nat
  /\ live (commit first_burst) = staged first_burst
  /\ stagingAircraftCount (commit first_burst) = 0%nat.
Proof.
  apply (commit_replaces_live first_burst).
  apply state_of_well_formed; unfold MAX_AIRCRAFTS; cbn [length]; lia.
Defined.

Lemma UART4_Handler_words_witness :
  List.filter is_word_event (UART4_Handler uart_reset sample_bytes).2
  = [WriteFIFO DATA_FIFO 827081045; SignalSemaphore sem_BURST_COMPLETE].
Proof.
  destruct (UART4_Handler_words uart_reset sample_bytes) as [Hw _].
  - reflexivity.
  - reflexivity.
  - unfold sample_bytes, Int.is_byte. repeat constructor; lia.
  - exact Hw.
Defined.







Section Samples.
#[local] Existing Instance panel_240x320.
#[local] Existing Instance libm_due_east.

Lemma recalculate_screen_positions_record_witness :
  (exists a',
     currentAircrafts (recalculate_screen_positions far_selected_state) !! 0%nat
       = Some a'
     /\ on_screen a' = 0
     /\ selectedAircraft (recalculate_screen_positions far_selected_state) = -1)
  /\ (exists a',
        currentAircrafts (recalculate_screen_positions radar_state) !! 1%nat
          = Some a'
        /\ on_screen a' = 1 /\ screen_x a' = 131 /\ screen_y a' = 175).
Proof.
  split.
  - destruct (recalculate_screen_positions_record far_selected_state 0
                (aircraft_at SWA789 (-800000) 296465 120 175 1))
      as (a' & Ha & Hcase).
    + apply state_of_well_formed; unfold MAX_AIRCRAFTS; cbn [length]; lia.
    + cbn. lia.
    + reflexivity.
    + exists a'. split; [exact Ha |].
      change (F32.gt
                (radial_distance (aircraft_at SWA789 (-800000) 296465 120 175 1))
                (F32.of_Z (display_range_km far_selected_state)))
        with true in Hcase.
      destruct Hcase as [Hoff Hsel]. split; [exact Hoff |].
      apply Hsel. reflexivity.
  - destruct (recalculate_screen_positions_record radar_state 1
                (aircraft_at DAL456 (-823000) 296465 130 175 1))
      as (a' & Ha & Hcase).
    + apply state_of_well_formed; unfold MAX_AIRCRAFTS; cbn [length]; lia.
    + cbn. lia.
    + reflexivity.
    + exists a'. split; [exact Ha |].
      change (F32.gt
                (radial_distance (aircraft_at DAL456 (-823000) 296465 130 175 1))
                (F32.of_Z (display_range_km radar_state)))
        with false in Hcase.
      destruct Hcase as (Hon & _ & _ & Hx & Hy).
      split; [exact Hon |]. split.
      * rewrite Hx; [reflexivity | vm_compute; split; [discriminate | reflexivity]
                    | vm_compute; split; [discriminate | reflexivity]].
      * rewrite Hy; [reflexivity | vm_compute; split; [discriminate | reflexivity]
                    | vm_compute; split; [discriminate | reflexivity]].
Defined.

Lemma recalculate_screen_positions_idem_witness :
  recalculate_screen_positions (recalculate_screen_positions radar_state)
  = recalculate_screen_positions radar_state.
Proof.
  apply (recalculate_screen_positions_idem radar_state).
  apply state_of_well_formed; unfold MAX_AIRCRAFTS; cbn [length]; lia.
Defined.

Lemma radar_state_moderate : moderate_positions radar_state.
Proof.
  apply state_of_moderate.
  repeat (apply List.Forall_cons;
          [apply aircraft_at_moderate; unfold Int.is_int32; lia |]).
  apply List.Forall_nil.
Defined.

Lemma closest_aircraft_by_angle_nearest_witness :
  classify (determine_direction (joystick_offset 1000) (joystick_offset 2048))
    = Some East
  /\ (((forall j b, ~ candidate 3 radar_state East j b)
       /\ closest_aircraft_by_angle radar_state 1000 2048 = 0)
      \/ exists i a,
           closest_aircraft_by_angle radar_state 1000 2048 = Z.of_nat i
           /\ closest_aircraft_by_angle radar_state 1000 2048 <> 0
           /\ candidate 3 radar_state East i a
           /\ forall j b, candidate 3 radar_state East j b ->
                F32.lt (delta_from_selected radar_state East b)
                       (delta_from_selected radar_state East a) = false).
Proof.
  apply (closest_aircraft_by_angle_nearest radar_state 1000 2048).
  - apply state_of_well_formed; unfold MAX_AIRCRAFTS; cbn [length]; lia.
  - cbn. unfold MAX_AIRCRAFTS. lia.
  - unfold joystick_sample. lia.
  - unfold joystick_sample. lia.
  - lia.
  - exact radar_state_moderate.
Defined.

Lemma unselected_state_fits : distances_fit unselected_state.
Proof.
  intros i a Hi Ha _.
  destruct i as [| [| [| i]]]; [| | | cbn in Hi; lia];
    vm_compute in Ha; injection Ha as <-; vm_compute; discriminate.
Defined.

(** On this panel the thread measures from (120, 222); the projector
    places the centre of the map at (120, 175). *)
Example select_center_240x320 :
  (select_center_x, select_center_y) = (120, 222)
  /\ (radar_center_x, radar_center_y) = (120, 175).
Proof. split; reflexivity. Qed.

Lemma Select_Aircraft_confirm_nearest_witness :
  currentAircrafts (Select_Aircraft_confirm 1 unselected_state)
    = currentAircrafts unselected_state
  /\ ((none_visible 3 unselected_state
       /\ selectedAircraft (Select_Aircraft_confirm 1 unselected_state) = -1)
      \/ exists i,
           selectedAircraft (Select_Aircraft_confirm 1 unselected_state)
             = Z.of_nat i
           /\ first_nearest 3 unselected_state i).
Proof.
  apply (Select_Aircraft_confirm_nearest unselected_state 1).
  - apply state_of_well_formed; unfold MAX_AIRCRAFTS; cbn [length]; lia.
  - exact unselected_state_fits.
  - reflexivity.
  - lia.
Defined.

Lemma closest_aircraft_by_angle_no_direction_witness :
  determine_direction (joystick_offset 3048) (joystick_offset 1048)
    = mkDirections false false false false
  /\ closest_aircraft_by_angle radar_state 3048 1048 = 0.
Proof.
  apply (closest_aircraft_by_angle_no_direction radar_state 3048 1048).
  - unfold Int.is_int32. lia.
  - unfold Int.is_int32. lia.
  - reflexivity.
Defined.

End Samples.

(** C9.  The press does not select the record nearest to the centre of
    the display.  On a panel of 240 by 280 pixels the range circles are
    drawn around (120, 175), where the projector places the reference
    point, and the thread measures from (120, 192).  With UAL123 at
    (120, 175) and DAL456 at (120, 200), both visible, UAL123 is the record
    nearest to the centre, at index 0, and the press selects index 1.  The
    same holds on a panel of 240 by 320 pixels, where the projector's
    centre is (120, 175) too and the thread measures from (120, 222). *)
Theorem Select_Aircraft_confirm_off_centre :
  (@CENTER_X panel_240x280, @CENTER_Y panel_240x280) = (120, 175)
  /\ (@radar_center_x panel_240x280, radar_center_y) = (120, 175)
  /\ (@radar_center_x panel_240x320, radar_center_y) = (120, 175)
  /\ (@select_center_x panel_240x280, @select_center_y panel_240x280)
     = (120, 192)
  /\ (@select_center_x panel_240x320, @select_center_y panel_240x320)
     = (120, 222)
  /\ selectedAircraft off_centre_state = -1
  /\ first_nearest_to 120 175 (currentAircraftCount off_centre_state)
       off_centre_state 0
  /\ selectedAircraft (@Select_Aircraft_confirm panel_240x280 1 off_centre_state)
     = 1
  /\ selectedAircraft (@Select_Aircraft_confirm panel_240x320 1 off_centre_state)
     = 1.
Proof.
  repeat (split; [reflexivity |]).
  split; [| split; reflexivity].
  exists (aircraft_at UAL123 (-823533) 296465 120 175 1).
  split; [cbn; lia |]. split; [reflexivity |].
  split; [cbn; discriminate |].
  split; [| intros j b Hj; lia].
  intros j b Hj Hb _.
  destruct j as [| [| j]]; [| | cbn in Hj; lia];
    vm_compute in Hb; injection Hb as <-; vm_compute; discriminate.
Qed.

(** ** The further properties on the sample data *)

Lemma sample_message_is_message : message sample_message.
Proof.
  split; [reflexivity |].
  repeat (apply List.Forall_cons;
          [unfold data_word, Int.is_int32; lia |]).
  apply List.Forall_nil.
Defined.

Lemma uart_reset_boundary : message_boundary uart_reset.
Proof. unfold message_boundary. cbn. auto. Defined.

Lemma sample_state_well_formed staging current sel :
  (length staging <=? MAX_AIRCRAFTS)%nat = true ->
  (length current <=? MAX_AIRCRAFTS)%nat = true ->
  well_formed (state_of staging current sel).
Proof.
  intros Hs Hc. apply state_of_well_formed; apply Nat.leb_le; assumption.
Defined.

Lemma UART4_Handler_keeps_invariant_witness :
  uart_invariant (UART4_Handler uart_reset sample_bytes).1.
Proof.
  apply (UART4_Handler_keeps_invariant uart_reset sample_bytes).
  unfold uart_invariant, MESSAGE_SIZE. cbn. lia.
Defined.

Lemma UART4_Handler_burst_witness :
  let r := UART4_Handler uart_reset (burst_bytes [sample_message]) in
  r.2 = flat_map message_events [sample_message]
        ++ [SignalSemaphore sem_BURST_COMPLETE]
  /\ message_boundary r.1.
Proof.
  apply (UART4_Handler_burst uart_reset [sample_message]).
  - exact uart_reset_boundary.
  - apply List.Forall_cons; [exact sample_message_is_message |].
    apply List.Forall_nil.
Defined.

Lemma UART4_Handler_all_ones_in_message_witness :
  let r := UART4_Handler uart_reset
             (flat_map le_bytes ([827081045; 2110258] ++ [-1])) in
  r.2 = map (WriteFIFO DATA_FIFO) [827081045; 2110258]
        ++ [SignalSemaphore sem_BURST_COMPLETE]
  /\ message_boundary r.1.
Proof.
  apply (UART4_Handler_all_ones_in_message uart_reset [827081045; 2110258]).
  - exact uart_reset_boundary.
  - repeat (apply List.Forall_cons;
            [unfold data_word, Int.is_int32; lia |]).
    apply List.Forall_nil.
  - cbn [length]. lia.
Defined.

Lemma Process_New_Aircraft_appends_witness :
  exists st',
    Process_New_Aircraft_Thread sample_message 0 inhabitant first_burst
    = Some ([], st')
    /\ well_formed st'
    /\ staged st'
       = staged first_burst
         ++ [decode_record 827081045 2110258 (-823533) 296465 350000000
               2500000 900000 0 inhabitant].
Proof.
  destruct (Process_New_Aircraft_appends 827081045 2110258 (-823533) 296465
              350000000 2500000 900000 [] 0 inhabitant first_burst)
    as (st' & Hrun & Hwf & Happ & _).
  - apply sample_state_well_formed; reflexivity.
  - exists st'. split; [exact Hrun |]. split; [exact Hwf |].
    apply Happ. unfold MAX_AIRCRAFTS. cbn. lia.
Defined.

Lemma decoder_run_stages_witness :
  exists st',
    decoder_run [fresh_locals] (concat [sample_message]) first_burst
    = Some ([], st')
    /\ well_formed st'
    /\ staged st'
       = take MAX_AIRCRAFTS
           (staged first_burst
            ++ zip_with decode_message [sample_message] [fresh_locals]).
Proof.
  apply (decoder_run_stages [sample_message] [fresh_locals] first_burst).
  - apply sample_state_well_formed; reflexivity.
  - apply List.Forall_cons; [reflexivity | apply List.Forall_nil].
  - reflexivity.
Defined.

Lemma decode_fixed_finite_witness :
  is_finite (decode_fixed (-823533))
  /\ below F32.prec 20 (decode_fixed (-823533))
  /\ (-823533 <> 0 -> sign_bit (decode_fixed (-823533)) = Some (-823533 <? 0)).
Proof.
  apply (decode_fixed_finite (-823533)). unfold Int.is_int32. lia.
Defined.

Lemma commit_keeps_selection_index_witness :
  selectedAircraft (commit reordered_burst) = selectedAircraft reordered_burst.
Proof.
  apply (commit_keeps_selection_index reordered_burst).
  apply sample_state_well_formed; reflexivity.
Defined.

Lemma commit_frame_witness :
  well_formed (commit departed_burst)
  /\ display_range_km (commit departed_burst) = display_range_km departed_burst
  /\ stagingAircrafts (commit departed_burst) = stagingAircrafts departed_burst
  /\ signalled (commit departed_burst) = signalled departed_burst
  /\ drop (currentAircraftCount (commit departed_burst))
       (currentAircrafts (commit departed_burst))
     = drop (stagingAircraftCount departed_burst)
         (currentAircrafts departed_burst).
Proof.
  apply (commit_frame departed_burst).
  apply sample_state_well_formed; reflexivity.
Defined.

Lemma burst_becomes_live_witness :
  let evs := (UART4_Handler uart_reset (burst_bytes [sample_message])).2 in
  exists st1,
    decoder_run [fresh_locals] (fifo_writes evs) empty_state = Some ([], st1)
    /\ live (commit st1) = zip_with decode_message [sample_message] [fresh_locals]
    /\ currentAircraftCount (commit st1) = length [sample_message].
Proof.
  apply (burst_becomes_live uart_reset empty_state [sample_message]
           [fresh_locals]).
  - exact uart_reset_boundary.
  - apply sample_state_well_formed; reflexivity.
  - reflexivity.
  - apply List.Forall_cons; [exact sample_message_is_message |].
    apply List.Forall_nil.
  - reflexivity.
  - unfold MAX_AIRCRAFTS. cbn [length]. lia.
Defined.

Lemma closest_aircraft_by_angle_valid_witness :
  let r := closest_aircraft_by_angle radar_state 1000 2048 in
  (r = selectedAircraft radar_state
   \/ exists i, r = Z.of_nat i /\ Z.of_nat i <> selectedAircraft radar_state
                /\ visible_live radar_state i)
  /\ (selectedAircraft radar_state <> -1 -> r <> -1).
Proof.
  apply (closest_aircraft_by_angle_valid radar_state 1000 2048).
  apply sample_state_well_formed; reflexivity.
Defined.

Lemma float_to_string_drops_sign_witness :
  @float_to_string pow_ten_thousand (S754_finite true 1 (-1)) 4
  = @float_to_string pow_ten_thousand (S754_finite false 1 (-1)) 4
  /\ int_part (S754_finite true 1 (-1)) = 0.
Proof.
  apply (@float_to_string_drops_sign pow_ten_thousand 1 (-1) 4).
  cbn. lia.
Defined.

Section MoreSamples.
#[local] Existing Instance panel_240x320.
#[local] Existing Instance libm_due_east.
#[local] Existing Instance buttons_one_bit_each.

Lemma recalculate_screen_positions_frame_witness :
  let st' := recalculate_screen_positions radar_state in
  well_formed st'
  /\ display_range_km st' = display_range_km radar_state
  /\ stagingAircrafts st' = stagingAircrafts radar_state
  /\ stagingAircraftCount st' = stagingAircraftCount radar_state
  /\ currentAircraftCount st' = currentAircraftCount radar_state
  /\ forall i a, currentAircrafts radar_state !! i = Some a ->
       exists a',
         currentAircrafts st' !! i = Some a'
         /\ callsign a' = callsign a
         /\ longitude a' = longitude a /\ latitude a' = latitude a
         /\ altitude a' = altitude a /\ velocity a' = velocity a
         /\ heading a' = heading a
         /\ ((currentAircraftCount radar_state <= i)%nat -> a' = a).
Proof.
  apply (recalculate_screen_positions_frame radar_state).
  apply sample_state_well_formed; reflexivity.
Defined.

Lemma recalculate_screen_positions_selection_witness :
  let st' := recalculate_screen_positions far_selected_state in
  ((selectedAircraft st' = selectedAircraft far_selected_state
    /\ signalled st' = signalled far_selected_state)
   \/ (selectedAircraft st' = -1
       /\ signalled st' = sem_INFO_DISPLAY :: signalled far_selected_state))
  /\ forall i a', (i < currentAircraftCount far_selected_state)%nat ->
       currentAircrafts st' !! i = Some a' ->
       (on_screen a' = 0 \/ on_screen a' = 1)
       /\ (selectedAircraft st' = Z.of_nat i -> on_screen a' = 1).
Proof.
  apply (recalculate_screen_positions_selection far_selected_state).
  apply sample_state_well_formed; reflexivity.
Defined.

Lemma Update_Current_Aircrafts_Thread_publishes_witness :
  let st' := Update_Current_Aircrafts_Thread first_burst in
  well_formed st'
  /\ currentAircraftCount st' = stagingAircraftCount first_burst
  /\ stagingAircraftCount st' = 0%nat
  /\ live st'
     = map (projected_record (display_range_km first_burst))
         (staged first_burst)
  /\ (selectedAircraft st' = selectedAircraft first_burst
      \/ selectedAircraft st' = -1)
  /\ hd_error (signalled st') = Some sem_MAIN_DISPLAY.
Proof.
  apply (Update_Current_Aircrafts_Thread_publishes first_burst).
  apply sample_state_well_formed; reflexivity.
Defined.

Lemma Select_Aircraft_confirm_valid_witness :
  let st' := Select_Aircraft_confirm 1 unselected_state in
  currentAircrafts st' = currentAircrafts unselected_state
  /\ currentAircraftCount st' = currentAircraftCount unselected_state
  /\ (selectedAircraft st' = -1
      \/ exists i, selectedAircraft st' = Z.of_nat i
                   /\ visible_live unselected_state i)
  /\ (1 <> 0 ->
      signalled st'
      = sem_MAIN_DISPLAY :: sem_INFO_DISPLAY :: signalled unselected_state)
  /\ (1 = 0 -> st' = unselected_state).
Proof.
  apply (Select_Aircraft_confirm_valid unselected_state 1).
  - apply sample_state_well_formed; reflexivity.
  - reflexivity.
Defined.

Lemma Select_Aircraft_debounce_witness :
  let target := closest_aircraft_by_angle radar_state 1000 2048 in
  let moved :=
    G8RTOS_SignalSemaphore sem_INFO_DISPLAY
      (G8RTOS_SignalSemaphore sem_MAIN_DISPLAY
         (set_selectedAircraft target radar_state)) in
  target = 1
  /\ Select_Aircraft_Thread 0 pushed_sample true radar_state = (false, moved)
  /\ Select_Aircraft_run
       ((0, pushed_sample) :: [(0, pushed_sample); (0, pushed_sample)])
       true radar_state
     = (false, moved).
Proof.
  split; [reflexivity |].
  destruct (Select_Aircraft_debounce radar_state 0 pushed_sample
              [(0, pushed_sample); (0, pushed_sample)])
    as (Hfirst & Hrun & _).
  - apply sample_state_well_formed; reflexivity.
  - cbn. lia.
  - reflexivity.
  - repeat (apply List.Forall_cons; [reflexivity |]). apply List.Forall_nil.
  - split; [exact Hfirst | exact Hrun].
Defined.

Lemma Update_Search_Range_keeps_range_witness :
  let st' := (Update_Search_Range 14 overlays_on radar_state).2 in
  well_formed st'
  /\ MIN_RANGE <= display_range_km st' <= MAX_RANGE
  /\ Z.abs (display_range_km st' - display_range_km radar_state) <= 10
  /\ stagingAircrafts st' = stagingAircrafts radar_state
  /\ stagingAircraftCount st' = stagingAircraftCount radar_state
  /\ currentAircraftCount st' = currentAircraftCount radar_state
  /\ (forall i a, currentAircrafts radar_state !! i = Some a ->
        exists a', currentAircrafts st' !! i = Some a'
                   /\ callsign a' = callsign a
                   /\ longitude a' = longitude a
                   /\ latitude a' = latitude a)
  /\ (selectedAircraft st' = selectedAircraft radar_state
      \/ selectedAircraft st' = -1).
Proof.
  apply (Update_Search_Range_keeps_range 14 overlays_on radar_state).
  - apply sample_state_well_formed; reflexivity.
  - unfold MIN_RANGE, MAX_RANGE. cbn. lia.
Defined.

Lemma Update_Search_Range_round_trip_witness :
  display_range_km
    (Update_Search_Range 13 overlays_on
       (Update_Search_Range 14 overlays_on radar_state).2).2 = 50
  /\ display_range_km
       (Update_Search_Range 14 overlays_on
          (Update_Search_Range 13 overlays_on radar_state).2).2 = 50.
Proof.
  assert (Hw : well_formed radar_state)
    by (apply sample_state_well_formed; reflexivity).
  assert (Hr : MIN_RANGE <= display_range_km radar_state <= MAX_RANGE)
    by (unfold MIN_RANGE, MAX_RANGE; cbn; lia).
  pose proof (Update_Search_Range_round_trip 14 13 overlays_on radar_state
                Hw Hr eq_refl eq_refl eq_refl) as (Hup & Hdown & _).
  split.
  - apply Hup. unfold MAX_RANGE. cbn. lia.
  - apply Hdown. unfold MIN_RANGE. cbn. lia.
Defined.

Lemma Update_Search_Range_toggles_witness :
  let r := Update_Search_Range 11 overlays_on radar_state in
  let r2 := Update_Search_Range 11 r.1 r.2 in
  r.2 = G8RTOS_SignalSemaphore sem_MAIN_DISPLAY radar_state
  /\ (pressed 11 SW3 = true ->
      display_callsign r.1 = display_callsign overlays_on
      /\ (display_track r.1 = 0 <-> display_track overlays_on <> 0)
      /\ (display_track r.1 = 0 \/ display_track r.1 = 1)
      /\ (display_track overlays_on = 0 \/ display_track overlays_on = 1 ->
          r2.1 = overlays_on))
  /\ (pressed 11 SW3 = false ->
      display_track r.1 = display_track overlays_on
      /\ (display_callsign r.1 = 0 <-> display_callsign overlays_on <> 0)
      /\ (display_callsign r.1 = 0 \/ display_callsign r.1 = 1)
      /\ (display_callsign overlays_on = 0 \/ display_callsign overlays_on = 1 ->
          r2.1 = overlays_on)).
Proof.
  apply (Update_Search_Range_toggles 11 overlays_on radar_state).
  - reflexivity.
  - reflexivity.
  - left. reflexivity.
Defined.

Lemma reference_point_centred_witness :
  beyond_range 50 reference_aircraft = false
  /\ projected_record 50 reference_aircraft
     = set_screen_xy 120 175 (set_on_screen 1 reference_aircraft).
Proof.
  destruct (reference_point_centred 50 reference_aircraft) as [Hin Hxy].
  - split; reflexivity.
  - vm_compute. exact I.
  - lia.
  - split; [exact Hin |]. apply Hxy.
    + unfold MIN_RANGE, MAX_RANGE. lia.
    + vm_compute. exact I.
    + vm_compute. exact I.
    + vm_compute. discriminate.
Defined.

End MoreSamples.
